(** * Biblioteca: inventory consistency and reservation fulfilment

    A shallow embedding of the core of the library management system:
    the FIFO reservation queue ([estructuras_datos/cola.py]), the LIFO loan
    history ([estructuras_datos/pila.py]), sorted insertion
    ([algoritmos_ordenamiento/insercion.py]), binary search and the
    reservation check ([algoritmos_busqueda/busqueda_binaria.py]) and the
    inventory, user, loan and reservation managers
    ([gestor/gestor_inventario.py], [gestor/gestor_usuarios.py],
    [gestor/gestor_prestamos.py], [gestor/gestor_reservas.py]).

    Conventions of the embedding:
    - a Python [str] is a [string]; its characters are the code points
      0..255 and comparison is lexicographic by code point, as in Python;
    - a Python [int] is a [Z];
    - a raised exception is the left injection of [resultado];
    - [datetime.now()] is a parameter [ahora] of the operations that read
      the clock;
    - the [Libro] objects shared by the two inventory lists live in an
      object store, and the lists hold references into it;
    - the calls that save to disk ([guardar_inventario],
      [guardar_usuarios], [guardar_historial], [guardar_reservas]) and
      the [print]s are left out: they catch their own exceptions and
      change none of the state modelled here. *)

From Stdlib Require Import OrdersEx DecimalString.
From stdpp Require Import gmap strings list sorting.

Local Open Scope string_scope.
Local Open Scope Z_scope.
Local Open Scope list_scope.

(** ** Python strings *)

Module Cadena.

(** [str.isspace] on the code points below 256: TAB..CR, FS..US, SPACE,
    NEL (0x85) and NBSP (0xA0). *)
Definition es_espacio (c : Ascii.ascii) : bool :=
  let n := Ascii.nat_of_ascii c in
  ((9 <=? n)%nat && (n <=? 13)%nat)
  || ((28 <=? n)%nat && (n <=? 32)%nat)
  || (n =? 133)%nat || (n =? 160)%nat.

Fixpoint lstrip (s : string) : string :=
  match s with
  | EmptyString => EmptyString
  | String c r => if es_espacio c then lstrip r else s
  end.

Fixpoint rstrip (s : string) : string :=
  match s with
  | EmptyString => EmptyString
  | String c r =>
      match rstrip r with
      | EmptyString => if es_espacio c then EmptyString else String c EmptyString
      | r' => String c r'
      end
  end.

(** [s.strip()] *)
Definition strip (s : string) : string := rstrip (lstrip s).

(** Every character of [s] is whitespace (the empty string included). *)
Fixpoint solo_espacios (s : string) : bool :=
  match s with
  | EmptyString => true
  | String c r => es_espacio c && solo_espacios r
  end.

(** [not s or s.strip() == ""], the blank-identifier test of the
    constructors and of [encolar]/[apilar]. *)
Definition en_blanco (s : string) : bool :=
  String.eqb s "" || String.eqb (strip s) "".

(** Python's [a < b], [a <= b] and [a > b] on strings. *)
Definition lt (a b : string) : bool := String.ltb a b.
Definition le (a b : string) : bool := String.leb a b.
Definition gt (a b : string) : bool := String.ltb b a.

End Cadena.

(** ** Exceptions *)

Inductive excepcion : Type :=
  | ValueError (mensaje : string)
  | IndexError (mensaje : string).

(** [str(e)] *)
Definition str_excepcion (e : excepcion) : string :=
  match e with
  | ValueError m => m
  | IndexError m => m
  end.

(** [str(n)] of an [int], as the f-strings of the messages format it. *)
Definition str_int (n : Z) : string := NilZero.string_of_int (Z.to_int n).

(** The outcome of a call that may raise. *)
Definition resultado (A : Type) : Type := (excepcion + A)%type.

#[global] Instance excepcion_bind : MBind (sum excepcion) :=
  fun A B f m => match m with inl e => inl e | inr a => f a end.
#[global] Instance excepcion_ret : MRet (sum excepcion) := fun A a => inr a.

(** ** The reservation queue, [estructuras_datos/cola.py] *)

Module Cola.

(** A reservation record, the dict built by [encolar]. *)
Record registro : Type := Registro {
  id_usuario : string;
  isbn : string;
  fecha : string
}.

(** [capacidad_max] is [None] for an unbounded queue. *)
Record t : Type := Cola {
  elementos : list registro;
  capacidad_max : option Z
}.

Definition nueva (capacidad_max : option Z) : t :=
  {| elementos := []; capacidad_max := capacidad_max |}.

Definition tamanio (q : t) : Z := Z.of_nat (length (elementos q)).

Definition esta_vacia (q : t) : bool := tamanio q =? 0.

Definition esta_llena (q : t) : bool :=
  match capacidad_max q with
  | None => false
  | Some c => c <=? tamanio q
  end.

(** [encolar]: the two blank checks come first, then the capacity check;
    the record stores the stripped identifiers. *)
Definition encolar (ahora : string) (id_usuario isbn : string)
    (fecha : option string) (q : t) : resultado bool * t :=
  if Cadena.en_blanco id_usuario then
    (inl (ValueError "User ID cannot be empty"), q)
  else if Cadena.en_blanco isbn then
    (inl (ValueError "ISBN cannot be empty"), q)
  else if esta_llena q then (inr false, q)
  else
    let fecha := default ahora fecha in
    let registro :=
      {| id_usuario := Cadena.strip id_usuario;
         isbn := Cadena.strip isbn;
         fecha := fecha |} in
    (inr true,
     {| elementos := elementos q ++ [registro];
        capacidad_max := capacidad_max q |}).

(** [desencolar]: [self.elementos.pop(0)] behind the emptiness guard. *)
Definition desencolar (q : t) : option registro * t :=
  if esta_vacia q then (None, q)
  else (head (elementos q),
        {| elementos := tail (elementos q);
           capacidad_max := capacidad_max q |}).

Definition frente (q : t) : option registro :=
  if esta_vacia q then None else head (elementos q).

Definition obtener_todos (q : t) : list registro := elementos q.

Definition buscar_libro (isbn_b : string) (q : t) : list registro :=
  List.filter (fun r => String.eqb (isbn r) isbn_b) (elementos q).

Definition tiene_reserva (id isbn_b : string) (q : t) : bool :=
  existsb (fun r => String.eqb (id_usuario r) id && String.eqb (isbn r) isbn_b)
    (elementos q).

Definition contar_reservas_libro (isbn_b : string) (q : t) : Z :=
  Z.of_nat (length (buscar_libro isbn_b q)).

(** [obtener_siguiente_usuario]: the first record whose ISBN is the one
    asked for, the queue untouched. *)
Definition obtener_siguiente_usuario (isbn_b : string) (q : t)
    : option registro :=
  List.find (fun r => String.eqb (isbn r) isbn_b) (elementos q).

(** [vaciar]: [self.elementos.clear()]. *)
Definition vaciar (q : t) : t :=
  {| elementos := []; capacidad_max := capacidad_max q |}.

Definition buscar_usuario (id : string) (q : t) : list registro :=
  List.filter (fun r => String.eqb (id_usuario r) id) (elementos q).

(** The test [registro["id_usuario"] == id_usuario and
    registro["isbn"] == isbn] of the scans by both keys. *)
Definition coincide (id isbn_b : string) (r : registro) : bool :=
  String.eqb (id_usuario r) id && String.eqb (isbn r) isbn_b.

(** The loop of [posicion_usuario] from index [index] on. *)
Fixpoint posicion_desde (id isbn_b : string) (index : nat)
    (l : list registro) : Z :=
  match l with
  | [] => -1
  | r :: resto =>
      if coincide id isbn_b r then Z.of_nat index + 1
      else posicion_desde id isbn_b (S index) resto
  end.

(** [posicion_usuario]: the 1-based position of the first record of the
    user for the book, or -1. *)
Definition posicion_usuario (id isbn_b : string) (q : t) : Z :=
  posicion_desde id isbn_b 0 (elementos q).

(** The loop of [remover_reserva]: [self.elementos.pop(i)] at the first
    record that matches, [None] when the loop runs out. *)
Fixpoint quitar_primera (id isbn_b : string) (l : list registro)
    : option (list registro) :=
  match l with
  | [] => None
  | r :: resto =>
      if coincide id isbn_b r then Some resto
      else cons r <$> quitar_primera id isbn_b resto
  end.

Definition remover_reserva (id isbn_b : string) (q : t) : bool * t :=
  match quitar_primera id isbn_b (elementos q) with
  | Some l => (true, {| elementos := l; capacidad_max := capacidad_max q |})
  | None => (false, q)
  end.

End Cola.

(** ** The loan history, [estructuras_datos/pila.py] *)

Module Pila.

Record registro : Type := Registro {
  isbn : string;
  fecha : string
}.

Record t : Type := Pila {
  elementos : list registro;
  capacidad_max : option Z
}.

Definition nueva (capacidad_max : option Z) : t :=
  {| elementos := []; capacidad_max := capacidad_max |}.

Definition tamanio (p : t) : Z := Z.of_nat (length (elementos p)).

Definition esta_vacia (p : t) : bool := tamanio p =? 0.

Definition esta_llena (p : t) : bool :=
  match capacidad_max p with
  | None => false
  | Some c => c <=? tamanio p
  end.

(** [apilar]: [self.elementos.append(registro)], the top is the tail. *)
Definition apilar (ahora : string) (isbn : string) (fecha : option string)
    (p : t) : resultado bool * t :=
  if Cadena.en_blanco isbn then (inl (ValueError "ISBN cannot be empty"), p)
  else if esta_llena p then (inr false, p)
  else
    let fecha := default ahora fecha in
    let registro := {| isbn := Cadena.strip isbn; fecha := fecha |} in
    (inr true,
     {| elementos := elementos p ++ [registro];
        capacidad_max := capacidad_max p |}).

(** [desapilar]: [self.elementos.pop()] behind the emptiness guard. *)
Definition desapilar (p : t) : option registro * t :=
  if esta_vacia p then (None, p)
  else (last (elementos p),
        {| elementos := removelast (elementos p);
           capacidad_max := capacidad_max p |}).

Definition tope (p : t) : option registro :=
  if esta_vacia p then None else last (elementos p).

(** [obtener_todos]: [return self.elementos.copy()]. *)
Definition obtener_todos (p : t) : list registro := elementos p.

(** [__iter__]: [for registro in reversed(self.elementos)]. *)
Definition iter (p : t) : list registro := reverse (elementos p).

(** [buscar]: every entry of the ISBN, in storage order. *)
Definition buscar (isbn_b : string) (p : t) : list registro :=
  List.filter (fun r => String.eqb (isbn r) isbn_b) (elementos p).

(** [contar_prestamos_libro]:
    [sum(1 for registro in self.elementos if registro["isbn"] == isbn)]. *)
Definition contar_prestamos_libro (isbn_b : string) (p : t) : Z :=
  Z.of_nat (length (buscar isbn_b p)).

(** [vaciar]: [self.elementos.clear()]. *)
Definition vaciar (p : t) : t :=
  {| elementos := []; capacidad_max := capacidad_max p |}.

End Pila.

(** ** Python list primitives *)

(** [l[i]] with Python's negative indexing; out of range raises. *)
Definition getitem {A : Type} (l : list A) (i : Z) : resultado A :=
  let n := Z.of_nat (length l) in
  let j := if i <? 0 then i + n else i in
  if (0 <=? j) && (j <? n) then
    match l !! Z.to_nat j with
    | Some a => inr a
    | None => inl (IndexError "list index out of range")
    end
  else inl (IndexError "list index out of range").

(** [l.insert(pos, x)] for [pos >= 0]; a position past the end appends. *)
Definition list_insert_en {A : Type} (pos : nat) (x : A) (l : list A)
    : list A :=
  take pos l ++ x :: drop pos l.

(** The scan shared by [verificar_ordenamiento] and
    [verificar_lista_ordenada]: the first index [i], counted from
    [desde], where [clave l[i] > clave l[i+1]]. *)
Fixpoint primer_desorden {A : Type} (clave : A -> string) (desde : nat)
    (l : list A) : option nat :=
  match l with
  | a :: (b :: _) as resto =>
      if Cadena.gt (clave a) (clave b) then Some desde
      else primer_desorden clave (S desde) resto
  | _ => None
  end.

(** ** Sorted insertion, [algoritmos_ordenamiento/insercion.py] *)

Module Insercion.
Section Insercion.
Context {A : Type} (clave : A -> string).

(** The loop of [insertar_ordenado]: [posicion] is the value the
    variable holds when the loop is left, [i] the index of [enumerate]. *)
Fixpoint buscar_posicion (valor_nuevo : string) (i posicion : nat)
    (l : list A) : nat :=
  match l with
  | [] => posicion
  | libro :: resto =>
      if Cadena.gt (clave libro) valor_nuevo then i
      else buscar_posicion valor_nuevo (S i) (S i) resto
  end.

Definition insertar_ordenado (lista_ordenada : list A) (nuevo_libro : A)
    : list A :=
  let valor_nuevo := clave nuevo_libro in
  let posicion := buscar_posicion valor_nuevo 0 0 lista_ordenada in
  list_insert_en posicion nuevo_libro lista_ordenada.

Definition verificar_ordenamiento (lista_libros : list A) : bool :=
  match primer_desorden clave 0 lista_libros with
  | None => true
  | Some _ => false
  end.

(** [obtener_posicion_insercion]: the index of the first element whose
    key is greater than [valor], or the length. *)
Fixpoint obtener_posicion_insercion (valor : string) (l : list A) : nat :=
  match l with
  | [] => 0
  | libro :: resto =>
      if Cadena.gt (clave libro) valor then 0%nat
      else S (obtener_posicion_insercion valor resto)
  end.

(** The test that ends the inner loop of [ordenamiento_insercion]. *)
Definition detener (reverso : bool) (valor_comparacion valor_actual : string)
    : bool :=
  if reverso then Cadena.lt valor_comparacion valor_actual
  else Cadena.le valor_comparacion valor_actual.

(** The inner loop [while j >= 0]; [j1] is [j + 1], and the result is
    the list after the shifts with the final [j + 1]. *)
Fixpoint desplazar (reverso : bool) (valor_actual : string) (j1 : nat)
    (lista_libros : list A) : resultado (list A * nat) :=
  match j1 with
  | O => inr (lista_libros, O)
  | S j =>
      libro_j ← getitem lista_libros (Z.of_nat j);
      if detener reverso (clave libro_j) valor_actual then
        inr (lista_libros, j1)
      else desplazar reverso valor_actual j (<[S j := libro_j]> lista_libros)
  end.

(** The outer loop [for i in range(1, n)], [pasos] iterations from [i]
    on; the indices written are those just read, so [<[_ := _]>] never
    falls out of range. *)
Fixpoint ordenar_desde (reverso : bool) (pasos i : nat)
    (lista_libros : list A) : resultado (list A) :=
  match pasos with
  | O => inr lista_libros
  | S pasos' =>
      elemento_actual ← getitem lista_libros (Z.of_nat i);
      '(lista, j1) ← desplazar reverso (clave elemento_actual) i lista_libros;
      ordenar_desde reverso pasos' (S i) (<[j1 := elemento_actual]> lista)
  end.

(** [ordenamiento_insercion(lista_libros, clave, reverso)] *)
Definition ordenamiento_insercion (lista_libros : list A) (reverso : bool)
    : resultado (list A) :=
  let n := length lista_libros in
  ordenar_desde reverso (n - 1) 1 lista_libros.

End Insercion.
End Insercion.

(** ** Binary search, [algoritmos_busqueda/busqueda_binaria.py] *)

Module BusquedaBinaria.
Section BusquedaBinaria.
Context {A : Type} (isbn_de : A -> string).

(** The [while inicio <= fin] loop.  [n] bounds the number of
    iterations; [busqueda_binaria] passes the width of the interval,
    which the loop never exhausts while [inicio <= fin] holds. *)
Fixpoint bucle (n : nat) (lista_ordenada : list A) (isbn_buscado : string)
    (inicio fin : Z) : resultado Z :=
  match n with
  | O => inr (-1)
  | S n' =>
      if inicio <=? fin then
        let medio := (inicio + fin) `div` 2 in
        libro_medio ← getitem lista_ordenada medio;
        let isbn_medio := Cadena.strip (isbn_de libro_medio) in
        if String.eqb isbn_medio isbn_buscado then inr medio
        else if Cadena.lt isbn_medio isbn_buscado then
          bucle n' lista_ordenada isbn_buscado (medio + 1) fin
        else
          bucle n' lista_ordenada isbn_buscado inicio (medio - 1)
      else inr (-1)
  end.

(** [busqueda_binaria(lista_ordenada, isbn_buscado, inicio=0, fin=None)] *)
Definition busqueda_binaria (lista_ordenada : list A) (isbn_buscado : string)
    (inicio : Z) (fin : option Z) : resultado Z :=
  let fin := default (Z.of_nat (length lista_ordenada) - 1) fin in
  let isbn_buscado := Cadena.strip isbn_buscado in
  bucle (Z.to_nat (fin - inicio + 1)) lista_ordenada isbn_buscado inicio fin.

(** [buscar_libro_por_isbn]: the element at the position found. *)
Definition buscar_libro_por_isbn (lista_ordenada : list A) (isbn : string)
    : resultado (option A) :=
  posicion ← busqueda_binaria lista_ordenada isbn 0 None;
  if negb (posicion =? -1) then
    libro ← getitem lista_ordenada posicion; mret (Some libro)
  else mret None.

(** The result dict of [verificar_lista_ordenada], without its message. *)
Record orden : Type := Orden {
  ordenada : bool;
  error_posicion : Z
}.

(** [verificar_lista_ordenada]: sortedness by the stripped ISBN. *)
Definition verificar_lista_ordenada (lista_libros : list A) : orden :=
  match primer_desorden (fun a => Cadena.strip (isbn_de a)) 0 lista_libros with
  | None => {| ordenada := true; error_posicion := -1 |}
  | Some i => {| ordenada := false; error_posicion := Z.of_nat i |}
  end.

(** [busqueda_binaria_recursiva]: one call per level of [n]; the
    searched ISBN is stripped again at every call. *)
Fixpoint recursiva_desde (n : nat) (lista_ordenada : list A)
    (isbn_buscado : string) (inicio fin : Z) : resultado Z :=
  match n with
  | O => inr (-1)
  | S n' =>
      if fin <? inicio then inr (-1)
      else
        let isbn_buscado := Cadena.strip isbn_buscado in
        let medio := (inicio + fin) `div` 2 in
        libro_medio ← getitem lista_ordenada medio;
        let isbn_medio := Cadena.strip (isbn_de libro_medio) in
        if String.eqb isbn_medio isbn_buscado then inr medio
        else if Cadena.lt isbn_medio isbn_buscado then
          recursiva_desde n' lista_ordenada isbn_buscado (medio + 1) fin
        else
          recursiva_desde n' lista_ordenada isbn_buscado inicio (medio - 1)
  end.

Definition busqueda_binaria_recursiva (lista_ordenada : list A)
    (isbn_buscado : string) (inicio : Z) (fin : option Z) : resultado Z :=
  let fin := default (Z.of_nat (length lista_ordenada) - 1) fin in
  recursiva_desde (Z.to_nat (fin - inicio + 1)) lista_ordenada isbn_buscado
    inicio fin.

(** The result dict of [contar_comparaciones_binaria]. *)
Record conteo : Type := Conteo {
  posicion : Z;
  comparaciones : Z;
  encontrado : bool
}.

(** The loop of [contar_comparaciones_binaria], [comparaciones] being
    the counter on entry. *)
Fixpoint contar_bucle (n : nat) (lista_ordenada : list A)
    (isbn_buscado : string) (inicio fin comparaciones : Z)
    : resultado conteo :=
  match n with
  | O => inr {| posicion := -1; comparaciones := comparaciones;
                encontrado := false |}
  | S n' =>
      if inicio <=? fin then
        let comparaciones := comparaciones + 1 in
        let medio := (inicio + fin) `div` 2 in
        libro_medio ← getitem lista_ordenada medio;
        let isbn_medio := Cadena.strip (isbn_de libro_medio) in
        if String.eqb isbn_medio isbn_buscado then
          inr {| posicion := medio; comparaciones := comparaciones;
                 encontrado := true |}
        else if Cadena.lt isbn_medio isbn_buscado then
          contar_bucle n' lista_ordenada isbn_buscado (medio + 1) fin
            comparaciones
        else
          contar_bucle n' lista_ordenada isbn_buscado inicio (medio - 1)
            comparaciones
      else inr {| posicion := -1; comparaciones := comparaciones;
                  encontrado := false |}
  end.

Definition contar_comparaciones_binaria (lista_ordenada : list A)
    (isbn_buscado : string) : resultado conteo :=
  let inicio := 0 in
  let fin := Z.of_nat (length lista_ordenada) - 1 in
  let isbn_buscado := Cadena.strip isbn_buscado in
  contar_bucle (Z.to_nat (fin - inicio + 1)) lista_ordenada isbn_buscado
    inicio fin 0.

End BusquedaBinaria.
End BusquedaBinaria.

(** ** The entities, [models/libro.py] and [models/usuario.py] *)

Module Libro.

(** The attributes the modelled operations read or write; [peso],
    [valor], [genero], [editorial] and [anio_publicacion] are carried by
    the objects but never touched by them. *)
Record t : Type := Libro {
  isbn : string;
  titulo : string;
  autor : string;
  stock : Z
}.

Definition incrementar_stock (b : t) : t :=
  {| isbn := isbn b; titulo := titulo b; autor := autor b;
     stock := stock b + 1 |}.

Definition decrementar_stock (b : t) : bool * t :=
  if 0 <? stock b then
    (true, {| isbn := isbn b; titulo := titulo b; autor := autor b;
              stock := stock b - 1 |})
  else (false, b).

Definition esta_disponible (b : t) : bool := 0 <? stock b.

#[global] Instance inhabited : Inhabited t := populate (Libro "" "" "" 0).

End Libro.

Module Usuario.

Record t : Type := Usuario {
  id_usuario : string;
  nombre : string;
  email : string;
  activo : bool;
  libros_prestados : Z;
  max_prestamos : Z
}.

Definition con_prestados (n : Z) (u : t) : t :=
  {| id_usuario := id_usuario u; nombre := nombre u; email := email u;
     activo := activo u; libros_prestados := n;
     max_prestamos := max_prestamos u |}.

Definition puede_prestar (u : t) : bool :=
  activo u && (libros_prestados u <? max_prestamos u).

Definition incrementar_prestamos (u : t) : bool * t :=
  if puede_prestar u then (true, con_prestados (libros_prestados u + 1) u)
  else (false, u).

Definition decrementar_prestamos (u : t) : bool * t :=
  if 0 <? libros_prestados u then
    (true, con_prestados (libros_prestados u - 1) u)
  else (false, u).

Definition con_activo (a : bool) (u : t) : t :=
  {| id_usuario := id_usuario u; nombre := nombre u; email := email u;
     activo := a; libros_prestados := libros_prestados u;
     max_prestamos := max_prestamos u |}.

Definition desactivar (u : t) : t := con_activo false u.

Definition activar (u : t) : t := con_activo true u.

Definition tiene_prestamos_pendientes (u : t) : bool := 0 <? libros_prestados u.

Definition obtener_cupo_disponible (u : t) : Z :=
  max_prestamos u - libros_prestados u.

End Usuario.

(** ** The inventory manager, [gestor/gestor_inventario.py] *)

Module GestorInventario.

(** [libros] is the object store; the two inventories are lists of
    references (indices) into it, so that the same [Libro] object is
    seen through both. *)
Record t : Type := GestorInventario {
  libros : list Libro.t;
  inventario_general : list nat;
  inventario_ordenado : list nat
}.

(** [libro.isbn] through a reference. *)
Definition isbn_en (almacen : list Libro.t) (r : nat) : string :=
  Libro.isbn (almacen !!! r).

Definition isbn_de (g : t) : nat -> string := isbn_en (libros g).

(** Every reference of the two lists points into the store. *)
Definition referencias_validas (g : t) : Prop :=
  Forall (fun r => (r < length (libros g))%nat)
    (inventario_general g ++ inventario_ordenado g).

Definition buscar_por_isbn (isbn : string) (g : t) : resultado (option nat) :=
  BusquedaBinaria.buscar_libro_por_isbn (isbn_de g) (inventario_ordenado g) isbn.

(** [agregar_libro]: the duplicate check by binary search, then the
    append to the general list and the sorted insert; any exception is
    caught and answered with [False]. *)
Definition agregar_libro (libro : Libro.t) (g : t) : bool * t :=
  match buscar_por_isbn (Libro.isbn libro) g with
  | inl _ => (false, g)
  | inr (Some _) => (false, g)
  | inr None =>
      let r := length (libros g) in
      let almacen := libros g ++ [libro] in
      (true,
       {| libros := almacen;
          inventario_general := inventario_general g ++ [r];
          inventario_ordenado :=
            Insercion.insertar_ordenado (isbn_en almacen)
              (inventario_ordenado g) r |})
  end.

(** [eliminar_libro]: both lists rebuilt without the books of that ISBN. *)
Definition eliminar_libro (isbn : string) (g : t) : bool * t :=
  (true,
   {| libros := libros g;
      inventario_general :=
        List.filter (fun r => negb (String.eqb (isbn_de g r) isbn))
          (inventario_general g);
      inventario_ordenado :=
        List.filter (fun r => negb (String.eqb (isbn_de g r) isbn))
          (inventario_ordenado g) |}).

(** The set of ISBNs of a list of references, [set(libro.isbn for ...)]. *)
Definition isbns (g : t) (l : list nat) : gset string :=
  list_to_set (isbn_de g <$> l).

(** The result dict of [verificar_consistencia]. *)
Record consistencia : Type := Consistencia {
  consistente : bool;
  mismo_tamanio : bool;
  mismos_libros : bool;
  ordenado_correcto : bool;
  total_general : Z;
  total_ordenado : Z
}.

Definition verificar_consistencia (g : t) : consistencia :=
  let general_isbns := isbns g (inventario_general g) in
  let ordenado_isbns := isbns g (inventario_ordenado g) in
  let mismo_tamanio :=
    Nat.eqb (length (inventario_general g)) (length (inventario_ordenado g)) in
  let mismos_libros := bool_decide (general_isbns = ordenado_isbns) in
  let esta_ordenado :=
    Insercion.verificar_ordenamiento (isbn_de g) (inventario_ordenado g) in
  {| consistente := mismo_tamanio && mismos_libros && esta_ordenado;
     mismo_tamanio := mismo_tamanio;
     mismos_libros := mismos_libros;
     ordenado_correcto := esta_ordenado;
     total_general := Z.of_nat (length (inventario_general g));
     total_ordenado := Z.of_nat (length (inventario_ordenado g)) |}.

(** The operations of the add/remove interface and their runs. *)
Inductive operacion : Type :=
  | Agregar (libro : Libro.t)
  | Eliminar (isbn : string).

Definition aplicar (g : t) (o : operacion) : t :=
  match o with
  | Agregar libro => (agregar_libro libro g).2
  | Eliminar isbn => (eliminar_libro isbn g).2
  end.

Definition ejecutar (ops : list operacion) (g : t) : t :=
  fold_left aplicar ops g.

(** [cargar_inventario], from the point where the book objects have
    been built from the records read: the general inventory lists them
    in load order, the sorted one is its copy sorted by
    [ordenamiento_insercion]; an exception leaves both empty. *)
Definition cargar_inventario (datos : list Libro.t) : t :=
  let general := seq 0 (length datos) in
  match Insercion.ordenamiento_insercion (isbn_en datos) general false with
  | inr ordenado =>
      {| libros := datos; inventario_general := general;
         inventario_ordenado := ordenado |}
  | inl _ =>
      {| libros := datos; inventario_general := [];
         inventario_ordenado := [] |}
  end.

(** [actualizar_libro(isbn_original, libro_actualizado)], the second
    definition of the class, which replaces the first: remove the old
    book, then add the updated one. *)
Definition actualizar_libro (isbn_original : string)
    (libro_actualizado : Libro.t) (g : t) : bool * t :=
  let (eliminado, g1) := eliminar_libro isbn_original g in
  if eliminado then agregar_libro libro_actualizado g1 else (false, g1).

End GestorInventario.

(** ** The user manager, [gestor/gestor_usuarios.py] *)

(** The result dict of the operations that answer with ['exito'] and
    ['mensaje'] alone. *)
Module Respuesta.
Record t : Type := Respuesta {
  exito : bool;
  mensaje : string
}.
End Respuesta.

(** The result dict of [validar_puede_prestar]. *)
Module Validacion.
Record t : Type := Validacion {
  puede_prestar : bool;
  razon : string
}.
End Validacion.

Module GestorUsuarios.

(** The manager is its dict [self.usuarios], from user id to [Usuario]
    object. *)

Definition obtener_usuario (id_usuario : string)
    (usuarios : gmap string Usuario.t) : option Usuario.t :=
  usuarios !! id_usuario.

Definition validar_puede_prestar (id_usuario : string)
    (usuarios : gmap string Usuario.t) : Validacion.t :=
  match usuarios !! id_usuario with
  | None =>
      {| Validacion.puede_prestar := false;
         Validacion.razon := "User not found" |}
  | Some usuario =>
      if negb (Usuario.activo usuario) then
        {| Validacion.puede_prestar := false;
           Validacion.razon := "User account is inactive" |}
      else if negb (Usuario.puede_prestar usuario) then
        {| Validacion.puede_prestar := false;
           Validacion.razon :=
             "User has reached maximum loans (" +:+
             str_int (Usuario.max_prestamos usuario) +:+ ")" |}
      else
        {| Validacion.puede_prestar := true;
           Validacion.razon :=
             "User can borrow " +:+
             str_int (Usuario.obtener_cupo_disponible usuario) +:+
             " more book(s)" |}
  end.

Definition activar_usuario (id_usuario : string)
    (usuarios : gmap string Usuario.t)
    : Respuesta.t * gmap string Usuario.t :=
  match usuarios !! id_usuario with
  | None =>
      ({| Respuesta.exito := false;
          Respuesta.mensaje := "User " +:+ id_usuario +:+ " not found" |},
       usuarios)
  | Some _ =>
      ({| Respuesta.exito := true;
          Respuesta.mensaje := "User " +:+ id_usuario +:+ " activated" |},
       alter Usuario.activar id_usuario usuarios)
  end.

Definition desactivar_usuario (id_usuario : string)
    (usuarios : gmap string Usuario.t)
    : Respuesta.t * gmap string Usuario.t :=
  match usuarios !! id_usuario with
  | None =>
      ({| Respuesta.exito := false;
          Respuesta.mensaje := "User " +:+ id_usuario +:+ " not found" |},
       usuarios)
  | Some _ =>
      ({| Respuesta.exito := true;
          Respuesta.mensaje := "User " +:+ id_usuario +:+ " deactivated" |},
       alter Usuario.desactivar id_usuario usuarios)
  end.

End GestorUsuarios.

(** ** The loan manager, [gestor/gestor_prestamos.py] *)

(** The result dict of [verificar_y_asignar_reserva].  The key ['error']
    is never set: [procesar_prestamo_automatico] catches its own
    exceptions. *)
Module Verificacion.
Record t : Type := Verificacion {
  libro_encontrado : bool;
  posicion : Z;
  tiene_reservas : bool;
  usuario_asignado : option string;
  reserva_procesada : option Cola.registro;
  prestamo_procesado : option bool
}.
End Verificacion.

(** The result dict of [devolver_libro]; [usuario_asignado] is [None]
    when the key is absent. *)
Module Devolucion.
Record detalles : Type := Detalles {
  usuario : string;
  libro : string;
  isbn : string;
  fecha_devolucion : string;
  stock_actual : Z;
  prestamos_actuales_usuario : Z;
  usuario_asignado : option (option string)
}.
Record t : Type := Devolucion {
  exito : bool;
  mensaje : string;
  detalles_de : option detalles;
  reserva_asignada : option bool
}.
Definition fallo (mensaje : string) : t :=
  {| exito := false; mensaje := mensaje; detalles_de := None;
     reserva_asignada := None |}.
End Devolucion.

(** The result dict of [crear_prestamo]. *)
Module Prestamo.
Record detalles : Type := Detalles {
  usuario : string;
  libro : string;
  isbn : string;
  fecha : string;
  prestamos_actuales : Z;
  stock_restante : Z
}.
Record t : Type := Prestamo {
  exito : bool;
  mensaje : string;
  detalles_de : option detalles
}.
Definition fallo (mensaje : string) : t :=
  {| exito := false; mensaje := mensaje; detalles_de := None |}.
End Prestamo.

(** The result dict of [validar_prestamo_posible]. *)
Module Posible.
Record detalles : Type := Detalles {
  usuario : string;
  libro : string;
  cupo_restante : Z;
  stock_libro : Z
}.
Record t : Type := Posible {
  valido : bool;
  razon : string;
  detalles_de : option detalles
}.
Definition fallo (razon : string) : t :=
  {| valido := false; razon := razon; detalles_de := None |}.
End Posible.

Module GestorPrestamos.

(** The loan manager with the managers it holds references to:
    [usuarios] is [gestor_usuarios.usuarios], [cola_reservas] is
    [gestor_reservas.cola_reservas]. *)
Record t : Type := GestorPrestamos {
  gestor_inventario : GestorInventario.t;
  usuarios : gmap string Usuario.t;
  cola_reservas : Cola.t;
  historial_prestamos : gmap string Pila.t
}.

Definition con_inventario (g : GestorInventario.t) (s : t) : t :=
  {| gestor_inventario := g; usuarios := usuarios s;
     cola_reservas := cola_reservas s;
     historial_prestamos := historial_prestamos s |}.

Definition con_usuarios (u : gmap string Usuario.t) (s : t) : t :=
  {| gestor_inventario := gestor_inventario s; usuarios := u;
     cola_reservas := cola_reservas s;
     historial_prestamos := historial_prestamos s |}.

Definition con_cola (q : Cola.t) (s : t) : t :=
  {| gestor_inventario := gestor_inventario s; usuarios := usuarios s;
     cola_reservas := q; historial_prestamos := historial_prestamos s |}.

Definition con_historial (h : gmap string Pila.t) (s : t) : t :=
  {| gestor_inventario := gestor_inventario s; usuarios := usuarios s;
     cola_reservas := cola_reservas s; historial_prestamos := h |}.

(** The [Libro] object behind a reference, and its mutation in place. *)
Definition libro_en (s : t) (r : nat) : Libro.t :=
  GestorInventario.libros (gestor_inventario s) !!! r.

Definition mutar_libro (f : Libro.t -> Libro.t) (r : nat) (s : t) : t :=
  let g := gestor_inventario s in
  con_inventario
    {| GestorInventario.libros := alter f r (GestorInventario.libros g);
       GestorInventario.inventario_general :=
         GestorInventario.inventario_general g;
       GestorInventario.inventario_ordenado :=
         GestorInventario.inventario_ordenado g |} s.

(** The [Usuario] object under a key of the dict, mutated in place. *)
Definition mutar_usuario (f : Usuario.t -> Usuario.t) (id : string) (s : t)
    : t :=
  con_usuarios (alter f id (usuarios s)) s.

(** [procesar_prestamo_automatico]: every exception is caught and
    answered with [False], the mutations made before it staying. *)
Definition procesar_prestamo_automatico (ahora : string)
    (id_usuario isbn : string) (s : t) : bool * t :=
  match usuarios s !! id_usuario,
        GestorInventario.buscar_por_isbn isbn (gestor_inventario s) with
  | _, inl _ => (false, s)
  | None, inr _ => (false, s)
  | Some _, inr None => (false, s)
  | Some usuario, inr (Some r) =>
      if negb (Usuario.puede_prestar usuario) then
        (false, mutar_libro Libro.incrementar_stock r s)
      else
        let fecha_prestamo := ahora in
        let s1 :=
          mutar_usuario (fun u => (Usuario.incrementar_prestamos u).2)
            id_usuario s in
        let s2 :=
          match historial_prestamos s1 !! id_usuario with
          | Some _ => s1
          | None =>
              con_historial
                (<[id_usuario := Pila.nueva None]> (historial_prestamos s1)) s1
          end in
        let pila :=
          default (Pila.nueva None) (historial_prestamos s2 !! id_usuario) in
        match Pila.apilar ahora isbn (Some fecha_prestamo) pila with
        | (inl _, _) => (false, s2)
        | (inr _, pila') =>
            (true,
             con_historial (<[id_usuario := pila']> (historial_prestamos s2)) s2)
        end
  end.

(** [verificar_y_asignar_reserva], called on the manager's own sorted
    inventory and reservation queue; [con_gestor] tells whether the
    [gestor_prestamos] argument is given. *)
Definition verificar_y_asignar_reserva (ahora : string) (isbn : string)
    (con_gestor : bool) (s : t) : resultado Verificacion.t * t :=
  let g := gestor_inventario s in
  match BusquedaBinaria.busqueda_binaria (GestorInventario.isbn_de g)
          (GestorInventario.inventario_ordenado g) isbn 0 None with
  | inl e => (inl e, s)
  | inr posicion =>
      let resultado :=
        {| Verificacion.libro_encontrado := negb (posicion =? -1);
           Verificacion.posicion := posicion;
           Verificacion.tiene_reservas := false;
           Verificacion.usuario_asignado := None;
           Verificacion.reserva_procesada := None;
           Verificacion.prestamo_procesado := None |} in
      if posicion =? -1 then (inr resultado, s)
      else
        match Cola.obtener_siguiente_usuario isbn (cola_reservas s) with
        | None => (inr resultado, s)
        | Some _ =>
            let (reserva, cola) := Cola.desencolar (cola_reservas s) in
            let s1 := con_cola cola s in
            match reserva with
            | None =>
                (inr {| Verificacion.libro_encontrado := true;
                        Verificacion.posicion := posicion;
                        Verificacion.tiene_reservas := true;
                        Verificacion.usuario_asignado := None;
                        Verificacion.reserva_procesada := None;
                        Verificacion.prestamo_procesado := None |}, s1)
            | Some reserva =>
                let (exito, s2) :=
                  if con_gestor then
                    let (exito, s2) :=
                      procesar_prestamo_automatico ahora
                        (Cola.id_usuario reserva) isbn s1 in
                    (Some exito, s2)
                  else (None, s1) in
                (inr {| Verificacion.libro_encontrado := true;
                        Verificacion.posicion := posicion;
                        Verificacion.tiene_reservas := true;
                        Verificacion.usuario_asignado :=
                          Some (Cola.id_usuario reserva);
                        Verificacion.reserva_procesada := Some reserva;
                        Verificacion.prestamo_procesado := exito |}, s2)
            end
        end
  end.

(** [str] of a value that may be [None]. *)
Definition str_opcional (o : option string) : string := default "None" o.

(** [devolver_libro]; [ahora] is the clock read for the return,
    [ahora_prestamo] the one read later by the automatic loan. *)
Definition devolver_libro (ahora ahora_prestamo : string)
    (id_usuario isbn : string) (s : t) : Devolucion.t * t :=
  match usuarios s !! id_usuario with
  | None => (Devolucion.fallo ("User " +:+ id_usuario +:+ " not found"), s)
  | Some usuario =>
  match GestorInventario.buscar_por_isbn isbn (gestor_inventario s) with
  | inl e =>
      (Devolucion.fallo ("Error processing return: " +:+ str_excepcion e), s)
  | inr None =>
      (Devolucion.fallo ("Book with ISBN " +:+ isbn +:+ " not found"), s)
  | inr (Some r) =>
  match historial_prestamos s !! id_usuario with
  | None => (Devolucion.fallo "User has no loan history", s)
  | Some historial_usuario =>
  if Pila.esta_vacia historial_usuario then
    (Devolucion.fallo "User has no loan history", s)
  else
    let libros_prestados := Pila.isbn <$> Pila.obtener_todos historial_usuario in
    if negb (bool_decide (isbn ∈ libros_prestados)) then
      (Devolucion.fallo
         ("User " +:+ id_usuario +:+ " does not have this book on loan"), s)
    else
      let fecha_devolucion := ahora in
      let s1 := mutar_libro Libro.incrementar_stock r s in
      let s2 :=
        mutar_usuario (fun u => (Usuario.decrementar_prestamos u).2)
          id_usuario s1 in
      match verificar_y_asignar_reserva ahora_prestamo isbn true s2 with
      | (inl e, s3) =>
          (Devolucion.fallo
             ("Error processing return: " +:+ str_excepcion e), s3)
      | (inr resultado_verificacion, s3) =>
          let usuario := default usuario (usuarios s3 !! id_usuario) in
          let libro := libro_en s3 r in
          let asignado := Verificacion.usuario_asignado resultado_verificacion in
          let hay := Verificacion.tiene_reservas resultado_verificacion in
          ({| Devolucion.exito := true;
              Devolucion.mensaje :=
                "Book returned successfully" +:+
                (if hay then
                   " - Assigned to reserved user: " +:+ str_opcional asignado
                 else " - Book is now available for general loan");
              Devolucion.detalles_de :=
                Some {| Devolucion.usuario := Usuario.nombre usuario;
                        Devolucion.libro := Libro.titulo libro;
                        Devolucion.isbn := isbn;
                        Devolucion.fecha_devolucion := fecha_devolucion;
                        Devolucion.stock_actual := Libro.stock libro;
                        Devolucion.prestamos_actuales_usuario :=
                          Usuario.libros_prestados usuario;
                        Devolucion.usuario_asignado :=
                          if hay then Some asignado else None |};
              Devolucion.reserva_asignada := Some hay |}, s3)
      end
  end
  end
  end.

(** [obtener_historial_usuario]: [pila.obtener_todos()[::-1]]. *)
Definition obtener_historial_usuario (id_usuario : string) (s : t)
    : list Pila.registro :=
  match historial_prestamos s !! id_usuario with
  | None => []
  | Some pila => reverse (Pila.obtener_todos pila)
  end.

(** [crear_prestamo]: the checks, then the three mutations in the order
    of the source; an exception raised by [apilar] is caught after the
    stock and the loan count have been changed. *)
Definition crear_prestamo (ahora : string) (id_usuario isbn : string) (s : t)
    : Prestamo.t * t :=
  match usuarios s !! id_usuario with
  | None => (Prestamo.fallo ("User " +:+ id_usuario +:+ " not found"), s)
  | Some usuario =>
  let validacion :=
    GestorUsuarios.validar_puede_prestar id_usuario (usuarios s) in
  if negb (Validacion.puede_prestar validacion) then
    (Prestamo.fallo (Validacion.razon validacion), s)
  else
  match GestorInventario.buscar_por_isbn isbn (gestor_inventario s) with
  | inl e =>
      (Prestamo.fallo ("Error creating loan: " +:+ str_excepcion e), s)
  | inr None =>
      (Prestamo.fallo ("Book with ISBN " +:+ isbn +:+ " not found"), s)
  | inr (Some r) =>
  if negb (Libro.esta_disponible (libro_en s r)) then
    (Prestamo.fallo
       ("Book '" +:+ Libro.titulo (libro_en s r) +:+
        "' is not available (stock: " +:+
        str_int (Libro.stock (libro_en s r)) +:+ ")"), s)
  else
    let fecha_prestamo := ahora in
    let s1 := mutar_libro (fun b => (Libro.decrementar_stock b).2) r s in
    let s2 :=
      mutar_usuario (fun u => (Usuario.incrementar_prestamos u).2)
        id_usuario s1 in
    let s3 :=
      match historial_prestamos s2 !! id_usuario with
      | Some _ => s2
      | None =>
          con_historial
            (<[id_usuario := Pila.nueva None]> (historial_prestamos s2)) s2
      end in
    let pila :=
      default (Pila.nueva None) (historial_prestamos s3 !! id_usuario) in
    match Pila.apilar ahora isbn (Some fecha_prestamo) pila with
    | (inl e, _) =>
        (Prestamo.fallo ("Error creating loan: " +:+ str_excepcion e), s3)
    | (inr _, pila') =>
        let s4 :=
          con_historial (<[id_usuario := pila']> (historial_prestamos s3)) s3 in
        let usuario := default usuario (usuarios s4 !! id_usuario) in
        let libro := libro_en s4 r in
        ({| Prestamo.exito := true;
            Prestamo.mensaje := "Loan created successfully";
            Prestamo.detalles_de :=
              Some {| Prestamo.usuario := Usuario.nombre usuario;
                      Prestamo.libro := Libro.titulo libro;
                      Prestamo.isbn := isbn;
                      Prestamo.fecha := fecha_prestamo;
                      Prestamo.prestamos_actuales :=
                        Usuario.libros_prestados usuario;
                      Prestamo.stock_restante := Libro.stock libro |} |}, s4)
    end
  end
  end.

(** [obtener_prestamo_mas_reciente]: the top of the user's stack. *)
Definition obtener_prestamo_mas_reciente (id_usuario : string) (s : t)
    : option Pila.registro :=
  match historial_prestamos s !! id_usuario with
  | None => None
  | Some pila => Pila.tope pila
  end.

(** [validar_prestamo_posible]: the checks of [crear_prestamo] without
    its effects; nothing guards the search here, so its exception
    propagates. *)
Definition validar_prestamo_posible (id_usuario isbn : string) (s : t)
    : resultado Posible.t :=
  match usuarios s !! id_usuario with
  | None => inr (Posible.fallo "User not found")
  | Some usuario =>
  let validacion_usuario :=
    GestorUsuarios.validar_puede_prestar id_usuario (usuarios s) in
  if negb (Validacion.puede_prestar validacion_usuario) then
    inr (Posible.fallo (Validacion.razon validacion_usuario))
  else
    libro ← GestorInventario.buscar_por_isbn isbn (gestor_inventario s);
    match libro with
    | None => inr (Posible.fallo "Book not found")
    | Some r =>
        if negb (Libro.esta_disponible (libro_en s r)) then
          inr (Posible.fallo
                 ("Book not available (stock: " +:+
                  str_int (Libro.stock (libro_en s r)) +:+ ")"))
        else
          inr {| Posible.valido := true;
                 Posible.razon := "Loan is possible";
                 Posible.detalles_de :=
                   Some {| Posible.usuario := Usuario.nombre usuario;
                           Posible.libro := Libro.titulo (libro_en s r);
                           Posible.cupo_restante :=
                             Usuario.obtener_cupo_disponible usuario;
                           Posible.stock_libro :=
                             Libro.stock (libro_en s r) |} |}
    end
  end.

End GestorPrestamos.

(** ** The reservation manager, [gestor/gestor_reservas.py] *)

(** The result dict of [crear_reserva]. *)
Module Reserva.
Record detalles : Type := Detalles {
  usuario : string;
  libro : string;
  isbn : string;
  fecha_reserva : string;
  posicion_en_cola : Z;
  total_reservas_libro : Z
}.
Record t : Type := Reserva {
  exito : bool;
  mensaje : string;
  detalles_de : option detalles
}.
Definition fallo (mensaje : string) : t :=
  {| exito := false; mensaje := mensaje; detalles_de := None |}.
End Reserva.

(** The result dict of [validar_puede_reservar]. *)
Module Reservable.
Record detalles : Type := Detalles {
  usuario : string;
  libro : string;
  reservas_actuales : Z
}.
Record t : Type := Reservable {
  puede_reservar : bool;
  razon : string;
  detalles_de : option detalles
}.
Definition fallo (razon : string) : t :=
  {| puede_reservar := false; razon := razon; detalles_de := None |}.
End Reservable.

Module GestorReservas.

(** The reservation manager with the managers it holds references to;
    it reads the inventory and the users and writes its queue only. *)
Record t : Type := GestorReservas {
  gestor_inventario : GestorInventario.t;
  usuarios : gmap string Usuario.t;
  cola_reservas : Cola.t
}.

Definition con_cola (q : Cola.t) (s : t) : t :=
  {| gestor_inventario := gestor_inventario s; usuarios := usuarios s;
     cola_reservas := q |}.

Definition libro_en (s : t) (r : nat) : Libro.t :=
  GestorInventario.libros (gestor_inventario s) !!! r.

(** [crear_reserva]: the duplicate check and the position are asked
    with the arguments as given, the record is stored stripped. *)
Definition crear_reserva (ahora : string) (id_usuario isbn : string) (s : t)
    : Reserva.t * t :=
  match usuarios s !! id_usuario with
  | None => (Reserva.fallo ("User " +:+ id_usuario +:+ " not found"), s)
  | Some usuario =>
  match GestorInventario.buscar_por_isbn isbn (gestor_inventario s) with
  | inl e =>
      (Reserva.fallo ("Error creating reservation: " +:+ str_excepcion e), s)
  | inr None =>
      (Reserva.fallo ("Book with ISBN " +:+ isbn +:+ " not found"), s)
  | inr (Some r) =>
  let libro := libro_en s r in
  if 0 <? Libro.stock libro then
    (Reserva.fallo
       ("Book '" +:+ Libro.titulo libro +:+ "' is available (stock: " +:+
        str_int (Libro.stock libro) +:+
        "). Cannot reserve available books."), s)
  else if Cola.tiene_reserva id_usuario isbn (cola_reservas s) then
    let posicion := Cola.posicion_usuario id_usuario isbn (cola_reservas s) in
    (Reserva.fallo
       ("User already has a reservation for this book (position " +:+
        str_int posicion +:+ " in queue)"), s)
  else
    let fecha_reserva := ahora in
    let (exito, cola) :=
      Cola.encolar ahora id_usuario isbn (Some fecha_reserva)
        (cola_reservas s) in
    let s1 := con_cola cola s in
    match exito with
    | inl e =>
        (Reserva.fallo ("Error creating reservation: " +:+ str_excepcion e),
         s1)
    | inr false =>
        (Reserva.fallo "Queue is full. Cannot add more reservations.", s1)
    | inr true =>
        let posicion := Cola.posicion_usuario id_usuario isbn cola in
        let total_en_cola := Cola.contar_reservas_libro isbn cola in
        ({| Reserva.exito := true;
            Reserva.mensaje := "Reservation created successfully";
            Reserva.detalles_de :=
              Some {| Reserva.usuario := Usuario.nombre usuario;
                      Reserva.libro := Libro.titulo libro;
                      Reserva.isbn := isbn;
                      Reserva.fecha_reserva := fecha_reserva;
                      Reserva.posicion_en_cola := posicion;
                      Reserva.total_reservas_libro := total_en_cola |} |},
         s1)
    end
  end
  end.

Definition cancelar_reserva (id_usuario isbn : string) (s : t)
    : Respuesta.t * t :=
  if negb (Cola.tiene_reserva id_usuario isbn (cola_reservas s)) then
    ({| Respuesta.exito := false;
        Respuesta.mensaje :=
          "User " +:+ id_usuario +:+
          " does not have a reservation for ISBN " +:+ isbn |}, s)
  else
    let (exito, cola) :=
      Cola.remover_reserva id_usuario isbn (cola_reservas s) in
    let s1 := con_cola cola s in
    if exito then
      ({| Respuesta.exito := true;
          Respuesta.mensaje := "Reservation cancelled successfully" |}, s1)
    else
      ({| Respuesta.exito := false;
          Respuesta.mensaje := "Error removing reservation from queue" |}, s1).

(** [validar_puede_reservar]: nothing guards the search here, so its
    exception propagates. *)
Definition validar_puede_reservar (id_usuario isbn : string) (s : t)
    : resultado Reservable.t :=
  match usuarios s !! id_usuario with
  | None => inr (Reservable.fallo "User not found")
  | Some usuario =>
      libro ← GestorInventario.buscar_por_isbn isbn (gestor_inventario s);
      match libro with
      | None => inr (Reservable.fallo "Book not found")
      | Some r =>
          let libro := libro_en s r in
          if 0 <? Libro.stock libro then
            inr (Reservable.fallo
                   ("Book is available (stock: " +:+
                    str_int (Libro.stock libro) +:+
                    "). Cannot reserve available books."))
          else if Cola.tiene_reserva id_usuario isbn (cola_reservas s) then
            let posicion :=
              Cola.posicion_usuario id_usuario isbn (cola_reservas s) in
            inr (Reservable.fallo
                   ("Already reserved (position " +:+ str_int posicion +:+
                    " in queue)"))
          else
            inr {| Reservable.puede_reservar := true;
                   Reservable.razon := "Reservation is possible";
                   Reservable.detalles_de :=
                     Some {| Reservable.usuario := Usuario.nombre usuario;
                             Reservable.libro := Libro.titulo libro;
                             Reservable.reservas_actuales :=
                               Cola.contar_reservas_libro isbn
                                 (cola_reservas s) |} |}
      end
  end.

(** The loop of [limpiar_reservas_libro] over the records found before
    it starts: one [remover_reserva] per record, the successes counted. *)
Definition limpiar_paso (isbn : string) (acc : Z * Cola.t)
    (reserva : Cola.registro) : Z * Cola.t :=
  let (contador, cola) := acc in
  let (exito, cola') :=
    Cola.remover_reserva (Cola.id_usuario reserva) isbn cola in
  if exito then (contador + 1, cola') else (contador, cola').

Definition limpiar_reservas_libro (isbn : string) (s : t) : Z * t :=
  let reservas_libro := Cola.buscar_libro isbn (cola_reservas s) in
  let (contador, cola) :=
    fold_left (limpiar_paso isbn) reservas_libro (0, cola_reservas s) in
  (contador, con_cola cola s).

End GestorReservas.

(** ** Vocabulary of the statements *)

(** The order on elements induced by their keys. *)
Definition menor_igual {A : Type} (clave : A -> string) (a b : A) : Prop :=
  Cadena.le (clave a) (clave b) = true.

(** The key the search compares: the stripped ISBN. *)
Definition isbn_normalizado {A : Type} (isbn_de : A -> string) (a : A)
    : string :=
  Cadena.strip (isbn_de a).

(** The record [encolar] stores for a request. *)
Definition registro_de (ahora id isbn : string) (fecha : option string)
    : Cola.registro :=
  {| Cola.id_usuario := Cadena.strip id;
     Cola.isbn := Cadena.strip isbn;
     Cola.fecha := default ahora fecha |}.

(** The entry [apilar] stores for a loan. *)
Definition entrada_de (ahora isbn : string) (fecha : option string)
    : Pila.registro :=
  {| Pila.isbn := Cadena.strip isbn; Pila.fecha := default ahora fecha |}.

(** The invariant the add and remove operations keep: the references
    are valid, both lists hold the same set of ISBNs, and the sorted
    list is non-decreasing by ISBN. *)
Definition invariante (g : GestorInventario.t) : Prop :=
  GestorInventario.referencias_validas g /\
  GestorInventario.isbns g (GestorInventario.inventario_general g)
  = GestorInventario.isbns g (GestorInventario.inventario_ordenado g) /\
  StronglySorted (menor_igual (GestorInventario.isbn_de g))
    (GestorInventario.inventario_ordenado g).

(** The entries of a user's history, none when the user has no stack. *)
Definition entradas (s : GestorPrestamos.t) (id_usuario : string)
    : list Pila.registro :=
  match GestorPrestamos.historial_prestamos s !! id_usuario with
  | Some pila => Pila.obtener_todos pila
  | None => []
  end.

(** The string is empty or starts with a character that is not
    whitespace. *)
Definition sin_espacio_inicial (s : string) : Prop :=
  match s with
  | EmptyString => True
  | String c _ => Cadena.es_espacio c = false
  end.

(** A request to [encolar]: the clock reading of the call, the user id,
    the ISBN and the optional date. *)
Definition solicitud : Type := (string * string * string * option string)%type.

Definition solicitud_valida (x : solicitud) : bool :=
  let '(_, id, isbn, _) := x in
  negb (Cadena.en_blanco id) && negb (Cadena.en_blanco isbn).

Definition registro_de_solicitud (x : solicitud) : Cola.registro :=
  let '(ahora, id, isbn, fecha) := x in registro_de ahora id isbn fecha.

(** The calls [encolar(...)] of a list of requests, one after the other,
    the results dropped. *)
Definition encolar_todas (xs : list solicitud) (q : Cola.t) : Cola.t :=
  fold_left
    (fun q x => let '(ahora, id, isbn, fecha) := x in
                (Cola.encolar ahora id isbn fecha q).2) xs q.

(** [n] calls [desencolar()], their results in call order. *)
Fixpoint desencolar_veces (n : nat) (q : Cola.t)
    : list (option Cola.registro) * Cola.t :=
  match n with
  | O => ([], q)
  | S n' =>
      let (r, q') := Cola.desencolar q in
      let (rs, q'') := desencolar_veces n' q' in
      (r :: rs, q'')
  end.

(** A loan to [apilar]: the clock reading, the ISBN, the optional date. *)
Definition prestamo : Type := (string * string * option string)%type.

Definition prestamo_valido (x : prestamo) : bool :=
  let '(_, isbn, _) := x in negb (Cadena.en_blanco isbn).

Definition entrada_de_prestamo (x : prestamo) : Pila.registro :=
  let '(ahora, isbn, fecha) := x in entrada_de ahora isbn fecha.

Definition apilar_todos (xs : list prestamo) (p : Pila.t) : Pila.t :=
  fold_left
    (fun p x => let '(ahora, isbn, fecha) := x in
                (Pila.apilar ahora isbn fecha p).2) xs p.

Fixpoint desapilar_veces (n : nat) (p : Pila.t)
    : list (option Pila.registro) * Pila.t :=
  match n with
  | O => ([], p)
  | S n' =>
      let (r, p') := Pila.desapilar p in
      let (rs, p'') := desapilar_veces n' p' in
      (r :: rs, p'')
  end.

(** What the loan operations keep of a system: the users registered,
    the two inventory lists, the ISBN behind every reference, and the
    entries already in each loan history. *)
Definition conserva (s s' : GestorPrestamos.t) : Prop :=
  (forall k, is_Some (GestorPrestamos.usuarios s' !! k)
             <-> is_Some (GestorPrestamos.usuarios s !! k)) /\
  GestorInventario.inventario_general (GestorPrestamos.gestor_inventario s')
  = GestorInventario.inventario_general
      (GestorPrestamos.gestor_inventario s) /\
  GestorInventario.inventario_ordenado (GestorPrestamos.gestor_inventario s')
  = GestorInventario.inventario_ordenado
      (GestorPrestamos.gestor_inventario s) /\
  length (GestorInventario.libros (GestorPrestamos.gestor_inventario s'))
  = length (GestorInventario.libros (GestorPrestamos.gestor_inventario s)) /\
  (forall r,
     GestorInventario.isbn_de (GestorPrestamos.gestor_inventario s') r
     = GestorInventario.isbn_de (GestorPrestamos.gestor_inventario s) r) /\
  (forall k, entradas s k `prefix_of` entradas s' k).

(** The bounds the constructors of [Usuario] and [Libro] establish: a
    loan count between 0 and the user's maximum, a stock that is not
    negative. *)
Definition limites (s : GestorPrestamos.t) : Prop :=
  map_Forall
    (fun _ u => 0 <= Usuario.libros_prestados u <= Usuario.max_prestamos u)
    (GestorPrestamos.usuarios s) /\
  Forall (fun b => 0 <= Libro.stock b)
    (GestorInventario.libros (GestorPrestamos.gestor_inventario s)).

(** No book has fewer copies in stock after than before. *)
Definition stock_no_baja (s s' : GestorPrestamos.t) : Prop :=
  forall r, Libro.stock (GestorPrestamos.libro_en s r)
            <= Libro.stock (GestorPrestamos.libro_en s' r).

(** No user holds two reservations of one book. *)
Definition sin_duplicados (q : Cola.t) : Prop :=
  NoDup ((fun r => (Cola.id_usuario r, Cola.isbn r)) <$> Cola.elementos q).

(** ** Example data *)

Module Ejemplo.

(** Three books, loaded in the order B, A, C; "ISBN-A" is out of stock. *)
Definition inventario : GestorInventario.t :=
  {| GestorInventario.libros :=
       [ Libro.Libro "ISBN-B" "Beta" "Borges" 2;
         Libro.Libro "ISBN-A" "Alfa" "Allende" 0;
         Libro.Libro "ISBN-C" "Gama" "Cortazar" 1 ];
     GestorInventario.inventario_general := [0; 1; 2]%nat;
     GestorInventario.inventario_ordenado := [1; 0; 2]%nat |}.

Definition usuarios : gmap string Usuario.t :=
  <["U1" := Usuario.Usuario "U1" "Uno" "uno@biblioteca.co" true 0 3]>
    (<["U2" := Usuario.Usuario "U2" "Dos" "dos@biblioteca.co" true 1 3]>
       (<["U9" := Usuario.Usuario "U9" "Nueve" "nueve@biblioteca.co" true 0 3]>
          ∅)).

Definition historial : gmap string Pila.t :=
  <["U2" := Pila.Pila [Pila.Registro "ISBN-A" "2025-12-01 10:00:00"] None]>
    (<["U1" := Pila.Pila [Pila.Registro "ISBN-C" "2025-11-01 09:00:00"] None]>
       ∅).

(** "ISBN-A" is at stock 0, on loan to U2 and reserved by U1 alone. *)
Definition sistema : GestorPrestamos.t :=
  {| GestorPrestamos.gestor_inventario := inventario;
     GestorPrestamos.usuarios := usuarios;
     GestorPrestamos.cola_reservas :=
       Cola.Cola [Cola.Registro "U1" "ISBN-A" "2025-12-02 08:00:00"] None;
     GestorPrestamos.historial_prestamos := historial |}.

(** The same system with an empty reservation queue. *)
Definition sistema_sin_reservas : GestorPrestamos.t :=
  GestorPrestamos.con_cola (Cola.nueva None) sistema.

(** The same system where U9 reserved another book before U1 reserved
    "ISBN-A". *)
Definition cola_cabeza_ajena : Cola.t :=
  Cola.Cola [ Cola.Registro "U9" "ISBN-B" "2025-12-01 08:00:00";
              Cola.Registro "U1" "ISBN-A" "2025-12-02 08:00:00" ] None.

Definition sistema_cabeza_ajena : GestorPrestamos.t :=
  GestorPrestamos.con_cola cola_cabeza_ajena sistema.

(** The same system where U1, who holds the reservation, is at the
    limit of loans. *)
Definition sistema_al_limite : GestorPrestamos.t :=
  GestorPrestamos.con_usuarios
    (<["U1" := Usuario.Usuario "U1" "Uno" "uno@biblioteca.co" true 3 3]>
       usuarios) sistema.

(** The reservation manager of the system. *)
Definition reservas : GestorReservas.t :=
  {| GestorReservas.gestor_inventario := inventario;
     GestorReservas.usuarios := usuarios;
     GestorReservas.cola_reservas :=
       Cola.Cola [Cola.Registro "U1" "ISBN-A" "2025-12-02 08:00:00"] None |}.

Definition operaciones : list GestorInventario.operacion :=
  [ GestorInventario.Agregar (Libro.Libro "ISBN-AB" "Nuevo" "Neruda" 1);
    GestorInventario.Eliminar "ISBN-B";
    GestorInventario.Agregar (Libro.Libro "ISBN-A" "Repetido" "Rulfo" 1) ].

End Ejemplo.

(** * Properties *)

(** ** Strings *)

Section HechosCadena.

Lemma cadena_lstrip_vacio s : Cadena.lstrip s = "" <-> Cadena.solo_espacios s = true.
Proof.
  induction s as [|c r IH]; simpl; [done|].
  destruct (Cadena.es_espacio c); simpl; [done|]. split; discriminate.
Qed.

Lemma cadena_rstrip_no_vacio s : Cadena.solo_espacios s = false -> Cadena.rstrip s <> "".
Proof.
  induction s as [|c r IH]; simpl; [done|].
  destruct (Cadena.rstrip r) eqn:Hr; [|done].
  destruct (Cadena.es_espacio c); simpl; [|done]. auto.
Qed.

Lemma cadena_solo_espacios_lstrip s :
  Cadena.lstrip s <> "" -> Cadena.solo_espacios (Cadena.lstrip s) = false.
Proof.
  induction s as [|c r IH]; simpl; [done|].
  destruct (Cadena.es_espacio c) eqn:Hc; [done|]. intros _. simpl. by rewrite Hc.
Qed.

Lemma cadena_strip_vacio s : Cadena.strip s = "" <-> Cadena.solo_espacios s = true.
Proof.
  unfold Cadena.strip. rewrite <- cadena_lstrip_vacio. split.
  - intros H. destruct (decide (Cadena.lstrip s = "")) as [|Hne]; [done|].
    by apply cadena_solo_espacios_lstrip, cadena_rstrip_no_vacio in Hne.
  - by intros ->.
Qed.

Lemma cadena_en_blanco_spec s : Cadena.en_blanco s = true <-> Cadena.solo_espacios s = true.
Proof.
  unfold Cadena.en_blanco. rewrite orb_true_iff, !String.eqb_eq, <- cadena_strip_vacio.
  split; [intros [->|]; done | auto].
Qed.

(** The order is the strict total order of [String_as_OT]. *)
Lemma cadena_lt_iff a b : Cadena.lt a b = true <-> String_as_OT.lt a b.
Proof.
  unfold Cadena.lt, String.ltb, String_as_OT.lt.
  change (String.compare a b) with (String_as_OT.compare a b).
  destruct (String_as_OT.compare a b); split; congruence.
Qed.

Lemma cadena_le_iff a b : Cadena.le a b = true <-> String_as_OT.lt a b \/ a = b.
Proof.
  unfold Cadena.le, String.leb, String_as_OT.lt.
  change (String.compare a b) with (String_as_OT.compare a b).
  destruct (String_as_OT.compare_spec a b) as [->|H|H].
  - split; auto.
  - split; auto.
  - split; [done|]. intros [H'| ->]; [done|]. exfalso.
    by apply (irreflexivity String_as_OT.lt) in H.
Qed.

Lemma cadena_le_refl a : Cadena.le a a = true.
Proof. apply cadena_le_iff; by right. Qed.

Lemma cadena_le_trans a b c : Cadena.le a b = true -> Cadena.le b c = true -> Cadena.le a c = true.
Proof.
  rewrite !cadena_le_iff. intros [H1| ->] [H2| ->]; auto.
  left. by transitivity b.
Qed.

Lemma cadena_lt_le a b : Cadena.lt a b = true -> Cadena.le a b = true.
Proof. rewrite cadena_lt_iff, cadena_le_iff. auto. Qed.

Lemma cadena_gt_false_le a b : Cadena.gt a b = false <-> Cadena.le a b = true.
Proof.
  unfold Cadena.gt. rewrite <- not_true_iff_false, cadena_lt_iff, cadena_le_iff.
  destruct (String_as_OT.compare_spec a b) as [->|H|H].
  - split; auto. intros _ H. by apply (irreflexivity String_as_OT.lt) in H.
  - split; auto. intros _ H'.
    apply (irreflexivity String_as_OT.lt a). by transitivity b.
  - split; [done|]. intros [H'| ->] _.
    + apply (irreflexivity String_as_OT.lt a). by transitivity b.
    + by apply (irreflexivity String_as_OT.lt) in H.
Qed.

Lemma cadena_lt_le_trans a b c : Cadena.lt a b = true -> Cadena.le b c = true -> Cadena.lt a c = true.
Proof.
  rewrite !cadena_lt_iff, cadena_le_iff. intros H1 [H2| ->]; [|done]. by transitivity b.
Qed.

Lemma cadena_le_lt_trans a b c : Cadena.le a b = true -> Cadena.lt b c = true -> Cadena.lt a c = true.
Proof.
  rewrite !cadena_lt_iff, cadena_le_iff. intros [H1| ->] H2; [|done]. by transitivity b.
Qed.

Lemma cadena_lt_irrefl a : Cadena.lt a a = false.
Proof.
  apply not_true_iff_false. rewrite cadena_lt_iff.
  apply (irreflexivity String_as_OT.lt).
Qed.

(** Trichotomy, in the shape of the three branches of the search loop. *)
Lemma cadena_tricotomia a b :
  String.eqb a b = false -> Cadena.lt a b = false -> Cadena.lt b a = true.
Proof.
  rewrite String.eqb_neq, <- not_true_iff_false, !cadena_lt_iff. intros Hne Hlt.
  destruct (String_as_OT.compare_spec a b); done.
Qed.

#[global] Instance cadena_le_transitive : Transitive (fun a b => Cadena.le a b = true).
Proof. intros a b c. apply cadena_le_trans. Qed.

End HechosCadena.

(** ** Sortedness *)

Section HechosOrden.
Context {A : Type} (clave : A -> string).

#[local] Instance menor_igual_transitive : Transitive (menor_igual clave).
Proof. intros a b c. apply cadena_le_trans. Qed.

Lemma primer_desorden_cons d a b l :
  primer_desorden clave d (a :: b :: l)
  = if Cadena.gt (clave a) (clave b) then Some d
    else primer_desorden clave (S d) (b :: l).
Proof. reflexivity. Qed.

Lemma primer_desorden_Sorted d l :
  primer_desorden clave d l = None <-> Sorted (menor_igual clave) l.
Proof.
  revert d; induction l as [|a [|b l] IH]; intros d.
  - split; [constructor | done].
  - split; [by repeat constructor | done].
  - rewrite primer_desorden_cons.
    destruct (Cadena.gt (clave a) (clave b)) eqn:Hgt.
    + split; [done|]. intros H. exfalso.
      apply Sorted_inv in H as [_ H]. apply HdRel_inv in H.
      apply cadena_gt_false_le in H. congruence.
    + rewrite IH. apply cadena_gt_false_le in Hgt. split.
      * intros H. constructor; [done|]. by constructor.
      * intros H. by apply Sorted_inv in H as [H _].
Qed.

Lemma primer_desorden_ordenada d l :
  primer_desorden clave d l = None <-> StronglySorted (menor_igual clave) l.
Proof.
  rewrite primer_desorden_Sorted. split.
  - apply Sorted_StronglySorted. apply menor_igual_transitive.
  - apply StronglySorted_Sorted.
Qed.

Lemma verificar_ordenamiento_spec l :
  Insercion.verificar_ordenamiento clave l = true
  <-> StronglySorted (menor_igual clave) l.
Proof.
  unfold Insercion.verificar_ordenamiento.
  rewrite <- (primer_desorden_ordenada 0).
  destruct (primer_desorden clave 0 l); split; congruence.
Qed.

(** In a sorted list, positions and keys are ordered alike. *)
Lemma ordenada_lookup l (i j : nat) a b :
  StronglySorted (menor_igual clave) l -> (i <= j)%nat ->
  l !! i = Some a -> l !! j = Some b -> menor_igual clave a b.
Proof.
  intros Hs; revert i j. induction Hs as [|x l Hs IH Hx]; intros i j Hij Hi Hj.
  - done.
  - destruct i as [|i], j as [|j]; simpl in *; simplify_eq.
    + apply cadena_le_refl.
    + rewrite Forall_forall in Hx. apply Hx.
      by eapply list_elem_of_lookup_2.
    + lia.
    + apply (IH i j); [lia|done..].
Qed.

End HechosOrden.

(** ** Sorted insertion *)

Section HechosInsercion.
Context {A : Type} (clave : A -> string).

Lemma buscar_posicion_desde v i l :
  Insercion.buscar_posicion clave v i i l
  = (i + Insercion.obtener_posicion_insercion clave v l)%nat.
Proof.
  revert i; induction l as [|a l IH]; intros i; simpl; [lia|].
  destruct (Cadena.gt (clave a) v); [lia|]. rewrite IH. lia.
Qed.

Lemma posicion_insercion_prefijo v l :
  Forall (fun a => Cadena.gt (clave a) v = false)
    (take (Insercion.obtener_posicion_insercion clave v l) l).
Proof.
  induction l as [|a l IH]; simpl; [constructor|].
  destruct (Cadena.gt (clave a) v) eqn:Hgt; simpl; [constructor|].
  by constructor.
Qed.

Lemma posicion_insercion_sufijo v l b :
  head (drop (Insercion.obtener_posicion_insercion clave v l) l) = Some b ->
  Cadena.gt (clave b) v = true.
Proof.
  induction l as [|a l IH]; simpl; [done|].
  destruct (Cadena.gt (clave a) v) eqn:Hgt; simpl; [|done].
  by intros [= <-].
Qed.

(** Inserting between a prefix of keys not above the new one and a
    suffix headed by a key above it keeps a sorted list sorted. *)
Lemma ordenada_insertar l1 l2 x :
  StronglySorted (menor_igual clave) (l1 ++ l2) ->
  Forall (fun a => Cadena.gt (clave a) (clave x) = false) l1 ->
  (forall b, head l2 = Some b -> Cadena.gt (clave b) (clave x) = true) ->
  StronglySorted (menor_igual clave) (l1 ++ x :: l2).
Proof.
  rewrite !StronglySorted_app. intros (Hc & H1 & H2) Hpre Hsuf.
  split_and!; [|done|].
  - intros x1 x2 Hx1 [->|Hx2]%elem_of_cons; [|by apply Hc].
    rewrite Forall_forall in Hpre. by apply cadena_gt_false_le, Hpre.
  - constructor; [done|]. destruct l2 as [|b l2]; [constructor|].
    assert (menor_igual clave x b) as Hxb.
    { apply cadena_lt_le. apply (Hsuf b). done. }
    apply StronglySorted_inv in H2 as [_ Hb]. constructor; [done|].
    eapply Forall_impl; [exact Hb|]. intros y Hy. simpl in Hy.
    by apply (cadena_le_trans _ (clave b)).
Qed.

Lemma insertar_ordenado_forma (l : list A) (x : A) :
  Insercion.insertar_ordenado clave l x
  = take (Insercion.obtener_posicion_insercion clave (clave x) l) l
    ++ x :: drop (Insercion.obtener_posicion_insercion clave (clave x) l) l.
Proof.
  unfold Insercion.insertar_ordenado, list_insert_en.
  by rewrite buscar_posicion_desde.
Qed.

(** C4: on a list sorted ascending by key, [insertar_ordenado] splits
    the list where the first key strictly greater than the new key
    stands (every key before that point is not greater, so a tie goes
    after its equals), puts the new book there, and the result is
    sorted again and one element longer. *)
Theorem insertar_ordenado_correcto (l : list A) (x : A) :
  Insercion.verificar_ordenamiento clave l = true ->
  exists l1 l2,
    l = l1 ++ l2 /\
    Insercion.insertar_ordenado clave l x = l1 ++ x :: l2 /\
    Forall (fun a => Cadena.gt (clave a) (clave x) = false) l1 /\
    (forall b, head l2 = Some b -> Cadena.gt (clave b) (clave x) = true) /\
    Insercion.verificar_ordenamiento clave
      (Insercion.insertar_ordenado clave l x) = true /\
    length (Insercion.insertar_ordenado clave l x) = S (length l).
Proof.
  intros Hord. apply verificar_ordenamiento_spec in Hord.
  set (p := Insercion.obtener_posicion_insercion clave (clave x) l).
  assert (Insercion.insertar_ordenado clave l x = take p l ++ x :: drop p l)
    as Heq by apply insertar_ordenado_forma.
  exists (take p l), (drop p l). rewrite Heq.
  assert (Hpre := posicion_insercion_prefijo (clave x) l).
  assert (Hsuf := posicion_insercion_sufijo (clave x) l).
  split_and!; try done.
  - by rewrite take_drop.
  - apply verificar_ordenamiento_spec, ordenada_insertar; try done.
    by rewrite take_drop.
  - rewrite <- (take_drop p l) at 3. rewrite !length_app. simpl. lia.
Qed.

End HechosInsercion.

(** The scenario of the specification: "400" goes between "300" and
    "500". *)
Lemma insertar_ordenado_correcto_testigo :
  Insercion.verificar_ordenamiento id ["100"; "300"; "500"] = true /\
  exists l1 l2,
    ["100"; "300"; "500"] = l1 ++ l2 /\
    Insercion.insertar_ordenado id ["100"; "300"; "500"] "400"
    = l1 ++ "400" :: l2 /\
    Forall (fun a => Cadena.gt (id a) (id "400") = false) l1 /\
    (forall b, head l2 = Some b -> Cadena.gt (id b) (id "400") = true) /\
    Insercion.verificar_ordenamiento id
      (Insercion.insertar_ordenado id ["100"; "300"; "500"] "400") = true /\
    length (Insercion.insertar_ordenado id ["100"; "300"; "500"] "400")
    = S (length ["100"; "300"; "500"]).
Proof.
  split; [reflexivity|].
  apply (insertar_ordenado_correcto id ["100"; "300"; "500"] "400").
  reflexivity.
Defined.

Example insertar_ordenado_escenario :
  Insercion.insertar_ordenado id ["100"; "300"; "500"] "400"
  = ["100"; "300"; "400"; "500"].
Proof. reflexivity. Qed.

(** ** The reservation queue *)

Section HechosCola.

Lemma encolar_valido ahora id isbn fecha q :
  Cadena.en_blanco id = false -> Cadena.en_blanco isbn = false ->
  Cola.capacidad_max q = None ->
  Cola.encolar ahora id isbn fecha q
  = (inr true,
     {| Cola.elementos := Cola.elementos q ++ [registro_de ahora id isbn fecha];
        Cola.capacidad_max := None |}).
Proof.
  intros Hid Hisbn Hcap. unfold Cola.encolar, Cola.esta_llena.
  by rewrite Hid, Hisbn, Hcap.
Qed.

Lemma desencolar_cons r l cap :
  Cola.desencolar {| Cola.elementos := r :: l; Cola.capacidad_max := cap |}
  = (Some r, {| Cola.elementos := l; Cola.capacidad_max := cap |}).
Proof. reflexivity. Qed.

(** C7: three requests with valid identifiers enqueued on an empty
    unbounded queue come out of three successive [desencolar] calls in
    the order they went in, whatever their ISBNs, and the queue is empty
    again. *)
Theorem cola_fifo (ahora_a ahora_b ahora_c : string)
    (ida isa idb isb idc isc : string) (fa fb fc : option string) :
  Cadena.en_blanco ida = false -> Cadena.en_blanco isa = false ->
  Cadena.en_blanco idb = false -> Cadena.en_blanco isb = false ->
  Cadena.en_blanco idc = false -> Cadena.en_blanco isc = false ->
  exists q1 q2 q3 q4 q5 q6,
    Cola.encolar ahora_a ida isa fa (Cola.nueva None) = (inr true, q1) /\
    Cola.encolar ahora_b idb isb fb q1 = (inr true, q2) /\
    Cola.encolar ahora_c idc isc fc q2 = (inr true, q3) /\
    Cola.desencolar q3 = (Some (registro_de ahora_a ida isa fa), q4) /\
    Cola.desencolar q4 = (Some (registro_de ahora_b idb isb fb), q5) /\
    Cola.desencolar q5 = (Some (registro_de ahora_c idc isc fc), q6) /\
    Cola.esta_vacia q6 = true.
Proof.
  intros Ha1 Ha2 Hb1 Hb2 Hc1 Hc2. do 6 eexists.
  split; [by apply encolar_valido|].
  split; [by apply encolar_valido|].
  split; [by apply encolar_valido|].
  simpl. split; [apply desencolar_cons|].
  split; [apply desencolar_cons|].
  split; [apply desencolar_cons|]. reflexivity.
Qed.

(** C8: on an empty queue [desencolar] and [frente] answer [None] (their
    result has no exception to raise) and leave the queue as it is; in
    any queue, [encolar] with a user id or an ISBN that is empty or all
    whitespace raises [ValueError] and leaves the queue as it is. *)
Theorem cola_vacia_y_validacion (q0 q : Cola.t) (ahora id isbn : string)
    (fecha : option string) :
  Cola.elementos q0 = [] ->
  Cadena.solo_espacios id = true \/ Cadena.solo_espacios isbn = true ->
  Cola.desencolar q0 = (None, q0) /\
  Cola.frente q0 = None /\
  exists mensaje,
    Cola.encolar ahora id isbn fecha q = (inl (ValueError mensaje), q).
Proof.
  intros Hvacia Hblanco. split_and!.
  - unfold Cola.desencolar, Cola.esta_vacia, Cola.tamanio. by rewrite Hvacia.
  - unfold Cola.frente, Cola.esta_vacia, Cola.tamanio. by rewrite Hvacia.
  - unfold Cola.encolar.
    destruct (Cadena.en_blanco id) eqn:Hid; [by eexists|].
    destruct Hblanco as [H|H]; apply cadena_en_blanco_spec in H; [congruence|].
    rewrite H. by eexists.
Qed.

(** C2: when the head of the queue reserves another book, the record
    [desencolar] removes is the head, not the record
    [obtener_siguiente_usuario] found for the ISBN asked for. *)
Theorem desencolar_no_es_siguiente (q : Cola.t) (isbn : string)
    (cabeza siguiente : Cola.registro) (resto : list Cola.registro) :
  Cola.elementos q = cabeza :: resto ->
  Cola.isbn cabeza <> isbn ->
  Cola.obtener_siguiente_usuario isbn q = Some siguiente ->
  (Cola.desencolar q).1 = Some cabeza /\
  Cola.isbn siguiente = isbn /\
  siguiente <> cabeza.
Proof.
  intros Hq Hne Hsig. unfold Cola.obtener_siguiente_usuario in Hsig.
  apply find_some in Hsig as [_ Hsig]. apply String.eqb_eq in Hsig.
  split_and!; [|done|congruence].
  unfold Cola.desencolar, Cola.esta_vacia, Cola.tamanio. by rewrite Hq.
Qed.

(** When the head of the queue is itself a reservation of the ISBN, the
    two records coincide. *)
Lemma desencolar_es_siguiente (q : Cola.t) (isbn : string)
    (cabeza : Cola.registro) (resto : list Cola.registro) :
  Cola.elementos q = cabeza :: resto ->
  Cola.isbn cabeza = isbn ->
  Cola.obtener_siguiente_usuario isbn q = Some cabeza /\
  (Cola.desencolar q).1 = Some cabeza.
Proof.
  intros Hq Heq. unfold Cola.obtener_siguiente_usuario, Cola.desencolar,
    Cola.esta_vacia, Cola.tamanio. rewrite Hq. simpl.
  apply String.eqb_eq in Heq. by rewrite Heq.
Qed.

End HechosCola.

Lemma cola_fifo_testigo :
  exists q1 q2 q3 q4 q5 q6,
    Cola.encolar "t1" "U1" "ISBN-B" None (Cola.nueva None) = (inr true, q1) /\
    Cola.encolar "t2" "U2" "ISBN-A" None q1 = (inr true, q2) /\
    Cola.encolar "t3" " U3 " "ISBN-C" (Some "d") q2 = (inr true, q3) /\
    Cola.desencolar q3 = (Some (registro_de "t1" "U1" "ISBN-B" None), q4) /\
    Cola.desencolar q4 = (Some (registro_de "t2" "U2" "ISBN-A" None), q5) /\
    Cola.desencolar q5 = (Some (registro_de "t3" " U3 " "ISBN-C" (Some "d")), q6) /\
    Cola.esta_vacia q6 = true.
Proof.
  apply (cola_fifo "t1" "t2" "t3" "U1" "ISBN-B" "U2" "ISBN-A" " U3 " "ISBN-C"
           None None (Some "d")); reflexivity.
Defined.

Lemma cola_vacia_y_validacion_testigo :
  Cola.desencolar (Cola.nueva (Some 0)) = (None, Cola.nueva (Some 0)) /\
  Cola.frente (Cola.nueva (Some 0)) = None /\
  exists mensaje,
    Cola.encolar "t" "U1" "   " None
      (Cola.Cola [Cola.Registro "U9" "ISBN-A" "d"] (Some 1))
    = (inl (ValueError mensaje),
       Cola.Cola [Cola.Registro "U9" "ISBN-A" "d"] (Some 1)).
Proof.
  apply (cola_vacia_y_validacion (Cola.nueva (Some 0))
           (Cola.Cola [Cola.Registro "U9" "ISBN-A" "d"] (Some 1))
           "t" "U1" "   " None).
  - reflexivity.
  - right. reflexivity.
Defined.

Lemma desencolar_no_es_siguiente_testigo :
  (Cola.desencolar
     (Cola.Cola [Cola.Registro "U9" "ISBN-B" "d1";
                 Cola.Registro "U1" "ISBN-A" "d2"] None)).1
  = Some (Cola.Registro "U9" "ISBN-B" "d1") /\
  Cola.isbn (Cola.Registro "U1" "ISBN-A" "d2") = "ISBN-A" /\
  Cola.Registro "U1" "ISBN-A" "d2" <> Cola.Registro "U9" "ISBN-B" "d1".
Proof.
  apply (desencolar_no_es_siguiente
           (Cola.Cola [Cola.Registro "U9" "ISBN-B" "d1";
                       Cola.Registro "U1" "ISBN-A" "d2"] None)
           "ISBN-A" (Cola.Registro "U9" "ISBN-B" "d1")
           (Cola.Registro "U1" "ISBN-A" "d2")
           [Cola.Registro "U1" "ISBN-A" "d2"]).
  - reflexivity.
  - discriminate.
  - reflexivity.
Defined.

(** ** Binary search *)

Section HechosBusqueda.
Context {A : Type} (isbn_de : A -> string).

Lemma medio_acotado (inicio fin : Z) :
  inicio <= fin ->
  inicio <= (inicio + fin) `div` 2 <= fin.
Proof.
  intros H. split.
  - apply Z.div_le_lower_bound; lia.
  - apply Z.div_le_upper_bound; lia.
Qed.

Lemma getitem_en_rango (l : list A) (i : Z) :
  0 <= i < Z.of_nat (length l) ->
  exists a, l !! Z.to_nat i = Some a /\ getitem l i = inr a.
Proof.
  intros Hi. destruct (lookup_lt_is_Some_2 l (Z.to_nat i)) as [a Ha]; [lia|].
  exists a. split; [done|]. unfold getitem.
  destruct (Z.ltb_spec i 0); [lia|].
  destruct (Z.leb_spec 0 i); [|lia].
  destruct (Z.ltb_spec i (Z.of_nat (length l))); [|lia].
  simpl. by rewrite Ha.
Qed.

Lemma getitem_elem_of (l : list A) (i : Z) (a : A) :
  getitem l i = inr a -> a ∈ l.
Proof.
  unfold getitem.
  destruct (_ && _); [|done].
  destruct (l !! _) eqn:Hl; [|done]. intros [= <-].
  by eapply list_elem_of_lookup_2.
Qed.

(** The bound on the iterations is never what ends the loop. *)
Lemma bucle_combustible (n m : nat) (l : list A) (x : string) (inicio fin : Z) :
  fin - inicio + 1 <= Z.of_nat n -> fin - inicio + 1 <= Z.of_nat m ->
  BusquedaBinaria.bucle isbn_de n l x inicio fin
  = BusquedaBinaria.bucle isbn_de m l x inicio fin.
Proof.
  revert m inicio fin. induction n as [|n IH]; intros [|m] inicio fin Hn Hm;
    simpl; try done.
  - destruct (Z.leb_spec inicio fin); [lia|done].
  - destruct (Z.leb_spec inicio fin); [lia|done].
  - destruct (Z.leb_spec inicio fin) as [Hle|]; [|done].
    pose proof (medio_acotado inicio fin Hle) as Hmed.
    destruct (getitem l _) as [e|a]; simpl; [done|].
    destruct (String.eqb _ x); [done|].
    destruct (Cadena.lt _ x); apply IH; lia.
Qed.

(** The search only looks at the keys of the elements of the list. *)
Lemma bucle_ext (f g : A -> string) (n : nat) (l : list A) (x : string)
    (inicio fin : Z) :
  (forall a, a ∈ l -> f a = g a) ->
  BusquedaBinaria.bucle f n l x inicio fin
  = BusquedaBinaria.bucle g n l x inicio fin.
Proof.
  intros Hfg. revert inicio fin. induction n as [|n IH]; intros inicio fin;
    simpl; [done|].
  destruct (inicio <=? fin); [|done].
  destruct (getitem l _) as [e|a] eqn:Hget; simpl; [done|].
  rewrite (Hfg a) by (by eapply getitem_elem_of).
  by rewrite !IH.
Qed.

(** The loop invariant: every position holding the key lies in
    [inicio..fin]. *)
Lemma bucle_spec (n : nat) (l : list A) (x : string) (inicio fin : Z) :
  StronglySorted (menor_igual (isbn_normalizado isbn_de)) l ->
  0 <= inicio -> fin < Z.of_nat (length l) ->
  fin - inicio + 1 <= Z.of_nat n ->
  (forall (j : nat) a, l !! j = Some a -> isbn_normalizado isbn_de a = x ->
     inicio <= Z.of_nat j <= fin) ->
  exists r,
    BusquedaBinaria.bucle isbn_de n l x inicio fin = inr r /\
    ((r = -1 /\ forall a, a ∈ l -> isbn_normalizado isbn_de a <> x) \/
     (inicio <= r <= fin /\
      exists a, l !! Z.to_nat r = Some a /\ isbn_normalizado isbn_de a = x)).
Proof.
  intros Hord. revert inicio fin.
  assert (forall inicio fin : Z,
    fin < inicio ->
    (forall (j : nat) a, l !! j = Some a -> isbn_normalizado isbn_de a = x ->
       inicio <= Z.of_nat j <= fin) ->
    forall a, a ∈ l -> isbn_normalizado isbn_de a <> x) as Hvacio.
  { intros inicio fin Hlt Hinv a [j Hj]%list_elem_of_lookup_1 Hx.
    specialize (Hinv j a Hj Hx). lia. }
  induction n as [|n IH]; intros inicio fin Hini Hfin Hn Hinv; simpl.
  { exists (-1). split; [done|]. left. split; [done|].
    apply (Hvacio inicio fin); [lia|done]. }
  destruct (Z.leb_spec inicio fin) as [Hle|Hgt]; last first.
  { exists (-1). split; [done|]. left. split; [done|].
    by apply (Hvacio inicio fin). }
  pose proof (medio_acotado inicio fin Hle) as Hmed.
  set (medio := (inicio + fin) `div` 2) in *.
  destruct (getitem_en_rango l medio) as (am & Ham & ->); [lia|]. simpl.
  fold (isbn_normalizado isbn_de am).
  destruct (String.eqb (isbn_normalizado isbn_de am) x) eqn:Heq.
  { apply String.eqb_eq in Heq. exists medio. split; [done|]. right.
    split; [lia|]. by exists am. }
  destruct (Cadena.lt (isbn_normalizado isbn_de am) x) eqn:Hlt.
  - destruct (IH (medio + 1) fin) as (r & Hr & Hcasos); [lia..| |].
    + intros j a Hj Hx. specialize (Hinv j a Hj Hx).
      destruct (Z.le_gt_cases (Z.of_nat j) medio) as [Hjm|]; [|lia].
      exfalso.
      assert (menor_igual (isbn_normalizado isbn_de) a am) as Hle'.
      { apply (ordenada_lookup _ l j (Z.to_nat medio)); [done|lia|done..]. }
      unfold menor_igual in Hle'. rewrite Hx in Hle'.
      pose proof (cadena_lt_le_trans _ _ _ Hlt Hle') as Habs.
      by rewrite cadena_lt_irrefl in Habs.
    + exists r. split; [done|]. destruct Hcasos as [?|[? ?]]; [by left|].
      right. split; [lia|done].
  - pose proof (cadena_tricotomia _ _ Heq Hlt) as Hgt.
    destruct (IH inicio (medio - 1)) as (r & Hr & Hcasos); [lia..| |].
    + intros j a Hj Hx. specialize (Hinv j a Hj Hx).
      destruct (Z.le_gt_cases medio (Z.of_nat j)) as [Hjm|]; [|lia].
      exfalso.
      assert (menor_igual (isbn_normalizado isbn_de) am a) as Hle'.
      { apply (ordenada_lookup _ l (Z.to_nat medio) j); [done|lia|done..]. }
      unfold menor_igual in Hle'. rewrite Hx in Hle'.
      pose proof (cadena_lt_le_trans _ _ _ Hgt Hle') as Habs.
      by rewrite cadena_lt_irrefl in Habs.
    + exists r. split; [done|]. destruct Hcasos as [?|[? ?]]; [by left|].
      right. split; [lia|done].
Qed.

Lemma verificar_lista_ordenada_spec (l : list A) :
  BusquedaBinaria.ordenada (BusquedaBinaria.verificar_lista_ordenada isbn_de l)
  = true
  <-> StronglySorted (menor_igual (isbn_normalizado isbn_de)) l.
Proof.
  unfold BusquedaBinaria.verificar_lista_ordenada.
  rewrite <- (primer_desorden_ordenada (isbn_normalizado isbn_de) 0).
  fold (isbn_normalizado isbn_de).
  destruct (primer_desorden (isbn_normalizado isbn_de) 0 l); simpl; split; congruence.
Qed.

(** The search with its default bounds, on a sorted list. *)
Lemma busqueda_binaria_spec (l : list A) (isbn_buscado : string) :
  StronglySorted (menor_igual (isbn_normalizado isbn_de)) l ->
  exists r,
    BusquedaBinaria.busqueda_binaria isbn_de l isbn_buscado 0 None = inr r /\
    ((r = -1 /\
      forall a, a ∈ l -> isbn_normalizado isbn_de a <> Cadena.strip isbn_buscado) \/
     (0 <= r < Z.of_nat (length l) /\
      exists a, l !! Z.to_nat r = Some a /\
                isbn_normalizado isbn_de a = Cadena.strip isbn_buscado)).
Proof.
  intros Hord. unfold BusquedaBinaria.busqueda_binaria. simpl.
  destruct (bucle_spec
              (Z.to_nat (Z.of_nat (length l) - 1 - 0 + 1)) l
              (Cadena.strip isbn_buscado) 0 (Z.of_nat (length l) - 1))
    as (r & Hr & Hcasos); [done|lia..| |].
  - intros j a Hj _. apply lookup_lt_Some in Hj. lia.
  - exists r. split; [done|]. destruct Hcasos as [?|[? ?]]; [by left|].
    right. split; [lia|done].
Qed.

(** C3: on a list sorted ascending by stripped ISBN, [busqueda_binaria]
    returns a position; when some element has the stripped ISBN searched
    for, the position is inside the list and the element there has that
    ISBN; when none has, the position is -1, which is no position of
    the list. *)
Theorem busqueda_binaria_correcta (l : list A) (isbn_buscado : string) :
  BusquedaBinaria.ordenada (BusquedaBinaria.verificar_lista_ordenada isbn_de l)
  = true ->
  exists r,
    BusquedaBinaria.busqueda_binaria isbn_de l isbn_buscado 0 None = inr r /\
    ((exists a, a ∈ l /\ isbn_normalizado isbn_de a = Cadena.strip isbn_buscado) ->
     0 <= r < Z.of_nat (length l) /\
     exists a, l !! Z.to_nat r = Some a /\
               isbn_normalizado isbn_de a = Cadena.strip isbn_buscado) /\
    ((forall a, a ∈ l -> isbn_normalizado isbn_de a <> Cadena.strip isbn_buscado) ->
     r = -1) /\
    ~ (0 <= -1 < Z.of_nat (length l)).
Proof.
  intros Hord%verificar_lista_ordenada_spec.
  destruct (busqueda_binaria_spec l isbn_buscado Hord) as (r & Hr & Hcasos).
  exists r. split; [done|]. split_and!; [| |lia].
  - intros (a & Ha & Hx). destruct Hcasos as [[_ Hno]|?]; [|done].
    by destruct (Hno a Ha).
  - intros Hno. destruct Hcasos as [[? _]|(_ & a & Ha & Hx)]; [done|].
    destruct (Hno a); [|done]. by eapply list_elem_of_lookup_2.
Qed.

End HechosBusqueda.

(** The scenario of the specification: "300" is at position 1 and "250"
    is absent. *)
Lemma busqueda_binaria_correcta_testigo :
  exists r,
    BusquedaBinaria.busqueda_binaria id ["100"; "300"; "500"] " 300 " 0 None
    = inr r /\
    ((exists a, a ∈ ["100"; "300"; "500"] /\
                isbn_normalizado id a = Cadena.strip " 300 ") ->
     0 <= r < Z.of_nat (length ["100"; "300"; "500"]) /\
     exists a, ["100"; "300"; "500"] !! Z.to_nat r = Some a /\
               isbn_normalizado id a = Cadena.strip " 300 ") /\
    ((forall a, a ∈ ["100"; "300"; "500"] ->
                isbn_normalizado id a <> Cadena.strip " 300 ") ->
     r = -1) /\
    ~ (0 <= -1 < Z.of_nat (length ["100"; "300"; "500"])).
Proof.
  apply (busqueda_binaria_correcta id ["100"; "300"; "500"] " 300 ").
  reflexivity.
Defined.

Example busqueda_binaria_escenario :
  BusquedaBinaria.busqueda_binaria id ["100"; "300"; "500"] "300" 0 None
  = inr 1 /\
  BusquedaBinaria.busqueda_binaria id ["100"; "300"; "500"] "250" 0 None
  = inr (-1).
Proof. split; reflexivity. Qed.

(** ** The inventory manager *)

Section HechosInventario.

Lemma filter_elem_of {B : Type} (f : B -> bool) (l : list B) (x : B) :
  x ∈ List.filter f l <-> x ∈ l /\ f x = true.
Proof. rewrite !list_elem_of_In. apply filter_In. Qed.

Lemma filter_ordenada {B : Type} (R : B -> B -> Prop) (f : B -> bool)
    (l : list B) :
  StronglySorted R l -> StronglySorted R (List.filter f l).
Proof.
  induction 1 as [|x l Hs IH Hx]; simpl; [constructor|].
  destruct (f x); [|done]. constructor; [done|].
  rewrite Forall_forall in Hx |- *. intros y [Hy _]%filter_elem_of. auto.
Qed.

(** Sortedness only depends on the keys of the elements of the list. *)
Lemma ordenada_ext {B : Type} (f g : B -> string) (l : list B) :
  (forall a, a ∈ l -> f a = g a) ->
  StronglySorted (menor_igual f) l -> StronglySorted (menor_igual g) l.
Proof.
  intros Hfg Hs. induction Hs as [|x l Hs IH Hx]; [constructor|].
  constructor.
  - apply IH. intros a Ha. apply Hfg. by right.
  - rewrite Forall_forall in Hx |- *. intros y Hy. unfold menor_igual.
    rewrite <- (Hfg x), <- (Hfg y); [by apply Hx|by right|by left].
Qed.

Lemma isbn_en_app_l (almacen : list Libro.t) (libro : Libro.t) (r : nat) :
  (r < length almacen)%nat ->
  GestorInventario.isbn_en (almacen ++ [libro]) r
  = GestorInventario.isbn_en almacen r.
Proof.
  intros Hr. unfold GestorInventario.isbn_en. by rewrite lookup_total_app_l.
Qed.

Lemma isbn_en_app_nuevo (almacen : list Libro.t) (libro : Libro.t) :
  GestorInventario.isbn_en (almacen ++ [libro]) (length almacen)
  = Libro.isbn libro.
Proof.
  unfold GestorInventario.isbn_en. by rewrite list_lookup_total_middle.
Qed.

(** What [buscar_libro_por_isbn] answers on a sorted list. *)
Lemma buscar_libro_por_isbn_spec {B : Type} (isbn_de : B -> string)
    (l : list B) (isbn : string) :
  StronglySorted (menor_igual (isbn_normalizado isbn_de)) l ->
  (BusquedaBinaria.buscar_libro_por_isbn isbn_de l isbn = inr None /\
   forall a, a ∈ l -> isbn_normalizado isbn_de a <> Cadena.strip isbn) \/
  (exists a,
     BusquedaBinaria.buscar_libro_por_isbn isbn_de l isbn = inr (Some a) /\
     a ∈ l /\ isbn_normalizado isbn_de a = Cadena.strip isbn).
Proof.
  intros Hord. unfold BusquedaBinaria.buscar_libro_por_isbn.
  destruct (busqueda_binaria_spec isbn_de l isbn Hord)
    as (r & -> & [[-> Hno]|(Hr & a & Ha & Hx)]); simpl.
  - by left.
  - right. exists a. destruct (Z.eqb_spec r (-1)); [lia|]. simpl.
    destruct (getitem_en_rango l r Hr) as (a' & Ha' & ->). simpl.
    simplify_eq. split_and!; [done| |done]. by eapply list_elem_of_lookup_2.
Qed.

(** What a successful lookup tells, sorted list or not. *)
Lemma buscar_libro_por_isbn_Some {B : Type} (isbn_de : B -> string)
    (l : list B) (isbn : string) (a : B) :
  BusquedaBinaria.buscar_libro_por_isbn isbn_de l isbn = inr (Some a) ->
  exists posicion,
    BusquedaBinaria.busqueda_binaria isbn_de l isbn 0 None = inr posicion /\
    posicion <> -1 /\ getitem l posicion = inr a /\ a ∈ l.
Proof.
  unfold BusquedaBinaria.buscar_libro_por_isbn.
  destruct (BusquedaBinaria.busqueda_binaria isbn_de l isbn 0 None)
    as [e|r]; simpl; [done|].
  destruct (Z.eqb_spec r (-1)); simpl; [done|].
  destruct (getitem l r) as [e|a'] eqn:Hget; simpl; [done|].
  intros [= <-]. exists r. split_and!; try done. by eapply getitem_elem_of.
Qed.

(** On books whose ISBN is already stripped, as the constructor of
    [Libro] leaves it, sortedness by ISBN is sortedness by stripped
    ISBN. *)
Lemma ordenada_normalizada {B : Type} (isbn_de : B -> string) (l : list B) :
  (forall a, a ∈ l -> Cadena.strip (isbn_de a) = isbn_de a) ->
  Insercion.verificar_ordenamiento isbn_de l = true ->
  BusquedaBinaria.ordenada (BusquedaBinaria.verificar_lista_ordenada isbn_de l)
  = true.
Proof.
  intros Hstrip Hord. apply verificar_lista_ordenada_spec.
  apply verificar_ordenamiento_spec in Hord.
  eapply ordenada_ext; [|exact Hord].
  intros a Ha. unfold isbn_normalizado. by rewrite Hstrip.
Qed.

(** C10: when the sorted inventory is sorted and already holds a book
    with the ISBN of the new book (as the search compares them,
    stripped), [agregar_libro] returns [False] and leaves the manager,
    and so both inventories, as they were. *)
Theorem agregar_libro_duplicado (g : GestorInventario.t) (libro : Libro.t) :
  BusquedaBinaria.ordenada
    (BusquedaBinaria.verificar_lista_ordenada (GestorInventario.isbn_de g)
       (GestorInventario.inventario_ordenado g)) = true ->
  (exists r, r ∈ GestorInventario.inventario_ordenado g /\
     Cadena.strip (GestorInventario.isbn_de g r)
     = Cadena.strip (Libro.isbn libro)) ->
  GestorInventario.agregar_libro libro g = (false, g).
Proof.
  intros Hord%verificar_lista_ordenada_spec (r & Hr & Hisbn).
  unfold GestorInventario.agregar_libro, GestorInventario.buscar_por_isbn.
  destruct (buscar_libro_por_isbn_spec (GestorInventario.isbn_de g)
              (GestorInventario.inventario_ordenado g) (Libro.isbn libro) Hord)
    as [[_ Hno]|(a & -> & _)]; [|done].
  by destruct (Hno r Hr).
Qed.

End HechosInventario.

Section HechosConsistencia.

Lemma Forall_insertar {B : Type} (P : B -> Prop) (l : list B) (x : B)
    (p : nat) :
  Forall P (take p l ++ x :: drop p l) <-> P x /\ Forall P l.
Proof.
  rewrite <- (take_drop p l) at 3. rewrite !Forall_app, Forall_cons. tauto.
Qed.

Lemma isbns_insertar {B : Type} (h : B -> string) (l : list B) (x : B)
    (p : nat) :
  list_to_set (h <$> (take p l ++ x :: drop p l))
  =@{gset string} {[h x]} ∪ list_to_set (h <$> l).
Proof.
  rewrite <- (take_drop p l) at 3.
  rewrite !fmap_app, fmap_cons, !list_to_set_app_L, list_to_set_cons.
  by rewrite (assoc_L (∪)), (comm_L (∪) _ {[h x]}), <- (assoc_L (∪)).
Qed.

Lemma isbns_filter {B : Type} (h : B -> string) (l : list B) (x : string) :
  list_to_set (h <$> List.filter (fun r => negb (String.eqb (h r) x)) l)
  =@{gset string} list_to_set (h <$> l) ∖ {[x]}.
Proof.
  apply set_eq. intros y.
  rewrite elem_of_difference, !elem_of_list_to_set, !list_elem_of_fmap,
    elem_of_singleton.
  split.
  - intros (r & -> & [Hr Hne]%filter_elem_of).
    apply negb_true_iff, String.eqb_neq in Hne. eauto.
  - intros [(r & -> & Hr) Hne]. exists r. split; [done|].
    apply filter_elem_of. split; [done|].
    by apply negb_true_iff, String.eqb_neq.
Qed.

Lemma agregar_libro_invariante (g : GestorInventario.t) (libro : Libro.t) :
  invariante g -> invariante (GestorInventario.agregar_libro libro g).2.
Proof.
  intros (Hval & Hset & Hord). unfold GestorInventario.agregar_libro.
  destruct (GestorInventario.buscar_por_isbn _ g) as [e|[a|]]; simpl;
    [done..|].
  unfold GestorInventario.referencias_validas in Hval.
  apply Forall_app in Hval as [Hgen Hsor].
  set (almacen := GestorInventario.libros g ++ [libro]).
  set (r := length (GestorInventario.libros g)).
  assert (forall a, a ∈ GestorInventario.inventario_general g ->
            GestorInventario.isbn_de g a = GestorInventario.isbn_en almacen a)
    as Hfgen.
  { intros a Ha. rewrite Forall_forall in Hgen. symmetry.
    by apply isbn_en_app_l, Hgen. }
  assert (forall a, a ∈ GestorInventario.inventario_ordenado g ->
            GestorInventario.isbn_de g a = GestorInventario.isbn_en almacen a)
    as Hford.
  { intros a Ha. rewrite Forall_forall in Hsor. symmetry.
    by apply isbn_en_app_l, Hsor. }
  rewrite insertar_ordenado_forma.
  set (p := Insercion.obtener_posicion_insercion _ _ _).
  split_and!.
  - unfold GestorInventario.referencias_validas. simpl.
    assert (length almacen = S r) as ->.
    { unfold almacen. rewrite length_app. simpl. lia. }
    rewrite Forall_app, Forall_insertar, Forall_app, Forall_singleton.
    split_and!; [|lia|lia|].
    + eapply Forall_impl; [exact Hgen|]. simpl. intros; lia.
    + eapply Forall_impl; [exact Hsor|]. simpl. intros; lia.
  - unfold GestorInventario.isbns, GestorInventario.isbn_de in *. simpl.
    rewrite isbns_insertar, fmap_app, list_to_set_app_L. simpl.
    apply Forall_forall, Forall_fmap_ext in Hfgen, Hford.
    rewrite <- Hfgen, <- Hford, Hset.
    by rewrite (right_id_L ∅ (∪)), (comm_L (∪)).
  - unfold GestorInventario.isbn_de. simpl.
    apply ordenada_insertar.
    + rewrite take_drop. by eapply ordenada_ext.
    + apply posicion_insercion_prefijo.
    + apply posicion_insercion_sufijo.
Qed.

Lemma eliminar_libro_invariante (g : GestorInventario.t) (isbn : string) :
  invariante g -> invariante (GestorInventario.eliminar_libro isbn g).2.
Proof.
  intros (Hval & Hset & Hord). unfold GestorInventario.eliminar_libro.
  simpl. split_and!.
  - unfold GestorInventario.referencias_validas in *. simpl.
    apply Forall_app in Hval as [Hgen Hsor]. apply Forall_app.
    rewrite Forall_forall in Hgen, Hsor.
    split; apply Forall_forall; intros x [Hx _]%filter_elem_of; auto.
  - unfold GestorInventario.isbns, GestorInventario.isbn_de in *. simpl.
    by rewrite !isbns_filter, Hset.
  - unfold GestorInventario.isbn_de in *. simpl. by apply filter_ordenada.
Qed.

Lemma ejecutar_invariante (ops : list GestorInventario.operacion)
    (g : GestorInventario.t) :
  invariante g -> invariante (GestorInventario.ejecutar ops g).
Proof.
  revert g. induction ops as [|o ops IH]; intros g Hinv; simpl; [done|].
  apply IH. destruct o; simpl.
  - by apply agregar_libro_invariante.
  - by apply eliminar_libro_invariante.
Qed.

Lemma verificar_consistencia_invariante (g : GestorInventario.t) :
  GestorInventario.referencias_validas g ->
  (GestorInventario.mismos_libros (GestorInventario.verificar_consistencia g)
   = true /\
   GestorInventario.ordenado_correcto
     (GestorInventario.verificar_consistencia g) = true)
  <-> invariante g.
Proof.
  intros Hval. unfold invariante. simpl.
  rewrite bool_decide_eq_true, verificar_ordenamiento_spec. tauto.
Qed.

(** C5: from inventories with valid references that hold the same set
    of ISBNs, the sorted one non-decreasing by ISBN, every sequence of
    [agregar_libro] and [eliminar_libro] ends in inventories that again
    hold the same set of ISBNs, the sorted one non-decreasing. *)
Theorem consistencia_preservada (ops : list GestorInventario.operacion)
    (g : GestorInventario.t) :
  GestorInventario.referencias_validas g ->
  GestorInventario.mismos_libros (GestorInventario.verificar_consistencia g)
  = true ->
  GestorInventario.ordenado_correcto (GestorInventario.verificar_consistencia g)
  = true ->
  GestorInventario.isbns (GestorInventario.ejecutar ops g)
    (GestorInventario.inventario_general (GestorInventario.ejecutar ops g))
  = GestorInventario.isbns (GestorInventario.ejecutar ops g)
      (GestorInventario.inventario_ordenado (GestorInventario.ejecutar ops g))
  /\
  Insercion.verificar_ordenamiento
    (GestorInventario.isbn_de (GestorInventario.ejecutar ops g))
    (GestorInventario.inventario_ordenado (GestorInventario.ejecutar ops g))
  = true.
Proof.
  intros Hval Hset Hord.
  assert (invariante g) as Hinv.
  { by apply verificar_consistencia_invariante. }
  apply (ejecutar_invariante ops) in Hinv as (Hval' & Hset' & Hord').
  split; [done|]. by apply verificar_ordenamiento_spec.
Qed.

End HechosConsistencia.

(** ** The loan manager *)

Section HechosPrestamos.
Import GestorPrestamos.

Lemma busqueda_binaria_ext {B : Type} (f g : B -> string) (l : list B)
    (x : string) (inicio : Z) (fin : option Z) :
  (forall a, a ∈ l -> f a = g a) ->
  BusquedaBinaria.busqueda_binaria f l x inicio fin
  = BusquedaBinaria.busqueda_binaria g l x inicio fin.
Proof.
  intros Hfg. unfold BusquedaBinaria.busqueda_binaria. by apply bucle_ext.
Qed.

(** A change of stock does not change the ISBN behind any reference. *)
Lemma isbn_en_alter (f : Libro.t -> Libro.t) (almacen : list Libro.t)
    (r r' : nat) :
  (forall b, Libro.isbn (f b) = Libro.isbn b) ->
  GestorInventario.isbn_en (alter f r almacen) r'
  = GestorInventario.isbn_en almacen r'.
Proof.
  intros Hf. unfold GestorInventario.isbn_en.
  rewrite list_lookup_total_alter. case_decide as H; [|done].
  destruct H as [-> _]. apply Hf.
Qed.

Lemma busqueda_mutar_libro (r : nat) (s : t) (isbn : string) :
  let g := gestor_inventario s in
  let g' := gestor_inventario (mutar_libro Libro.incrementar_stock r s) in
  BusquedaBinaria.busqueda_binaria (GestorInventario.isbn_de g')
    (GestorInventario.inventario_ordenado g') isbn 0 None
  = BusquedaBinaria.busqueda_binaria (GestorInventario.isbn_de g)
      (GestorInventario.inventario_ordenado g) isbn 0 None.
Proof.
  simpl. apply busqueda_binaria_ext. intros a _.
  unfold GestorInventario.isbn_de. simpl. by apply isbn_en_alter.
Qed.

Lemma buscar_por_isbn_Some (s : t) (isbn : string) (r : nat) :
  GestorInventario.referencias_validas (gestor_inventario s) ->
  GestorInventario.buscar_por_isbn isbn (gestor_inventario s) = inr (Some r) ->
  (r < length (GestorInventario.libros (gestor_inventario s)))%nat /\
  exists posicion,
    BusquedaBinaria.busqueda_binaria
      (GestorInventario.isbn_de (gestor_inventario s))
      (GestorInventario.inventario_ordenado (gestor_inventario s)) isbn 0 None
    = inr posicion /\ (posicion =? -1) = false.
Proof.
  intros Hval Hbus.
  apply buscar_libro_por_isbn_Some in Hbus as (pos & Hpos & Hne & _ & Hr).
  split.
  - apply Forall_app in Hval as [_ Hval]. rewrite Forall_forall in Hval. auto.
  - exists pos. split; [done|]. by apply Z.eqb_neq.
Qed.

Lemma stock_mutar_libro (r : nat) (s : t) :
  (r < length (GestorInventario.libros (gestor_inventario s)))%nat ->
  Libro.stock (libro_en (mutar_libro Libro.incrementar_stock r s) r)
  = Libro.stock (libro_en s r) + 1.
Proof.
  intros Hr. unfold libro_en. simpl. by rewrite list_lookup_total_alter_eq.
Qed.

Lemma sin_reservas_siguiente (isbn : string) (q : Cola.t) :
  Cola.contar_reservas_libro isbn q = 0 ->
  Cola.obtener_siguiente_usuario isbn q = None.
Proof.
  unfold Cola.contar_reservas_libro, Cola.buscar_libro,
    Cola.obtener_siguiente_usuario.
  induction (Cola.elementos q) as [|reg l IH]; simpl; [done|].
  destruct (String.eqb (Cola.isbn reg) isbn); simpl; [lia|done].
Qed.

Lemma historial_no_vacio (isbn : string) (p : Pila.t) :
  isbn ∈ Pila.isbn <$> Pila.obtener_todos p -> Pila.esta_vacia p = false.
Proof.
  unfold Pila.obtener_todos, Pila.esta_vacia, Pila.tamanio.
  destruct (Pila.elementos p); simpl; [|done]. by intros ?%elem_of_nil.
Qed.

(** C6: a valid return (the user exists, the book is found in the
    sorted inventory, the user's history holds a loan of it) of a book
    nobody has reserved succeeds, adds exactly 1 to the stock of the
    book and leaves the reservation queue as it was. *)
Theorem devolver_libro_sin_reservas (ahora ahora_prestamo : string)
    (id_usuario isbn : string) (s : t) (usuario : Usuario.t) (r : nat)
    (historial : Pila.t) :
  GestorInventario.referencias_validas (gestor_inventario s) ->
  usuarios s !! id_usuario = Some usuario ->
  GestorInventario.buscar_por_isbn isbn (gestor_inventario s) = inr (Some r) ->
  historial_prestamos s !! id_usuario = Some historial ->
  isbn ∈ Pila.isbn <$> Pila.obtener_todos historial ->
  Cola.contar_reservas_libro isbn (cola_reservas s) = 0 ->
  exists res s',
    devolver_libro ahora ahora_prestamo id_usuario isbn s = (res, s') /\
    Devolucion.exito res = true /\
    Devolucion.reserva_asignada res = Some false /\
    Libro.stock (libro_en s' r) = Libro.stock (libro_en s r) + 1 /\
    cola_reservas s' = cola_reservas s.
Proof.
  intros Hval Hu Hbus Hhist Hprest Hcola.
  destruct (buscar_por_isbn_Some s isbn r Hval Hbus) as (Hr & pos & Hpos & Hne).
  unfold devolver_libro. rewrite Hu, Hbus, Hhist.
  rewrite (historial_no_vacio isbn historial Hprest).
  rewrite (bool_decide_eq_true_2 _ Hprest). cbn [negb].
  unfold verificar_y_asignar_reserva.
  change (gestor_inventario (mutar_usuario ?f ?i ?s0))
    with (gestor_inventario s0).
  rewrite busqueda_mutar_libro, Hpos, Hne.
  change (cola_reservas (mutar_usuario ?f ?i (mutar_libro ?h ?j s)))
    with (cola_reservas s).
  rewrite (sin_reservas_siguiente isbn _ Hcola).
  do 2 eexists. split; [reflexivity|]. cbn [Verificacion.tiene_reservas].
  split_and!; try done.
  by apply stock_mutar_libro.
Qed.

Lemma buscar_por_isbn_mutar_libro (r : nat) (s : t) (isbn : string) :
  GestorInventario.buscar_por_isbn isbn
    (gestor_inventario (mutar_libro Libro.incrementar_stock r s))
  = GestorInventario.buscar_por_isbn isbn (gestor_inventario s).
Proof.
  unfold GestorInventario.buscar_por_isbn,
    BusquedaBinaria.buscar_libro_por_isbn.
  by rewrite busqueda_mutar_libro.
Qed.

(** The automatic loan to an eligible user: the user's count goes up by
    one and the history gains the entry; inventory and queue are not
    touched, so the stock is not decremented. *)
Lemma procesar_prestamo_automatico_exito (ahora id_usuario isbn : string)
    (s : t) (usuario : Usuario.t) (r : nat) :
  usuarios s !! id_usuario = Some usuario ->
  Usuario.puede_prestar usuario = true ->
  GestorInventario.buscar_por_isbn isbn (gestor_inventario s) = inr (Some r) ->
  Cadena.en_blanco isbn = false ->
  (forall pila, historial_prestamos s !! id_usuario = Some pila ->
     Pila.esta_llena pila = false) ->
  exists s',
    procesar_prestamo_automatico ahora id_usuario isbn s = (true, s') /\
    gestor_inventario s' = gestor_inventario s /\
    cola_reservas s' = cola_reservas s /\
    usuarios s'
    = <[id_usuario :=
          Usuario.con_prestados (Usuario.libros_prestados usuario + 1) usuario]>
        (usuarios s) /\
    entradas s' id_usuario
    = entradas s id_usuario
      ++ [{| Pila.isbn := Cadena.strip isbn; Pila.fecha := ahora |}].
Proof.
  intros Hu Hpuede Hbus Hisbn Hllena. unfold procesar_prestamo_automatico.
  rewrite Hu, Hbus, Hpuede. cbn [negb].
  set (s1 := mutar_usuario _ id_usuario s).
  assert (usuarios s1
          = <[id_usuario :=
                Usuario.con_prestados (Usuario.libros_prestados usuario + 1)
                  usuario]> (usuarios s)) as Hus1.
  { unfold s1. simpl. apply map_eq. intros k.
    destruct (decide (id_usuario = k)) as [<-|Hne].
    - rewrite lookup_alter_eq, lookup_insert_eq, Hu. simpl.
      unfold Usuario.incrementar_prestamos. by rewrite Hpuede.
    - by rewrite lookup_alter_ne, lookup_insert_ne. }
  change (historial_prestamos s1) with (historial_prestamos s).
  unfold entradas.
  destruct (historial_prestamos s !! id_usuario) as [pila|] eqn:Hh.
  - simpl. rewrite Hh. simpl. unfold Pila.apilar.
    rewrite Hisbn, (Hllena pila eq_refl). simpl.
    eexists. split; [reflexivity|]. simpl.
    split_and!; try done. by rewrite lookup_insert_eq.
  - simpl. rewrite lookup_insert_eq. simpl. unfold Pila.apilar.
    rewrite Hisbn. simpl.
    eexists. split; [reflexivity|]. simpl.
    split_and!; try done. by rewrite lookup_insert_eq.
Qed.

(** C1: the return of a book at stock 0 whose only reservation is held
    by an eligible user succeeds, empties the queue of reservations of
    the book, adds 1 to the active loans of that user and pushes the
    book on the user's history; the stock of the book ends at 1, the
    increment of the return, because the automatic loan never
    decrements it. *)
Theorem devolver_libro_con_reserva (ahora ahora_prestamo : string)
    (u1 u2 isbn fecha : string) (s : t) (usuario1 usuario2 : Usuario.t)
    (r : nat) (historial2 : Pila.t) :
  u1 <> u2 ->
  GestorInventario.referencias_validas (gestor_inventario s) ->
  GestorInventario.buscar_por_isbn isbn (gestor_inventario s) = inr (Some r) ->
  Libro.stock (libro_en s r) = 0 ->
  usuarios s !! u2 = Some usuario2 ->
  historial_prestamos s !! u2 = Some historial2 ->
  isbn ∈ Pila.isbn <$> Pila.obtener_todos historial2 ->
  Cola.elementos (cola_reservas s)
  = [{| Cola.id_usuario := u1; Cola.isbn := isbn; Cola.fecha := fecha |}] ->
  usuarios s !! u1 = Some usuario1 ->
  Usuario.puede_prestar usuario1 = true ->
  Cadena.en_blanco isbn = false ->
  (forall pila, historial_prestamos s !! u1 = Some pila ->
     Pila.esta_llena pila = false) ->
  exists res s',
    devolver_libro ahora ahora_prestamo u2 isbn s = (res, s') /\
    Devolucion.exito res = true /\
    Devolucion.reserva_asignada res = Some true /\
    Libro.stock (libro_en s' r) = 1 /\
    Cola.contar_reservas_libro isbn (cola_reservas s') = 0 /\
    usuarios s' !! u1
    = Some (Usuario.con_prestados (Usuario.libros_prestados usuario1 + 1)
              usuario1) /\
    entradas s' u1
    = entradas s u1
      ++ [{| Pila.isbn := Cadena.strip isbn; Pila.fecha := ahora_prestamo |}].
Proof.
  intros Hne Hval Hbus Hstock Hu2 Hh2 Hprest Hcola Hu1 Hpuede Hisbn Hllena.
  destruct (buscar_por_isbn_Some s isbn r Hval Hbus) as (Hr & pos & Hpos & Hpne).
  unfold devolver_libro. rewrite Hu2, Hbus, Hh2.
  rewrite (historial_no_vacio isbn historial2 Hprest).
  rewrite (bool_decide_eq_true_2 _ Hprest). cbn [negb].
  set (s1 := mutar_libro Libro.incrementar_stock r s).
  set (s2 := mutar_usuario _ u2 s1).
  unfold verificar_y_asignar_reserva.
  change (gestor_inventario s2) with (gestor_inventario s1).
  unfold s1 at 1 2. rewrite busqueda_mutar_libro, Hpos, Hpne.
  change (cola_reservas s2) with (cola_reservas s).
  unfold Cola.obtener_siguiente_usuario, Cola.desencolar, Cola.esta_vacia,
    Cola.tamanio.
  rewrite Hcola. cbn [List.find Cola.isbn length head tail].
  rewrite String.eqb_refl. change (Z.of_nat 1 =? 0) with false.
  cbn iota. cbn [Cola.id_usuario].
  set (s3 := con_cola _ s2).
  destruct (procesar_prestamo_automatico_exito ahora_prestamo u1 isbn s3
              usuario1 r)
    as (s4 & -> & Hinv4 & Hcola4 & Hus4 & Hent4).
  { unfold s3, s2, s1. simpl. by rewrite lookup_alter_ne. }
  { done. }
  { change (gestor_inventario s3) with (gestor_inventario s1).
    unfold s1. by rewrite buscar_por_isbn_mutar_libro. }
  { done. }
  { exact Hllena. }
  do 2 eexists. split; [reflexivity|].
  cbn [Devolucion.exito Devolucion.reserva_asignada
       Verificacion.tiene_reservas].
  split_and!; try done.
  - unfold libro_en. rewrite Hinv4.
    change (gestor_inventario s3) with (gestor_inventario s1).
    fold (libro_en s1 r). unfold s1. rewrite stock_mutar_libro by done. lia.
  - by rewrite Hcola4.
  - rewrite Hus4, lookup_insert_eq. done.
Qed.

End HechosPrestamos.

(** ** The loan history *)

Section HechosPila.

Lemma apilar_valido (ahora isbn : string) (fecha : option string) (p : Pila.t) :
  Cadena.en_blanco isbn = false -> Pila.capacidad_max p = None ->
  Pila.apilar ahora isbn fecha p
  = (inr true,
     {| Pila.elementos := Pila.elementos p ++ [entrada_de ahora isbn fecha];
        Pila.capacidad_max := None |}).
Proof.
  intros Hisbn Hcap. unfold Pila.apilar, Pila.esta_llena.
  by rewrite Hisbn, Hcap.
Qed.

(** C9: after [apilar x] then [apilar y], [Pila.obtener_todos] lists the
    entries in the order they were pushed, the most recent last, while
    the top of the stack, [__iter__] and the manager's
    [obtener_historial_usuario] give the most recent first. *)
Theorem obtener_todos_orden_de_apilado (ahora_x ahora_y x y : string)
    (fx fy : option string) (p : Pila.t) (id_usuario : string)
    (s : GestorPrestamos.t) :
  Cadena.en_blanco x = false -> Cadena.en_blanco y = false ->
  Pila.capacidad_max p = None ->
  GestorPrestamos.historial_prestamos s !! id_usuario
  = Some (Pila.apilar ahora_y y fy (Pila.apilar ahora_x x fx p).2).2 ->
  Pila.obtener_todos (Pila.apilar ahora_y y fy (Pila.apilar ahora_x x fx p).2).2
  = Pila.obtener_todos p ++ [entrada_de ahora_x x fx; entrada_de ahora_y y fy] /\
  Pila.tope (Pila.apilar ahora_y y fy (Pila.apilar ahora_x x fx p).2).2
  = Some (entrada_de ahora_y y fy) /\
  Pila.iter (Pila.apilar ahora_y y fy (Pila.apilar ahora_x x fx p).2).2
  = entrada_de ahora_y y fy :: entrada_de ahora_x x fx :: Pila.iter p /\
  GestorPrestamos.obtener_historial_usuario id_usuario s
  = entrada_de ahora_y y fy :: entrada_de ahora_x x fx
    :: reverse (Pila.obtener_todos p).
Proof.
  intros Hx Hy Hcap Hs. unfold GestorPrestamos.obtener_historial_usuario.
  rewrite Hs. clear Hs.
  rewrite (apilar_valido ahora_x x fx p Hx Hcap). cbn [snd].
  rewrite apilar_valido by done. cbn [snd].
  unfold Pila.obtener_todos, Pila.iter, Pila.tope, Pila.esta_vacia,
    Pila.tamanio. cbn [Pila.elementos].
  rewrite !reverse_app, last_snoc, !length_app. cbn [length].
  split_and!; try done.
  - by rewrite <- (assoc_L (++)).
  - by destruct (Z.eqb_spec (Z.of_nat (length (Pila.elementos p) + 1 + 1)) 0);
      [lia|].
Qed.

End HechosPila.

(** ** The statements on the example data *)

Lemma referencias_validas_ejemplo :
  GestorInventario.referencias_validas Ejemplo.inventario.
Proof.
  unfold GestorInventario.referencias_validas. simpl.
  repeat (apply Forall_cons_2; [lia|]). apply Forall_nil_2.
Defined.

Lemma consistencia_preservada_testigo :
  GestorInventario.isbns
    (GestorInventario.ejecutar Ejemplo.operaciones Ejemplo.inventario)
    (GestorInventario.inventario_general
       (GestorInventario.ejecutar Ejemplo.operaciones Ejemplo.inventario))
  = GestorInventario.isbns
      (GestorInventario.ejecutar Ejemplo.operaciones Ejemplo.inventario)
      (GestorInventario.inventario_ordenado
         (GestorInventario.ejecutar Ejemplo.operaciones Ejemplo.inventario))
  /\
  Insercion.verificar_ordenamiento
    (GestorInventario.isbn_de
       (GestorInventario.ejecutar Ejemplo.operaciones Ejemplo.inventario))
    (GestorInventario.inventario_ordenado
       (GestorInventario.ejecutar Ejemplo.operaciones Ejemplo.inventario))
  = true.
Proof.
  apply (consistencia_preservada Ejemplo.operaciones Ejemplo.inventario).
  - exact referencias_validas_ejemplo.
  - vm_compute. reflexivity.
  - vm_compute. reflexivity.
Defined.

Example ejecutar_escenario :
  GestorInventario.isbn_de
    (GestorInventario.ejecutar Ejemplo.operaciones Ejemplo.inventario)
  <$> GestorInventario.inventario_ordenado
        (GestorInventario.ejecutar Ejemplo.operaciones Ejemplo.inventario)
  = ["ISBN-A"; "ISBN-AB"; "ISBN-C"].
Proof. vm_compute. reflexivity. Qed.

Lemma agregar_libro_duplicado_testigo :
  GestorInventario.agregar_libro
    (Libro.Libro "ISBN-C" "Repetido" "Rulfo" 4) Ejemplo.inventario
  = (false, Ejemplo.inventario).
Proof.
  apply (agregar_libro_duplicado Ejemplo.inventario
           (Libro.Libro "ISBN-C" "Repetido" "Rulfo" 4)).
  - vm_compute. reflexivity.
  - exists 2%nat. split; [|reflexivity].
    apply list_elem_of_In. simpl. auto.
Defined.

Lemma devolver_libro_sin_reservas_testigo :
  exists res s',
    GestorPrestamos.devolver_libro "2025-12-03 12:00:00"
      "2025-12-03 12:00:01" "U2" "ISBN-A"
      Ejemplo.sistema_sin_reservas = (res, s') /\
    Devolucion.exito res = true /\
    Devolucion.reserva_asignada res = Some false /\
    Libro.stock (GestorPrestamos.libro_en s' 1)
    = Libro.stock (GestorPrestamos.libro_en Ejemplo.sistema_sin_reservas 1) + 1
    /\
    GestorPrestamos.cola_reservas s'
    = GestorPrestamos.cola_reservas Ejemplo.sistema_sin_reservas.
Proof.
  apply (devolver_libro_sin_reservas "2025-12-03 12:00:00"
           "2025-12-03 12:00:01" "U2" "ISBN-A" Ejemplo.sistema_sin_reservas
           (Usuario.Usuario "U2" "Dos" "dos@biblioteca.co" true 1 3) 1%nat
           (Pila.Pila [Pila.Registro "ISBN-A" "2025-12-01 10:00:00"] None)).
  - exact referencias_validas_ejemplo.
  - vm_compute. reflexivity.
  - vm_compute. reflexivity.
  - vm_compute. reflexivity.
  - apply list_elem_of_In. simpl. auto.
  - vm_compute. reflexivity.
Defined.

Lemma devolver_libro_con_reserva_testigo :
  exists res s',
    GestorPrestamos.devolver_libro "2025-12-03 12:00:00"
      "2025-12-03 12:00:01" "U2" "ISBN-A"
      Ejemplo.sistema = (res, s') /\
    Devolucion.exito res = true /\
    Devolucion.reserva_asignada res = Some true /\
    Libro.stock (GestorPrestamos.libro_en s' 1) = 1 /\
    Cola.contar_reservas_libro "ISBN-A" (GestorPrestamos.cola_reservas s') = 0
    /\
    GestorPrestamos.usuarios s' !! "U1"
    = Some (Usuario.con_prestados
              (Usuario.libros_prestados
                 (Usuario.Usuario "U1" "Uno" "uno@biblioteca.co" true 0 3) + 1)
              (Usuario.Usuario "U1" "Uno" "uno@biblioteca.co" true 0 3)) /\
    entradas s' "U1"
    = entradas Ejemplo.sistema "U1"
      ++ [{| Pila.isbn := Cadena.strip "ISBN-A";
             Pila.fecha := "2025-12-03 12:00:01" |}].
Proof.
  apply (devolver_libro_con_reserva "2025-12-03 12:00:00"
           "2025-12-03 12:00:01" "U1" "U2" "ISBN-A"
           "2025-12-02 08:00:00" Ejemplo.sistema
           (Usuario.Usuario "U1" "Uno" "uno@biblioteca.co" true 0 3)
           (Usuario.Usuario "U2" "Dos" "dos@biblioteca.co" true 1 3) 1%nat
           (Pila.Pila [Pila.Registro "ISBN-A" "2025-12-01 10:00:00"] None)).
  - discriminate.
  - exact referencias_validas_ejemplo.
  - vm_compute. reflexivity.
  - reflexivity.
  - vm_compute. reflexivity.
  - vm_compute. reflexivity.
  - apply list_elem_of_In. simpl. auto.
  - reflexivity.
  - vm_compute. reflexivity.
  - reflexivity.
  - reflexivity.
  - intros pila H. vm_compute in H. injection H as <-. reflexivity.
Defined.

(** The scenario of the specification, evaluated: the stock reported
    and stored after the return is 1. *)
Example devolver_libro_escenario :
  let '(res, s') :=
    GestorPrestamos.devolver_libro "2025-12-03 12:00:00"
      "2025-12-03 12:00:01" "U2" "ISBN-A"
      Ejemplo.sistema in
  Devolucion.stock_actual <$> Devolucion.detalles_de res = Some 1 /\
  Devolucion.usuario_asignado <$> Devolucion.detalles_de res
  = Some (Some (Some "U1")) /\
  Libro.stock (GestorPrestamos.libro_en Ejemplo.sistema 1) = 0 /\
  Libro.stock (GestorPrestamos.libro_en s' 1) = 1.
Proof. vm_compute. auto. Qed.

(** With the head of the queue reserving another book, the return of
    "ISBN-A" hands it to the user at the head, U9, who reserved
    "ISBN-B"; U1, the next user in line for "ISBN-A", stays queued. *)
Example verificar_y_asignar_reserva_cabeza_ajena :
  let '(res, s') :=
    GestorPrestamos.verificar_y_asignar_reserva "2025-12-03 12:00:00"
      "ISBN-A" true Ejemplo.sistema_cabeza_ajena in
  Cola.id_usuario
  <$> Cola.obtener_siguiente_usuario "ISBN-A" Ejemplo.cola_cabeza_ajena
  = Some "U1" /\
  match res with
  | inr v => Verificacion.usuario_asignado v = Some "U9"
  | inl _ => False
  end /\
  Cola.elementos (GestorPrestamos.cola_reservas s')
  = [Cola.Registro "U1" "ISBN-A" "2025-12-02 08:00:00"] /\
  entradas s' "U9" = [Pila.Registro "ISBN-A" "2025-12-03 12:00:00"].
Proof. vm_compute. auto. Qed.

Lemma obtener_todos_orden_de_apilado_testigo :
  Pila.obtener_todos
    (Pila.apilar "t2" "ISBN-B" None
       (Pila.apilar "t1" "ISBN-A" None (Pila.nueva None)).2).2
  = Pila.obtener_todos (Pila.nueva None)
    ++ [entrada_de "t1" "ISBN-A" None; entrada_de "t2" "ISBN-B" None] /\
  Pila.tope
    (Pila.apilar "t2" "ISBN-B" None
       (Pila.apilar "t1" "ISBN-A" None (Pila.nueva None)).2).2
  = Some (entrada_de "t2" "ISBN-B" None) /\
  Pila.iter
    (Pila.apilar "t2" "ISBN-B" None
       (Pila.apilar "t1" "ISBN-A" None (Pila.nueva None)).2).2
  = entrada_de "t2" "ISBN-B" None :: entrada_de "t1" "ISBN-A" None
    :: Pila.iter (Pila.nueva None) /\
  GestorPrestamos.obtener_historial_usuario "U1"
    (GestorPrestamos.con_historial
       (<["U1" :=
            (Pila.apilar "t2" "ISBN-B" None
               (Pila.apilar "t1" "ISBN-A" None (Pila.nueva None)).2).2]> ∅)
       Ejemplo.sistema)
  = entrada_de "t2" "ISBN-B" None :: entrada_de "t1" "ISBN-A" None
    :: reverse (Pila.obtener_todos (Pila.nueva None)).
Proof.
  apply (obtener_todos_orden_de_apilado "t1" "t2" "ISBN-A" "ISBN-B"
           None None (Pila.nueva None) "U1").
  - reflexivity.
  - reflexivity.
  - reflexivity.
  - vm_compute. reflexivity.
Defined.

(** * Further properties *)

(** ** The reservation queue: scans, removal, capacity *)

Section MasCola.

Lemma quitar_primera_spec (id isbn : string) (l : list Cola.registro) :
  match Cola.quitar_primera id isbn l with
  | Some l' =>
      exists l1 r l2,
        l = l1 ++ r :: l2 /\ l' = l1 ++ l2 /\
        Cola.coincide id isbn r = true /\
        Forall (fun x => Cola.coincide id isbn x = false) l1
  | None => Forall (fun x => Cola.coincide id isbn x = false) l
  end.
Proof.
  induction l as [|a l IH]; simpl; [constructor|].
  destruct (Cola.coincide id isbn a) eqn:Ha.
  - exists [], a, l. by repeat split.
  - destruct (Cola.quitar_primera id isbn l) as [l'|]; simpl.
    + destruct IH as (l1 & r & l2 & -> & -> & Hr & Hl1).
      exists (a :: l1), r, l2. repeat split; try done. by constructor.
    + by constructor.
Qed.

Lemma tiene_reserva_false (id isbn : string) (q : Cola.t) :
  Cola.tiene_reserva id isbn q = false
  <-> Forall (fun x => Cola.coincide id isbn x = false) (Cola.elementos q).
Proof.
  unfold Cola.tiene_reserva.
  induction (Cola.elementos q) as [|a l IH]; simpl.
  - split; [constructor|done].
  - fold (Cola.coincide id isbn a). rewrite orb_false_iff, IH, Forall_cons.
    tauto.
Qed.

Lemma tiene_reserva_true (id isbn : string) (q : Cola.t) l1 r l2 :
  Cola.elementos q = l1 ++ r :: l2 -> Cola.coincide id isbn r = true ->
  Cola.tiene_reserva id isbn q = true.
Proof.
  intros Hq Hr. apply not_false_iff_true. intros H%tiene_reserva_false.
  rewrite Hq, Forall_app, Forall_cons in H. destruct H as (_ & H & _).
  congruence.
Qed.

(** X1: [remover_reserva] answers [False] and changes nothing exactly
    when the user has no reservation of the book; otherwise it answers
    [True] and removes the first matching record only, the other
    records keeping their order and the capacity its value. *)
Theorem remover_reserva_primera (id isbn : string) (q : Cola.t) :
  (Cola.tiene_reserva id isbn q = false /\
   Cola.remover_reserva id isbn q = (false, q)) \/
  (Cola.tiene_reserva id isbn q = true /\
   exists l1 r l2,
     Cola.elementos q = l1 ++ r :: l2 /\
     Cola.coincide id isbn r = true /\
     Forall (fun x => Cola.coincide id isbn x = false) l1 /\
     Cola.remover_reserva id isbn q
     = (true, {| Cola.elementos := l1 ++ l2;
                 Cola.capacidad_max := Cola.capacidad_max q |})).
Proof.
  unfold Cola.remover_reserva.
  pose proof (quitar_primera_spec id isbn (Cola.elementos q)) as H.
  destruct (Cola.quitar_primera id isbn (Cola.elementos q)) as [l'|].
  - right. destruct H as (l1 & r & l2 & Hq & -> & Hr & Hl1).
    split; [by eapply tiene_reserva_true|]. by exists l1, r, l2.
  - left. split; [by apply tiene_reserva_false|done].
Qed.

Lemma posicion_desde_spec (id isbn : string) (index : nat)
    (l : list Cola.registro) :
  (Forall (fun x => Cola.coincide id isbn x = false) l /\
   Cola.posicion_desde id isbn index l = -1) \/
  (exists l1 r l2,
     l = l1 ++ r :: l2 /\ Cola.coincide id isbn r = true /\
     Forall (fun x => Cola.coincide id isbn x = false) l1 /\
     Cola.posicion_desde id isbn index l
     = Z.of_nat index + Z.of_nat (length l1) + 1).
Proof.
  revert index. induction l as [|a l IH]; intros index; simpl.
  - left. split; [constructor|done].
  - destruct (Cola.coincide id isbn a) eqn:Ha.
    + right. exists [], a, l. repeat split; try done. simpl. lia.
    + destruct (IH (S index)) as [[Hl Hp]|(l1 & r & l2 & -> & Hr & Hl1 & Hp)].
      * left. split; [by constructor|done].
      * right. exists (a :: l1), r, l2. repeat split; try done.
        { by constructor. }
        rewrite Hp. simpl. lia.
Qed.

(** X2: [posicion_usuario] is -1 exactly when the user has no
    reservation of the book; otherwise it is the 1-based position of
    the first matching record, so it lies in 1..tamanio. *)
Theorem posicion_usuario_primera (id isbn : string) (q : Cola.t) :
  (Cola.tiene_reserva id isbn q = false /\
   Cola.posicion_usuario id isbn q = -1) \/
  (Cola.tiene_reserva id isbn q = true /\
   1 <= Cola.posicion_usuario id isbn q <= Cola.tamanio q /\
   exists l1 r l2,
     Cola.elementos q = l1 ++ r :: l2 /\
     Cola.coincide id isbn r = true /\
     Forall (fun x => Cola.coincide id isbn x = false) l1 /\
     Cola.posicion_usuario id isbn q = Z.of_nat (length l1) + 1).
Proof.
  unfold Cola.posicion_usuario, Cola.tamanio.
  destruct (posicion_desde_spec id isbn 0 (Cola.elementos q))
    as [[Hl Hp]|(l1 & r & l2 & Hq & Hr & Hl1 & Hp)].
  - left. split; [by apply tiene_reserva_false|done].
  - right. split; [by eapply tiene_reserva_true|].
    rewrite Hp. split.
    + rewrite Hq, length_app. simpl. lia.
    + exists l1, r, l2. repeat split; try done.
Qed.

(** X3: a bounded queue never grows past its capacity: after [encolar]
    the size is at most the larger of the capacity and the size before,
    the capacity stays, and on a full queue nothing is stored and valid
    identifiers are answered with [False]. *)
Theorem encolar_respeta_capacidad (ahora id isbn : string)
    (fecha : option string) (q : Cola.t) (c : Z) :
  Cola.capacidad_max q = Some c ->
  Cola.tamanio (Cola.encolar ahora id isbn fecha q).2
  <= Z.max c (Cola.tamanio q) /\
  Cola.capacidad_max (Cola.encolar ahora id isbn fecha q).2 = Some c /\
  (c <= Cola.tamanio q ->
   (Cola.encolar ahora id isbn fecha q).2 = q /\
   (Cadena.en_blanco id = false -> Cadena.en_blanco isbn = false ->
    (Cola.encolar ahora id isbn fecha q).1 = inr false)).
Proof.
  intros Hc. unfold Cola.encolar, Cola.esta_llena. rewrite Hc.
  destruct (Cadena.en_blanco id); simpl.
  { split_and!; [lia|done|]. intros _. split; [done|]. discriminate. }
  destruct (Cadena.en_blanco isbn); simpl.
  { split_and!; [lia|done|]. intros _. split; [done|]. discriminate. }
  destruct (Z.leb_spec c (Cola.tamanio q)); simpl.
  - split_and!; [lia|done|done].
  - split_and!; [|done|lia].
    unfold Cola.tamanio in *. simpl. rewrite length_app. simpl. lia.
Qed.

Lemma encolar_todas_sin_limite (xs : list solicitud) (q : Cola.t) :
  forallb solicitud_valida xs = true -> Cola.capacidad_max q = None ->
  encolar_todas xs q
  = {| Cola.elementos := Cola.elementos q ++ (registro_de_solicitud <$> xs);
       Cola.capacidad_max := None |}.
Proof.
  revert q. induction xs as [|[[[ahora id] isbn] fecha] xs IH]; intros q Hv Hc.
  - simpl. rewrite app_nil_r. destruct q; simpl in *. by subst.
  - simpl in Hv. apply andb_true_iff in Hv as [Hx Hv].
    apply andb_true_iff in Hx as [Hid Hisbn]. apply negb_true_iff in Hid, Hisbn.
    unfold encolar_todas. simpl. fold (encolar_todas xs).
    rewrite encolar_valido by done. simpl. rewrite IH by done. simpl.
    by rewrite <- (assoc_L (++)).
Qed.

Lemma desencolar_veces_todos (l : list Cola.registro) (cap : option Z) :
  desencolar_veces (length l)
    {| Cola.elementos := l; Cola.capacidad_max := cap |}
  = (Some <$> l, {| Cola.elementos := []; Cola.capacidad_max := cap |}).
Proof.
  induction l as [|r l IH]; [done|]. cbn [length desencolar_veces].
  rewrite desencolar_cons, IH. done.
Qed.

(** X4: any number of valid requests enqueued on an empty unbounded
    queue come out of as many [desencolar] calls in the order they went
    in, and the queue is empty again. *)
Theorem cola_fifo_general (xs : list solicitud) :
  forallb solicitud_valida xs = true ->
  desencolar_veces (length xs) (encolar_todas xs (Cola.nueva None))
  = (Some <$> (registro_de_solicitud <$> xs), Cola.nueva None).
Proof.
  intros Hv. rewrite encolar_todas_sin_limite by done. simpl.
  rewrite <- (length_fmap registro_de_solicitud xs).
  apply desencolar_veces_todos.
Qed.

(** X5: [obtener_siguiente_usuario] is the head of [buscar_libro], the
    oldest reservation of the book, and it is [None] exactly when
    [contar_reservas_libro] is 0. *)
Theorem siguiente_es_primera_reserva (isbn : string) (q : Cola.t) :
  Cola.obtener_siguiente_usuario isbn q = head (Cola.buscar_libro isbn q) /\
  (Cola.obtener_siguiente_usuario isbn q = None
   <-> Cola.contar_reservas_libro isbn q = 0).
Proof.
  unfold Cola.obtener_siguiente_usuario, Cola.contar_reservas_libro,
    Cola.buscar_libro.
  induction (Cola.elementos q) as [|r l [IH1 IH2]]; simpl; [done|].
  destruct (String.eqb (Cola.isbn r) isbn); simpl; [|done].
  split; [done|]. split; [done|lia].
Qed.

End MasCola.

Lemma encolar_respeta_capacidad_testigo :
  Cola.tamanio
    (Cola.encolar "t" "U2" "ISBN-B" None
       (Cola.Cola [Cola.Registro "U9" "ISBN-A" "d"] (Some 1))).2
  <= Z.max 1 (Cola.tamanio (Cola.Cola [Cola.Registro "U9" "ISBN-A" "d"] (Some 1)))
  /\
  Cola.capacidad_max
    (Cola.encolar "t" "U2" "ISBN-B" None
       (Cola.Cola [Cola.Registro "U9" "ISBN-A" "d"] (Some 1))).2 = Some 1 /\
  (1 <= Cola.tamanio (Cola.Cola [Cola.Registro "U9" "ISBN-A" "d"] (Some 1)) ->
   (Cola.encolar "t" "U2" "ISBN-B" None
      (Cola.Cola [Cola.Registro "U9" "ISBN-A" "d"] (Some 1))).2
   = Cola.Cola [Cola.Registro "U9" "ISBN-A" "d"] (Some 1) /\
   (Cadena.en_blanco "U2" = false -> Cadena.en_blanco "ISBN-B" = false ->
    (Cola.encolar "t" "U2" "ISBN-B" None
       (Cola.Cola [Cola.Registro "U9" "ISBN-A" "d"] (Some 1))).1 = inr false)).
Proof.
  apply (encolar_respeta_capacidad "t" "U2" "ISBN-B" None
           (Cola.Cola [Cola.Registro "U9" "ISBN-A" "d"] (Some 1)) 1).
  reflexivity.
Defined.

Lemma cola_fifo_general_testigo :
  desencolar_veces 4
    (encolar_todas
       [("t1", "U1", "ISBN-B", None); ("t2", "U2", " ISBN-A", None);
        ("t3", "U3", "ISBN-B", Some "d"); ("t4", "U1", "ISBN-C", None)]
       (Cola.nueva None))
  = (Some <$> (registro_de_solicitud <$>
       [("t1", "U1", "ISBN-B", None); ("t2", "U2", " ISBN-A", None);
        ("t3", "U3", "ISBN-B", Some "d"); ("t4", "U1", "ISBN-C", None)]),
     Cola.nueva None).
Proof.
  apply (cola_fifo_general
           [("t1", "U1", "ISBN-B", None); ("t2", "U2", " ISBN-A", None);
            ("t3", "U3", "ISBN-B", Some "d"); ("t4", "U1", "ISBN-C", None)]).
  reflexivity.
Defined.

(** ** The loan history: LIFO order, capacity, counting *)

Section MasPila.

Lemma apilar_no_llena (ahora isbn : string) (fecha : option string)
    (p : Pila.t) :
  Cadena.en_blanco isbn = false -> Pila.esta_llena p = false ->
  Pila.apilar ahora isbn fecha p
  = (inr true,
     {| Pila.elementos := Pila.elementos p ++ [entrada_de ahora isbn fecha];
        Pila.capacidad_max := Pila.capacidad_max p |}).
Proof. intros Hisbn Hllena. unfold Pila.apilar. by rewrite Hisbn, Hllena. Qed.

Lemma desapilar_snoc (l : list Pila.registro) (e : Pila.registro)
    (cap : option Z) :
  Pila.desapilar {| Pila.elementos := l ++ [e]; Pila.capacidad_max := cap |}
  = (Some e, {| Pila.elementos := l; Pila.capacidad_max := cap |}).
Proof.
  unfold Pila.desapilar, Pila.esta_vacia, Pila.tamanio. simpl.
  rewrite length_app, last_snoc, removelast_last. simpl.
  by destruct (Z.eqb_spec (Z.of_nat (length l + 1)) 0); [lia|].
Qed.

(** X6: on a stack that is not full, [apilar] of a valid ISBN stores
    the entry on top, and the next [desapilar] returns that entry and
    leaves the stack exactly as it was before the push. *)
Theorem apilar_desapilar (ahora isbn : string) (fecha : option string)
    (p : Pila.t) :
  Cadena.en_blanco isbn = false -> Pila.esta_llena p = false ->
  (Pila.apilar ahora isbn fecha p).1 = inr true /\
  Pila.tamanio (Pila.apilar ahora isbn fecha p).2 = Pila.tamanio p + 1 /\
  Pila.tope (Pila.apilar ahora isbn fecha p).2
  = Some (entrada_de ahora isbn fecha) /\
  Pila.desapilar (Pila.apilar ahora isbn fecha p).2
  = (Some (entrada_de ahora isbn fecha), p).
Proof.
  intros Hisbn Hllena. rewrite apilar_no_llena by done. cbn [fst snd].
  split_and!; [done| | |].
  - unfold Pila.tamanio. simpl. rewrite length_app. simpl. lia.
  - unfold Pila.tope, Pila.esta_vacia, Pila.tamanio. simpl.
    rewrite length_app, last_snoc. simpl.
    by destruct (Z.eqb_spec (Z.of_nat (length (Pila.elementos p) + 1)) 0);
      [lia|].
  - rewrite desapilar_snoc. by destruct p.
Qed.

Lemma apilar_todos_sin_limite (xs : list prestamo) (p : Pila.t) :
  forallb prestamo_valido xs = true -> Pila.capacidad_max p = None ->
  apilar_todos xs p
  = {| Pila.elementos := Pila.elementos p ++ (entrada_de_prestamo <$> xs);
       Pila.capacidad_max := None |}.
Proof.
  revert p. induction xs as [|[[ahora isbn] fecha] xs IH]; intros p Hv Hc.
  - simpl. rewrite app_nil_r. destruct p; simpl in *. by subst.
  - simpl in Hv. apply andb_true_iff in Hv as [Hisbn Hv].
    apply negb_true_iff in Hisbn.
    unfold apilar_todos. simpl. fold (apilar_todos xs).
    rewrite apilar_valido by done. simpl. rewrite IH by done. simpl.
    by rewrite <- (assoc_L (++)).
Qed.

Lemma desapilar_veces_todos (l : list Pila.registro) (cap : option Z) :
  desapilar_veces (length l)
    {| Pila.elementos := l; Pila.capacidad_max := cap |}
  = (Some <$> reverse l,
     {| Pila.elementos := []; Pila.capacidad_max := cap |}).
Proof.
  induction l as [|e l IH] using rev_ind; [done|].
  rewrite length_app, Nat.add_1_r. cbn [length desapilar_veces].
  rewrite desapilar_snoc, IH, reverse_snoc. done.
Qed.

(** X7: any number of valid loans pushed on an empty unbounded stack
    come out of as many [desapilar] calls in the reverse of the order
    they went in, and the stack is empty again. *)
Theorem pila_lifo_general (xs : list prestamo) :
  forallb prestamo_valido xs = true ->
  desapilar_veces (length xs) (apilar_todos xs (Pila.nueva None))
  = (Some <$> reverse (entrada_de_prestamo <$> xs), Pila.nueva None).
Proof.
  intros Hv. rewrite apilar_todos_sin_limite by done. simpl.
  rewrite <- (length_fmap entrada_de_prestamo xs).
  apply desapilar_veces_todos.
Qed.

(** X8: [apilar] of a valid ISBN on a stack that is not full adds one to
    the count of loans of the stripped ISBN and leaves the count of
    every other ISBN as it was; on a full stack it answers [False] and
    stores nothing. *)
Theorem contar_prestamos_libro_apilar (ahora isbn x : string)
    (fecha : option string) (p : Pila.t) :
  Cadena.en_blanco isbn = false ->
  (Pila.esta_llena p = false ->
   Pila.contar_prestamos_libro x (Pila.apilar ahora isbn fecha p).2
   = Pila.contar_prestamos_libro x p
     + (if String.eqb (Cadena.strip isbn) x then 1 else 0)) /\
  (Pila.esta_llena p = true ->
   Pila.apilar ahora isbn fecha p = (inr false, p)).
Proof.
  intros Hisbn. split; intros Hllena.
  - rewrite apilar_no_llena by done.
    unfold Pila.contar_prestamos_libro, Pila.buscar. simpl.
    rewrite List.filter_app, length_app. simpl.
    destruct (String.eqb (Cadena.strip isbn) x); simpl; lia.
  - unfold Pila.apilar. by rewrite Hisbn, Hllena.
Qed.

End MasPila.

Lemma apilar_desapilar_testigo :
  (Pila.apilar "t" " ISBN-A " None
     (Pila.Pila [Pila.Registro "ISBN-C" "d"] (Some 2))).1 = inr true /\
  Pila.tamanio
    (Pila.apilar "t" " ISBN-A " None
       (Pila.Pila [Pila.Registro "ISBN-C" "d"] (Some 2))).2
  = Pila.tamanio (Pila.Pila [Pila.Registro "ISBN-C" "d"] (Some 2)) + 1 /\
  Pila.tope
    (Pila.apilar "t" " ISBN-A " None
       (Pila.Pila [Pila.Registro "ISBN-C" "d"] (Some 2))).2
  = Some (entrada_de "t" " ISBN-A " None) /\
  Pila.desapilar
    (Pila.apilar "t" " ISBN-A " None
       (Pila.Pila [Pila.Registro "ISBN-C" "d"] (Some 2))).2
  = (Some (entrada_de "t" " ISBN-A " None),
     Pila.Pila [Pila.Registro "ISBN-C" "d"] (Some 2)).
Proof.
  apply (apilar_desapilar "t" " ISBN-A " None
           (Pila.Pila [Pila.Registro "ISBN-C" "d"] (Some 2)));
    reflexivity.
Defined.

Lemma pila_lifo_general_testigo :
  desapilar_veces 3
    (apilar_todos
       [("t1", "ISBN-B", None); ("t2", "ISBN-A", Some "d");
        ("t3", "ISBN-B", None)] (Pila.nueva None))
  = (Some <$> reverse (entrada_de_prestamo <$>
       [("t1", "ISBN-B", None); ("t2", "ISBN-A", Some "d");
        ("t3", "ISBN-B", None)]),
     Pila.nueva None).
Proof.
  apply (pila_lifo_general
           [("t1", "ISBN-B", None); ("t2", "ISBN-A", Some "d");
            ("t3", "ISBN-B", None)]).
  reflexivity.
Defined.

Lemma contar_prestamos_libro_apilar_testigo :
  (Pila.esta_llena (Pila.Pila [Pila.Registro "ISBN-A" "d"] None) = false ->
   Pila.contar_prestamos_libro "ISBN-A"
     (Pila.apilar "t" "ISBN-A " None
        (Pila.Pila [Pila.Registro "ISBN-A" "d"] None)).2
   = Pila.contar_prestamos_libro "ISBN-A"
       (Pila.Pila [Pila.Registro "ISBN-A" "d"] None)
     + (if String.eqb (Cadena.strip "ISBN-A ") "ISBN-A" then 1 else 0)) /\
  (Pila.esta_llena (Pila.Pila [Pila.Registro "ISBN-A" "d"] None) = true ->
   Pila.apilar "t" "ISBN-A " None (Pila.Pila [Pila.Registro "ISBN-A" "d"] None)
   = (inr false, Pila.Pila [Pila.Registro "ISBN-A" "d"] None)).
Proof.
  apply (contar_prestamos_libro_apilar "t" "ISBN-A " "ISBN-A" None
           (Pila.Pila [Pila.Registro "ISBN-A" "d"] None)).
  reflexivity.
Defined.

(** ** Binary search: its variants and its behaviour on any list *)

Section MasCadena.

Lemma cadena_rstrip_idempotente (s : string) :
  Cadena.rstrip (Cadena.rstrip s) = Cadena.rstrip s.
Proof.
  induction s as [|c r IH]; simpl; [done|].
  destruct (Cadena.rstrip r) as [|d r'] eqn:Hr.
  - destruct (Cadena.es_espacio c) eqn:Hc; simpl; [done|]. by rewrite Hc.
  - simpl. simpl in IH. by rewrite IH.
Qed.

Lemma cadena_lstrip_sin_espacio (s : string) :
  sin_espacio_inicial (Cadena.lstrip s).
Proof.
  induction s as [|c r IH]; simpl; [done|].
  by destruct (Cadena.es_espacio c) eqn:Hc.
Qed.

Lemma cadena_rstrip_sin_espacio (s : string) :
  sin_espacio_inicial s -> sin_espacio_inicial (Cadena.rstrip s).
Proof.
  destruct s as [|c r]; simpl; [done|]. intros Hc.
  destruct (Cadena.rstrip r); [by rewrite Hc|done].
Qed.

Lemma cadena_lstrip_id (s : string) :
  sin_espacio_inicial s -> Cadena.lstrip s = s.
Proof. destruct s as [|c r]; simpl; [done|]. by intros ->. Qed.

Lemma cadena_strip_idempotente (s : string) :
  Cadena.strip (Cadena.strip s) = Cadena.strip s.
Proof.
  unfold Cadena.strip.
  rewrite (cadena_lstrip_id (Cadena.rstrip (Cadena.lstrip s))).
  - apply cadena_rstrip_idempotente.
  - apply cadena_rstrip_sin_espacio, cadena_lstrip_sin_espacio.
Qed.

End MasCadena.

Section MasBusqueda.
Context {A : Type} (isbn_de : A -> string).

Lemma recursiva_desde_bucle (n : nat) (l : list A) (x : string)
    (inicio fin : Z) :
  BusquedaBinaria.recursiva_desde isbn_de n l (Cadena.strip x) inicio fin
  = BusquedaBinaria.bucle isbn_de n l (Cadena.strip x) inicio fin.
Proof.
  revert inicio fin. induction n as [|n IH]; intros inicio fin; simpl; [done|].
  rewrite cadena_strip_idempotente.
  destruct (Z.ltb_spec fin inicio), (Z.leb_spec inicio fin); try lia; [done|].
  destruct (getitem l _) as [e|a]; simpl; [done|].
  by rewrite !IH.
Qed.

Lemma recursiva_desde_strip (n : nat) (l : list A) (x : string)
    (inicio fin : Z) :
  BusquedaBinaria.recursiva_desde isbn_de n l x inicio fin
  = BusquedaBinaria.recursiva_desde isbn_de n l (Cadena.strip x) inicio fin.
Proof.
  destruct n as [|n]; simpl; [done|]. by rewrite cadena_strip_idempotente.
Qed.

(** X9: [busqueda_binaria_recursiva] returns what the iterative
    [busqueda_binaria] returns, position, -1 or exception, on every
    list, searched ISBN and bounds. *)
Theorem busqueda_binaria_recursiva_igual (l : list A) (isbn_buscado : string)
    (inicio : Z) (fin : option Z) :
  BusquedaBinaria.busqueda_binaria_recursiva isbn_de l isbn_buscado inicio fin
  = BusquedaBinaria.busqueda_binaria isbn_de l isbn_buscado inicio fin.
Proof.
  unfold BusquedaBinaria.busqueda_binaria_recursiva,
    BusquedaBinaria.busqueda_binaria. simpl.
  rewrite recursiva_desde_strip. apply recursiva_desde_bucle.
Qed.

(** Whatever the order of the list, inside the list the loop does not
    raise, and a position it returns holds the key searched for. *)
Lemma bucle_acierto (n : nat) (l : list A) (x : string) (inicio fin : Z) :
  0 <= inicio -> fin < Z.of_nat (length l) ->
  exists r,
    BusquedaBinaria.bucle isbn_de n l x inicio fin = inr r /\
    (r = -1 \/
     (inicio <= r <= fin /\
      exists a, l !! Z.to_nat r = Some a /\ isbn_normalizado isbn_de a = x)).
Proof.
  revert inicio fin. induction n as [|n IH]; intros inicio fin Hini Hfin; simpl.
  { exists (-1). auto. }
  destruct (Z.leb_spec inicio fin) as [Hle|Hgt]; [|exists (-1); auto].
  pose proof (medio_acotado inicio fin Hle) as Hmed.
  set (medio := (inicio + fin) `div` 2) in *.
  destruct (getitem_en_rango l medio) as (am & Ham & ->); [lia|]. simpl.
  fold (isbn_normalizado isbn_de am).
  destruct (String.eqb_spec (isbn_normalizado isbn_de am) x) as [Heq|Hne].
  { exists medio. split; [done|]. right. split; [lia|]. by exists am. }
  destruct (Cadena.lt (isbn_normalizado isbn_de am) x).
  - destruct (IH (medio + 1) fin) as (r & Hr & Hcasos); [lia..|].
    exists r. split; [done|]. destruct Hcasos as [?|[? ?]]; [by left|].
    right. split; [lia|done].
  - destruct (IH inicio (medio - 1)) as (r & Hr & Hcasos); [lia..|].
    exists r. split; [done|]. destruct Hcasos as [?|[? ?]]; [by left|].
    right. split; [lia|done].
Qed.

(** X10: with its default bounds [busqueda_binaria] never raises, on a
    sorted list or not, and a position other than -1 that it returns is
    inside the list and holds a book with the stripped ISBN searched
    for. *)
Theorem busqueda_binaria_acierto (l : list A) (isbn_buscado : string) :
  exists r,
    BusquedaBinaria.busqueda_binaria isbn_de l isbn_buscado 0 None = inr r /\
    (r = -1 \/
     (0 <= r < Z.of_nat (length l) /\
      exists a, l !! Z.to_nat r = Some a /\
                isbn_normalizado isbn_de a = Cadena.strip isbn_buscado)).
Proof.
  unfold BusquedaBinaria.busqueda_binaria. simpl.
  destruct (bucle_acierto
              (Z.to_nat (Z.of_nat (length l) - 1 - 0 + 1)) l
              (Cadena.strip isbn_buscado) 0 (Z.of_nat (length l) - 1))
    as (r & Hr & Hcasos); [lia..|].
  exists r. split; [done|]. destruct Hcasos as [?|[? ?]]; [by left|].
  right. split; [lia|done].
Qed.

Lemma contar_bucle_spec (n : nat) (l : list A) (x : string)
    (inicio fin k : Z) :
  0 <= inicio -> fin < Z.of_nat (length l) ->
  exists r c,
    BusquedaBinaria.contar_bucle isbn_de n l x inicio fin k = inr r /\
    BusquedaBinaria.bucle isbn_de n l x inicio fin
    = inr (BusquedaBinaria.posicion r) /\
    BusquedaBinaria.encontrado r
    = negb (BusquedaBinaria.posicion r =? -1) /\
    BusquedaBinaria.comparaciones r = k + c /\ 0 <= c /\
    (fin - inicio + 1 <= 0 -> c = 0) /\
    (1 <= fin - inicio + 1 -> 2 ^ c <= 2 * (fin - inicio + 1)).
Proof.
  revert inicio fin k.
  induction n as [|n IH]; intros inicio fin k Hini Hfin; simpl.
  { exists {| BusquedaBinaria.posicion := -1;
              BusquedaBinaria.comparaciones := k;
              BusquedaBinaria.encontrado := false |}, 0.
    simpl. split_and!; try done; lia. }
  destruct (Z.leb_spec inicio fin) as [Hle|Hgt]; last first.
  { exists {| BusquedaBinaria.posicion := -1;
              BusquedaBinaria.comparaciones := k;
              BusquedaBinaria.encontrado := false |}, 0.
    simpl. split_and!; try done; lia. }
  pose proof (medio_acotado inicio fin Hle) as Hmed.
  assert (2 * ((inicio + fin) `div` 2) <= inicio + fin
          /\ inicio + fin - 1 <= 2 * ((inicio + fin) `div` 2)) as Hdiv.
  { pose proof (Z.div_mod (inicio + fin) 2).
    pose proof (Z.mod_pos_bound (inicio + fin) 2). lia. }
  set (medio := (inicio + fin) `div` 2) in *.
  destruct (getitem_en_rango l medio) as (am & Ham & ->); [lia|]. simpl.
  destruct (String.eqb _ x).
  { exists {| BusquedaBinaria.posicion := medio;
              BusquedaBinaria.comparaciones := k + 1;
              BusquedaBinaria.encontrado := true |}, 1.
    simpl. split_and!; try done; try lia. }
  assert (forall c' w', 0 <= c' -> 2 * w' <= fin - inicio + 1 ->
            (w' <= 0 -> c' = 0) -> (1 <= w' -> 2 ^ c' <= 2 * w') ->
            2 ^ (1 + c') <= 2 * (fin - inicio + 1)) as Hpot.
  { intros c' w' Hc' Hw' H0 H1. rewrite Z.pow_add_r by lia.
    change (2 ^ 1) with 2.
    destruct (Z.le_gt_cases w' 0) as [Hw0|Hw1].
    - rewrite (H0 Hw0). simpl. lia.
    - specialize (H1 ltac:(lia)). lia. }
  destruct (Cadena.lt _ x).
  - destruct (IH (medio + 1) fin (k + 1))
      as (r & c & -> & -> & Henc & Hcmp & Hc & H0 & H1); [lia..|].
    exists r, (1 + c). split_and!; try done; try lia.
    intros _. apply (Hpot c (fin - (medio + 1) + 1)); try done. lia.
  - destruct (IH inicio (medio - 1) (k + 1))
      as (r & c & -> & -> & Henc & Hcmp & Hc & H0 & H1); [lia..|].
    exists r, (1 + c). split_and!; try done; try lia.
    intros _. apply (Hpot c (medio - 1 - inicio + 1)); try done. lia.
Qed.

(** X11: [contar_comparaciones_binaria] never raises; its position is
    the one [busqueda_binaria] returns, ['encontrado'] tells whether it
    is not -1, and the number of comparisons [c] is logarithmic in the
    length: none on an empty list, otherwise [2 ^ c <= 2 * len]. *)
Theorem contar_comparaciones_binaria_log (l : list A)
    (isbn_buscado : string) :
  exists r,
    BusquedaBinaria.contar_comparaciones_binaria isbn_de l isbn_buscado
    = inr r /\
    BusquedaBinaria.busqueda_binaria isbn_de l isbn_buscado 0 None
    = inr (BusquedaBinaria.posicion r) /\
    BusquedaBinaria.encontrado r = negb (BusquedaBinaria.posicion r =? -1) /\
    0 <= BusquedaBinaria.comparaciones r /\
    (l = [] -> BusquedaBinaria.comparaciones r = 0) /\
    (l <> [] ->
     2 ^ BusquedaBinaria.comparaciones r <= 2 * Z.of_nat (length l)).
Proof.
  unfold BusquedaBinaria.contar_comparaciones_binaria,
    BusquedaBinaria.busqueda_binaria. simpl.
  destruct (contar_bucle_spec
              (Z.to_nat (Z.of_nat (length l) - 1 - 0 + 1)) l
              (Cadena.strip isbn_buscado) 0 (Z.of_nat (length l) - 1) 0)
    as (r & c & Hr & Hb & Henc & Hcmp & Hc & H0 & H1); [lia..|].
  exists r. rewrite Z.add_0_l in Hcmp. rewrite Hcmp.
  split_and!; try done.
  - intros ->. simpl in H0. lia.
  - intros Hne.
    assert (1 <= Z.of_nat (length l)) by (destruct l; [done|simpl; lia]).
    specialize (H1 ltac:(lia)). lia.
Qed.

End MasBusqueda.

(** An unsorted list can hide a book from the search: "100" is in the
    list and the search misses it. *)
Example busqueda_binaria_desordenada :
  BusquedaBinaria.busqueda_binaria id ["500"; "300"; "100"] "100" 0 None
  = inr (-1).
Proof. reflexivity. Qed.

(** ** Insertion sort and the load of the inventory *)

Section MasInsercion.
Context {A : Type} (clave : A -> string).

Lemma cadena_le_false_lt (a b : string) :
  Cadena.le a b = false -> Cadena.lt b a = true.
Proof.
  unfold Cadena.le, Cadena.lt, String.leb, String.ltb.
  rewrite (String.compare_antisym a b).
  by destruct (String.compare b a).
Qed.

Lemma detener_true (reverso : bool) (a x : string) :
  Insercion.detener reverso a x = true -> Cadena.le a x = true.
Proof. destruct reverso; simpl; [apply cadena_lt_le|done]. Qed.

Lemma detener_false (reverso : bool) (a x : string) :
  Insercion.detener reverso a x = false -> Cadena.le x a = true.
Proof.
  destruct reverso; simpl.
  - intros H. by apply cadena_gt_false_le.
  - intros H. by apply cadena_lt_le, cadena_le_false_lt.
Qed.

Lemma getitem_nat (l : list A) (i : nat) (a : A) :
  l !! i = Some a -> getitem l (Z.of_nat i) = inr a.
Proof.
  intros Hi. pose proof (lookup_lt_Some _ _ _ Hi).
  destruct (getitem_en_rango l (Z.of_nat i)) as (a' & Ha' & ->); [lia|].
  rewrite Nat2Z.id in Ha'. congruence.
Qed.

(** The inner loop followed by the write of the element: the elements
    before the slot are split where the loop stops and the element is
    written between the two parts. *)
Lemma desplazar_insertar (reverso : bool) (x : A) (p1 : list A) (h : A)
    (p2 s : list A) :
  exists q1 q2 lista j1,
    Insercion.desplazar clave reverso (clave x) (length p1)
      (p1 ++ h :: p2 ++ s) = inr (lista, j1) /\
    p1 = q1 ++ q2 /\
    <[j1 := x]> lista = q1 ++ x :: q2 ++ p2 ++ s /\
    Forall (fun a => Insercion.detener reverso (clave a) (clave x) = false) q2
    /\
    (forall a, last q1 = Some a ->
               Insercion.detener reverso (clave a) (clave x) = true).
Proof.
  revert h p2. induction p1 as [|a p IH] using rev_ind; intros h p2.
  - exists [], [], (h :: p2 ++ s), 0%nat. simpl. by repeat split.
  - rewrite length_app, Nat.add_1_r. cbn [Insercion.desplazar].
    assert (((p ++ [a]) ++ h :: p2 ++ s) !! length p = Some a) as Ha.
    { rewrite <- (assoc_L (++)). by apply list_lookup_middle. }
    rewrite (getitem_nat _ _ _ Ha). simpl.
    destruct (Insercion.detener reverso (clave a) (clave x)) eqn:Hdet.
    + exists (p ++ [a]), [], ((p ++ [a]) ++ h :: p2 ++ s), (S (length p)).
      split_and!; try done.
      * by rewrite app_nil_r.
      * replace (S (length p)) with (length (p ++ [a]) + 0)%nat
          by (rewrite length_app; simpl; lia).
        by rewrite insert_app_r.
      * intros a'. rewrite last_snoc. by intros [= <-].
    + assert (<[S (length p) := a]> ((p ++ [a]) ++ h :: p2 ++ s)
              = p ++ a :: (a :: p2) ++ s) as ->.
      { replace (S (length p)) with (length (p ++ [a]) + 0)%nat
          by (rewrite length_app; simpl; lia).
        rewrite insert_app_r. simpl. by rewrite <- (assoc_L (++)). }
      destruct (IH a (a :: p2)) as (q1 & q2 & lista & j1 & -> & -> & Hins & Hq2 & Hq1).
      exists q1, (q2 ++ [a]), lista, j1. split_and!; try done.
      * by rewrite (assoc_L (++)).
      * rewrite Hins. by rewrite <- !(assoc_L (++)).
      * apply Forall_app. split; [done|]. by repeat constructor.
Qed.

Lemma ordenada_insertar_detener (reverso : bool) (q1 q2 : list A) (x : A) :
  StronglySorted (menor_igual clave) (q1 ++ q2) ->
  Forall (fun a => Insercion.detener reverso (clave a) (clave x) = false) q2 ->
  (forall a, last q1 = Some a ->
             Insercion.detener reverso (clave a) (clave x) = true) ->
  StronglySorted (menor_igual clave) (q1 ++ x :: q2).
Proof.
  rewrite !StronglySorted_app. intros (Hc & H1 & H2) Hq2 Hq1.
  rewrite Forall_forall in Hq2.
  split_and!; [|done|].
  - intros x1 x2 Hx1 [->|Hx2]%elem_of_cons; [|by apply Hc].
    destruct q1 as [|z q1 _] using rev_ind; [by apply elem_of_nil in Hx1|].
    assert (menor_igual clave z x) as Hzx.
    { apply (detener_true reverso), Hq1, last_snoc. }
    apply elem_of_app in Hx1 as [Hx1|Hx1%list_elem_of_singleton].
    + apply StronglySorted_app in H1 as (Hc1 & _ & _).
      apply (cadena_le_trans _ (clave z)); [|done].
      apply Hc1; [done|by left].
    + by subst.
  - constructor; [done|]. apply Forall_forall. intros y Hy.
    by apply (detener_false reverso), Hq2.
Qed.

Lemma ordenar_desde_spec (reverso : bool) (rest pre : list A) :
  StronglySorted (menor_igual clave) pre ->
  exists l',
    Insercion.ordenar_desde clave reverso (length rest) (length pre)
      (pre ++ rest) = inr l' /\
    l' ≡ₚ pre ++ rest /\
    StronglySorted (menor_igual clave) l'.
Proof.
  revert pre. induction rest as [|x s IH]; intros pre Hpre.
  - exists (pre ++ []). split; [done|]. by rewrite app_nil_r.
  - cbn [length Insercion.ordenar_desde].
    rewrite (getitem_nat (pre ++ x :: s) (length pre) x)
      by apply list_lookup_middle, eq_refl.
    simpl.
    destruct (desplazar_insertar reverso x pre x [] s)
      as (q1 & q2 & lista & j1 & Hdes & -> & Hins & Hq2 & Hq1).
    simpl in Hdes. rewrite Hdes. simpl. rewrite Hins. simpl.
    destruct (IH (q1 ++ x :: q2)) as (l' & Hl' & Hperm & Hsort).
    { by apply (ordenada_insertar_detener reverso). }
    exists l'. split_and!; [|by rewrite Hperm, <- !(assoc_L (++)); simpl;
      rewrite Permutation_middle|done].
    rewrite <- Hl'. f_equal.
    + rewrite !length_app. simpl. lia.
    + by rewrite <- (assoc_L (++)).
Qed.

Lemma ordenamiento_insercion_total (l : list A) (reverso : bool) :
  exists l',
    Insercion.ordenamiento_insercion clave l reverso = inr l' /\
    l' ≡ₚ l /\ StronglySorted (menor_igual clave) l'.
Proof.
  unfold Insercion.ordenamiento_insercion.
  destruct l as [|a rest].
  - exists []. repeat split; [done|constructor].
  - destruct (ordenar_desde_spec reverso rest [a]) as (l' & Hl' & Hperm & Hs).
    { by repeat constructor. }
    exists l'. simpl in *. rewrite Nat.sub_0_r. by split_and!.
Qed.

(** X12: [ordenamiento_insercion] never raises and returns a
    rearrangement of its input that is sorted ascending by key, for
    both values of [reverso]: with [reverso=True] the order is not
    descending, only the place of equal keys changes. *)
Theorem ordenamiento_insercion_ordena (l : list A) (reverso : bool) :
  exists l',
    Insercion.ordenamiento_insercion clave l reverso = inr l' /\
    l' ≡ₚ l /\
    Insercion.verificar_ordenamiento clave l' = true.
Proof.
  destruct (ordenamiento_insercion_total l reverso) as (l' & Hl' & Hperm & Hs).
  exists l'. split; [done|]. split; [done|].
  by apply verificar_ordenamiento_spec.
Qed.

End MasInsercion.

(** With [reverso=True] the result is still ascending. *)
Example ordenamiento_insercion_reverso :
  Insercion.ordenamiento_insercion id ["300"; "500"; "100"] true
  = inr ["100"; "300"; "500"].
Proof. reflexivity. Qed.

Section MasCarga.

(** X13: after [cargar_inventario] the general inventory lists the
    books in load order and [verificar_consistencia] reports the two
    inventories consistent: same size, same ISBNs, sorted list sorted. *)
Theorem cargar_inventario_consistente (datos : list Libro.t) :
  GestorInventario.inventario_general (GestorInventario.cargar_inventario datos)
  = seq 0 (length datos) /\
  GestorInventario.referencias_validas (GestorInventario.cargar_inventario datos)
  /\
  GestorInventario.consistente
    (GestorInventario.verificar_consistencia
       (GestorInventario.cargar_inventario datos)) = true.
Proof.
  unfold GestorInventario.cargar_inventario.
  destruct (ordenamiento_insercion_total (GestorInventario.isbn_en datos)
              (seq 0 (length datos)) false)
    as (ordenado & -> & Hperm & Hord%verificar_ordenamiento_spec).
  split_and!; [done| |].
  - unfold GestorInventario.referencias_validas. simpl.
    apply Forall_app. split; [|rewrite Hperm]; apply Forall_seq; lia.
  - unfold GestorInventario.verificar_consistencia,
      GestorInventario.isbns, GestorInventario.isbn_de. simpl.
    rewrite (Permutation_length Hperm), Nat.eqb_refl, Hord.
    rewrite bool_decide_eq_true_2; [done|].
    by rewrite Hperm.
Qed.

End MasCarga.

(** ** The inventory manager: add, remove and update against lookup *)

Section MasInventario.

Lemma ordenada_por_normalizado {B : Type} (isbn_de : B -> string)
    (l : list B) :
  Forall (fun a => Cadena.strip (isbn_de a) = isbn_de a) l ->
  StronglySorted (menor_igual isbn_de) l ->
  StronglySorted (menor_igual (isbn_normalizado isbn_de)) l.
Proof.
  intros Hstrip Hord. eapply ordenada_ext; [|exact Hord].
  intros a Ha. rewrite Forall_forall in Hstrip. unfold isbn_normalizado.
  by rewrite Hstrip.
Qed.

Lemma isbns_no_elem (g : GestorInventario.t) (isbn : string) (l : list nat) :
  isbn ∉ GestorInventario.isbns g
           (List.filter
              (fun r => negb (String.eqb (GestorInventario.isbn_de g r) isbn)) l).
Proof.
  unfold GestorInventario.isbns. rewrite isbns_filter.
  rewrite not_elem_of_difference, elem_of_singleton. by right.
Qed.

(** X14: on an inventory whose ISBNs are stripped and whose sorted list
    is sorted, [agregar_libro] of a book with a new (stripped) ISBN
    returns [True], appends the book to the general inventory, makes
    the sorted inventory one longer, and [buscar_por_isbn] of that ISBN
    then finds the book just added. *)
Theorem agregar_libro_nuevo (g : GestorInventario.t) (libro : Libro.t) :
  GestorInventario.referencias_validas g ->
  Forall (fun r => Cadena.strip (GestorInventario.isbn_de g r)
                   = GestorInventario.isbn_de g r)
    (GestorInventario.inventario_ordenado g) ->
  Cadena.strip (Libro.isbn libro) = Libro.isbn libro ->
  Insercion.verificar_ordenamiento (GestorInventario.isbn_de g)
    (GestorInventario.inventario_ordenado g) = true ->
  Forall (fun r => GestorInventario.isbn_de g r <> Libro.isbn libro)
    (GestorInventario.inventario_ordenado g) ->
  (GestorInventario.agregar_libro libro g).1 = true /\
  GestorInventario.inventario_general (GestorInventario.agregar_libro libro g).2
  = GestorInventario.inventario_general g
    ++ [length (GestorInventario.libros g)] /\
  length (GestorInventario.inventario_ordenado
            (GestorInventario.agregar_libro libro g).2)
  = S (length (GestorInventario.inventario_ordenado g)) /\
  GestorInventario.libros (GestorInventario.agregar_libro libro g).2
    !! length (GestorInventario.libros g) = Some libro /\
  GestorInventario.buscar_por_isbn (Libro.isbn libro)
    (GestorInventario.agregar_libro libro g).2
  = inr (Some (length (GestorInventario.libros g))).
Proof.
  intros Hval Hstrip Hlibro Hord Habs.
  apply verificar_ordenamiento_spec in Hord.
  apply Forall_app in Hval as [_ Hsor].
  unfold GestorInventario.agregar_libro, GestorInventario.buscar_por_isbn.
  set (l := GestorInventario.inventario_ordenado g) in *.
  set (r := length (GestorInventario.libros g)).
  set (almacen := GestorInventario.libros g ++ [libro]).
  assert (forall a, a ∈ l ->
            GestorInventario.isbn_de g a = GestorInventario.isbn_en almacen a)
    as Hford.
  { intros a Ha. rewrite Forall_forall in Hsor. symmetry.
    by apply isbn_en_app_l, Hsor. }
  assert (GestorInventario.isbn_en almacen r = Libro.isbn libro) as Hr
    by apply isbn_en_app_nuevo.
  destruct (buscar_libro_por_isbn_spec (GestorInventario.isbn_de g) l
              (Libro.isbn libro))
    as [[-> _]|(a & _ & Ha & Hx)].
  { by apply ordenada_por_normalizado. }
  2:{ exfalso. rewrite Forall_forall in Hstrip, Habs.
      apply (Habs a Ha). unfold isbn_normalizado in Hx.
      by rewrite (Hstrip a Ha), Hlibro in Hx. }
  cbn [fst snd GestorInventario.inventario_general
       GestorInventario.inventario_ordenado GestorInventario.libros].
  fold r almacen. rewrite insertar_ordenado_forma.
  set (p := Insercion.obtener_posicion_insercion _ _ _).
  split_and!; [done|done| | |].
  - rewrite <- (take_drop p l) at 3. rewrite !length_app. simpl. lia.
  - by apply list_lookup_middle.
  - unfold GestorInventario.isbn_de.
    cbn [GestorInventario.libros GestorInventario.inventario_ordenado].
    fold almacen.
    assert (Forall (fun a => a = r \/ a ∈ l) (take p l ++ r :: drop p l))
      as Hen.
    { apply Forall_insertar. split; [by left|].
      apply Forall_forall. by right. }
    rewrite Forall_forall in Hen.
    destruct (buscar_libro_por_isbn_spec (GestorInventario.isbn_en almacen)
                (take p l ++ r :: drop p l) (Libro.isbn libro))
      as [[_ Hno]|(a & -> & Ha & Hx)].
    + apply ordenada_por_normalizado.
      * apply Forall_insertar. split; [by rewrite Hr|].
        apply Forall_forall. intros a Ha. rewrite <- (Hford a Ha).
        rewrite Forall_forall in Hstrip. by apply Hstrip.
      * apply ordenada_insertar.
        { rewrite take_drop. by eapply ordenada_ext. }
        { apply posicion_insercion_prefijo. }
        { apply posicion_insercion_sufijo. }
    + exfalso. apply (Hno r).
      * apply elem_of_app. right. by left.
      * unfold isbn_normalizado. by rewrite Hr.
    + destruct (Hen a Ha) as [->|Hal]; [done|]. exfalso.
      rewrite Forall_forall in Hstrip, Habs. apply (Habs a Hal).
      unfold isbn_normalizado in Hx. rewrite <- (Hford a Hal) in Hx.
      by rewrite (Hstrip a Hal), Hlibro in Hx.
Qed.

(** X15: [eliminar_libro] always returns [True], leaves no book of the
    ISBN in either inventory, and on a sorted inventory of stripped
    ISBNs [buscar_por_isbn] of the (stripped) ISBN then finds
    nothing. *)
Theorem eliminar_libro_ausente (g : GestorInventario.t) (isbn : string) :
  BusquedaBinaria.ordenada
    (BusquedaBinaria.verificar_lista_ordenada (GestorInventario.isbn_de g)
       (GestorInventario.inventario_ordenado g)) = true ->
  Forall (fun r => Cadena.strip (GestorInventario.isbn_de g r)
                   = GestorInventario.isbn_de g r)
    (GestorInventario.inventario_ordenado g) ->
  Cadena.strip isbn = isbn ->
  (GestorInventario.eliminar_libro isbn g).1 = true /\
  (isbn ∉ GestorInventario.isbns (GestorInventario.eliminar_libro isbn g).2
           (GestorInventario.inventario_general
              (GestorInventario.eliminar_libro isbn g).2)) /\
  (isbn ∉ GestorInventario.isbns (GestorInventario.eliminar_libro isbn g).2
           (GestorInventario.inventario_ordenado
              (GestorInventario.eliminar_libro isbn g).2)) /\
  GestorInventario.buscar_por_isbn isbn (GestorInventario.eliminar_libro isbn g).2
  = inr None.
Proof.
  intros Hord%verificar_lista_ordenada_spec Hstrip Hisbn.
  split_and!; [done|apply (isbns_no_elem g)|apply (isbns_no_elem g)|].
  unfold GestorInventario.buscar_por_isbn, GestorInventario.eliminar_libro,
    GestorInventario.isbn_de.
  cbn [snd GestorInventario.libros GestorInventario.inventario_ordenado].
  fold (GestorInventario.isbn_de g).
  destruct (buscar_libro_por_isbn_spec (GestorInventario.isbn_de g)
              (List.filter
                 (fun r => negb (String.eqb (GestorInventario.isbn_de g r) isbn))
                 (GestorInventario.inventario_ordenado g)) isbn)
    as [[-> _]|(a & _ & [Ha Hne]%filter_elem_of & Hx)]; [|done|].
  { by apply filter_ordenada. }
  exfalso. apply negb_true_iff, String.eqb_neq in Hne. apply Hne.
  rewrite Forall_forall in Hstrip. unfold isbn_normalizado in Hx.
  by rewrite (Hstrip a Ha), Hisbn in Hx.
Qed.

(** X16: [actualizar_libro] is not atomic: when the ISBN of the updated
    book belongs to another book of the sorted inventory, it returns
    [False] and the original book is gone all the same, the state being
    the one [eliminar_libro] leaves. *)
Theorem actualizar_libro_colision (g : GestorInventario.t)
    (isbn_original : string) (libro_actualizado : Libro.t) (r : nat) :
  BusquedaBinaria.ordenada
    (BusquedaBinaria.verificar_lista_ordenada (GestorInventario.isbn_de g)
       (GestorInventario.inventario_ordenado g)) = true ->
  r ∈ GestorInventario.inventario_ordenado g ->
  GestorInventario.isbn_de g r <> isbn_original ->
  Cadena.strip (GestorInventario.isbn_de g r)
  = Cadena.strip (Libro.isbn libro_actualizado) ->
  GestorInventario.actualizar_libro isbn_original libro_actualizado g
  = (false, (GestorInventario.eliminar_libro isbn_original g).2) /\
  isbn_original
  ∉ GestorInventario.isbns
      (GestorInventario.actualizar_libro isbn_original libro_actualizado g).2
      (GestorInventario.inventario_general
         (GestorInventario.actualizar_libro isbn_original
            libro_actualizado g).2).
Proof.
  intros Hord%verificar_lista_ordenada_spec Hr Hne Hisbn.
  assert (GestorInventario.actualizar_libro isbn_original libro_actualizado g
          = (false, (GestorInventario.eliminar_libro isbn_original g).2))
    as Heq.
  { unfold GestorInventario.actualizar_libro, GestorInventario.agregar_libro,
      GestorInventario.buscar_por_isbn. cbn [GestorInventario.eliminar_libro].
    unfold GestorInventario.isbn_de.
    cbn [snd GestorInventario.libros GestorInventario.inventario_ordenado].
    fold (GestorInventario.isbn_de g).
    destruct (buscar_libro_por_isbn_spec (GestorInventario.isbn_de g)
                (List.filter
                   (fun r => negb (String.eqb (GestorInventario.isbn_de g r)
                                     isbn_original))
                   (GestorInventario.inventario_ordenado g))
                (Libro.isbn libro_actualizado))
      as [[_ Hno]|(a & -> & _)]; [by apply filter_ordenada| |done].
    exfalso. apply (Hno r); [|done]. apply filter_elem_of. split; [done|].
    by apply negb_true_iff, String.eqb_neq. }
  split; [done|]. rewrite Heq. apply (isbns_no_elem g).
Qed.

End MasInventario.

Lemma agregar_libro_nuevo_testigo :
  (GestorInventario.agregar_libro
     (Libro.Libro "ISBN-AB" "Nuevo" "Neruda" 1) Ejemplo.inventario).1 = true /\
  GestorInventario.inventario_general
    (GestorInventario.agregar_libro
       (Libro.Libro "ISBN-AB" "Nuevo" "Neruda" 1) Ejemplo.inventario).2
  = GestorInventario.inventario_general Ejemplo.inventario
    ++ [length (GestorInventario.libros Ejemplo.inventario)] /\
  length (GestorInventario.inventario_ordenado
            (GestorInventario.agregar_libro
               (Libro.Libro "ISBN-AB" "Nuevo" "Neruda" 1) Ejemplo.inventario).2)
  = S (length (GestorInventario.inventario_ordenado Ejemplo.inventario)) /\
  GestorInventario.libros
    (GestorInventario.agregar_libro
       (Libro.Libro "ISBN-AB" "Nuevo" "Neruda" 1) Ejemplo.inventario).2
    !! length (GestorInventario.libros Ejemplo.inventario)
  = Some (Libro.Libro "ISBN-AB" "Nuevo" "Neruda" 1) /\
  GestorInventario.buscar_por_isbn
    (Libro.isbn (Libro.Libro "ISBN-AB" "Nuevo" "Neruda" 1))
    (GestorInventario.agregar_libro
       (Libro.Libro "ISBN-AB" "Nuevo" "Neruda" 1) Ejemplo.inventario).2
  = inr (Some (length (GestorInventario.libros Ejemplo.inventario))).
Proof.
  apply (agregar_libro_nuevo Ejemplo.inventario
           (Libro.Libro "ISBN-AB" "Nuevo" "Neruda" 1)).
  - exact referencias_validas_ejemplo.
  - simpl. repeat (apply Forall_cons_2; [reflexivity|]). apply Forall_nil_2.
  - reflexivity.
  - reflexivity.
  - simpl. repeat (apply Forall_cons_2; [discriminate|]). apply Forall_nil_2.
Defined.

Lemma eliminar_libro_ausente_testigo :
  (GestorInventario.eliminar_libro "ISBN-B" Ejemplo.inventario).1 = true /\
  ("ISBN-B"
   ∉ GestorInventario.isbns
       (GestorInventario.eliminar_libro "ISBN-B" Ejemplo.inventario).2
       (GestorInventario.inventario_general
          (GestorInventario.eliminar_libro "ISBN-B" Ejemplo.inventario).2)) /\
  ("ISBN-B"
   ∉ GestorInventario.isbns
       (GestorInventario.eliminar_libro "ISBN-B" Ejemplo.inventario).2
       (GestorInventario.inventario_ordenado
          (GestorInventario.eliminar_libro "ISBN-B" Ejemplo.inventario).2)) /\
  GestorInventario.buscar_por_isbn "ISBN-B"
    (GestorInventario.eliminar_libro "ISBN-B" Ejemplo.inventario).2
  = inr None.
Proof.
  apply (eliminar_libro_ausente Ejemplo.inventario "ISBN-B").
  - reflexivity.
  - simpl. repeat (apply Forall_cons_2; [reflexivity|]). apply Forall_nil_2.
  - reflexivity.
Defined.

Lemma actualizar_libro_colision_testigo :
  GestorInventario.actualizar_libro "ISBN-A"
    (Libro.Libro "ISBN-C" "Alfa, segunda edicion" "Allende" 3)
    Ejemplo.inventario
  = (false, (GestorInventario.eliminar_libro "ISBN-A" Ejemplo.inventario).2)
  /\
  "ISBN-A"
  ∉ GestorInventario.isbns
      (GestorInventario.actualizar_libro "ISBN-A"
         (Libro.Libro "ISBN-C" "Alfa, segunda edicion" "Allende" 3)
         Ejemplo.inventario).2
      (GestorInventario.inventario_general
         (GestorInventario.actualizar_libro "ISBN-A"
            (Libro.Libro "ISBN-C" "Alfa, segunda edicion" "Allende" 3)
            Ejemplo.inventario).2).
Proof.
  apply (actualizar_libro_colision Ejemplo.inventario "ISBN-A"
           (Libro.Libro "ISBN-C" "Alfa, segunda edicion" "Allende" 3) 2%nat).
  - reflexivity.
  - apply list_elem_of_In. simpl. auto.
  - discriminate.
  - reflexivity.
Defined.

(** ** The loan manager: creating and returning loans *)

Section MasPrestamos.
Import GestorPrestamos.

Lemma isbn_decrementar_stock (b : Libro.t) :
  Libro.isbn (Libro.decrementar_stock b).2 = Libro.isbn b.
Proof. unfold Libro.decrementar_stock. by destruct (0 <? Libro.stock b). Qed.

(** A mutation that keeps the ISBN of the book does not change what the
    search by ISBN returns. *)
Lemma buscar_por_isbn_mutar (f : Libro.t -> Libro.t) (r : nat) (s : t)
    (isbn : string) :
  (forall b, Libro.isbn (f b) = Libro.isbn b) ->
  GestorInventario.buscar_por_isbn isbn (gestor_inventario (mutar_libro f r s))
  = GestorInventario.buscar_por_isbn isbn (gestor_inventario s).
Proof.
  intros Hf. unfold GestorInventario.buscar_por_isbn,
    BusquedaBinaria.buscar_libro_por_isbn, GestorInventario.isbn_de.
  cbn [mutar_libro con_inventario gestor_inventario GestorInventario.libros
       GestorInventario.inventario_ordenado].
  rewrite (busqueda_binaria_ext
             (GestorInventario.isbn_en
                (alter f r (GestorInventario.libros (gestor_inventario s))))
             (GestorInventario.isbn_en
                (GestorInventario.libros (gestor_inventario s)))); [done|].
  intros a _. by apply isbn_en_alter.
Qed.

Lemma libro_en_mutar (f : Libro.t -> Libro.t) (r : nat) (s : t) :
  (r < length (GestorInventario.libros (gestor_inventario s)))%nat ->
  libro_en (mutar_libro f r s) r = f (libro_en s r).
Proof.
  intros Hr. unfold libro_en. simpl. by rewrite list_lookup_total_alter_eq.
Qed.

Lemma libro_en_mutar_otro (f : Libro.t -> Libro.t) (r r' : nat) (s : t) :
  r' <> r -> libro_en (mutar_libro f r s) r' = libro_en s r'.
Proof.
  intros Hr. unfold libro_en. simpl. by rewrite list_lookup_total_alter_ne.
Qed.

(** The search of the managers never raises. *)
Lemma buscar_por_isbn_total (isbn : string) (g : GestorInventario.t) :
  exists o, GestorInventario.buscar_por_isbn isbn g = inr o.
Proof.
  unfold GestorInventario.buscar_por_isbn,
    BusquedaBinaria.buscar_libro_por_isbn, BusquedaBinaria.busqueda_binaria.
  simpl.
  destruct (bucle_acierto (GestorInventario.isbn_de g)
              (Z.to_nat
                 (Z.of_nat (length (GestorInventario.inventario_ordenado g))
                  - 1 - 0 + 1))
              (GestorInventario.inventario_ordenado g) (Cadena.strip isbn) 0
              (Z.of_nat (length (GestorInventario.inventario_ordenado g)) - 1))
    as (pos & -> & [->|[Hpos _]]); [lia..| |]; simpl.
  - by eexists.
  - destruct (Z.eqb_spec pos (-1)); simpl; [by eexists|].
    destruct (getitem_en_rango (GestorInventario.inventario_ordenado g) pos)
      as (a & _ & ->); [lia|]. by eexists.
Qed.

Lemma stock_positivo_en_rango (s : t) (r : nat) :
  0 < Libro.stock (libro_en s r) ->
  (r < length (GestorInventario.libros (gestor_inventario s)))%nat.
Proof.
  unfold libro_en. rewrite list_lookup_total_alt.
  destruct (_ !! r) as [b|] eqn:Hb; simpl; [|lia].
  intros _. by eapply lookup_lt_Some.
Qed.

(** The state a successful loan leaves, component by component. *)
Lemma crear_prestamo_estado (ahora id_usuario isbn : string) (s : t)
    (usuario : Usuario.t) (r : nat) :
  usuarios s !! id_usuario = Some usuario ->
  Usuario.puede_prestar usuario = true ->
  GestorInventario.buscar_por_isbn isbn (gestor_inventario s) = inr (Some r) ->
  0 < Libro.stock (libro_en s r) ->
  Cadena.en_blanco isbn = false ->
  (forall pila, historial_prestamos s !! id_usuario = Some pila ->
     Pila.esta_llena pila = false) ->
  exists res pila',
    crear_prestamo ahora id_usuario isbn s
    = (res,
       {| gestor_inventario :=
            gestor_inventario
              (mutar_libro (fun b => (Libro.decrementar_stock b).2) r s);
          usuarios :=
            <[id_usuario :=
                Usuario.con_prestados (Usuario.libros_prestados usuario + 1)
                  usuario]> (usuarios s);
          cola_reservas := cola_reservas s;
          historial_prestamos :=
            <[id_usuario := pila']> (historial_prestamos s) |}) /\
    Prestamo.exito res = true /\
    Pila.elementos pila'
    = entradas s id_usuario
      ++ [{| Pila.isbn := Cadena.strip isbn; Pila.fecha := ahora |}].
Proof.
  intros Hu Hpuede Hbus Hstock Hisbn Hllena.
  assert (Usuario.activo usuario = true) as Hact.
  { unfold Usuario.puede_prestar in Hpuede.
    by apply andb_true_iff in Hpuede as [? _]. }
  unfold crear_prestamo, GestorUsuarios.validar_puede_prestar.
  rewrite Hu. cbv beta iota zeta. rewrite Hact, Hpuede.
  cbn [negb Validacion.puede_prestar]. rewrite Hbus.
  unfold Libro.esta_disponible.
  destruct (Z.ltb_spec 0 (Libro.stock (libro_en s r))) as [_|?]; [|lia].
  cbn [negb].
  set (s1 := mutar_libro _ r s).
  set (s2 := mutar_usuario _ id_usuario s1).
  assert (usuarios s2
          = <[id_usuario :=
                Usuario.con_prestados (Usuario.libros_prestados usuario + 1)
                  usuario]> (usuarios s)) as Hus2.
  { unfold s2, s1. simpl. apply map_eq. intros k.
    destruct (decide (id_usuario = k)) as [<-|Hne].
    - rewrite lookup_alter_eq, lookup_insert_eq, Hu. simpl.
      unfold Usuario.incrementar_prestamos. by rewrite Hpuede.
    - by rewrite lookup_alter_ne, lookup_insert_ne. }
  change (historial_prestamos s2) with (historial_prestamos s).
  unfold entradas.
  destruct (historial_prestamos s !! id_usuario) as [pila|] eqn:Hh.
  - simpl. rewrite Hh. simpl. unfold Pila.apilar.
    rewrite Hisbn, (Hllena pila eq_refl). simpl.
    do 2 eexists. split; [|split].
    + rewrite <- Hus2. reflexivity.
    + done.
    + done.
  - simpl. rewrite lookup_insert_eq. simpl. unfold Pila.apilar.
    rewrite Hisbn. simpl.
    eexists _, {| Pila.elementos :=
                    [{| Pila.isbn := Cadena.strip isbn; Pila.fecha := ahora |}];
                  Pila.capacidad_max := None |}.
    split; [|split].
    + rewrite <- Hus2, insert_insert_eq. reflexivity.
    + done.
    + done.
Qed.

(** X17: a loan to a user who may borrow, of a book that is found and
    in stock, succeeds: the stock of that book goes down by one and no
    other book changes, the user's loan count goes up by one, the loan
    becomes the most recent entry of the user's history, and the
    reservation queue is not touched. *)
Theorem crear_prestamo_efectos (ahora id_usuario isbn : string) (s : t)
    (usuario : Usuario.t) (r : nat) :
  usuarios s !! id_usuario = Some usuario ->
  Usuario.puede_prestar usuario = true ->
  GestorInventario.buscar_por_isbn isbn (gestor_inventario s) = inr (Some r) ->
  0 < Libro.stock (libro_en s r) ->
  Cadena.en_blanco isbn = false ->
  (forall pila, historial_prestamos s !! id_usuario = Some pila ->
     Pila.esta_llena pila = false) ->
  exists res s',
    crear_prestamo ahora id_usuario isbn s = (res, s') /\
    Prestamo.exito res = true /\
    Libro.stock (libro_en s' r) = Libro.stock (libro_en s r) - 1 /\
    (forall r', r' <> r -> libro_en s' r' = libro_en s r') /\
    usuarios s'
    = <[id_usuario :=
          Usuario.con_prestados (Usuario.libros_prestados usuario + 1) usuario]>
        (usuarios s) /\
    entradas s' id_usuario
    = entradas s id_usuario
      ++ [{| Pila.isbn := Cadena.strip isbn; Pila.fecha := ahora |}] /\
    obtener_prestamo_mas_reciente id_usuario s'
    = Some {| Pila.isbn := Cadena.strip isbn; Pila.fecha := ahora |} /\
    (forall k, k <> id_usuario ->
       historial_prestamos s' !! k = historial_prestamos s !! k) /\
    cola_reservas s' = cola_reservas s.
Proof.
  intros Hu Hpuede Hbus Hstock Hisbn Hllena.
  pose proof (stock_positivo_en_rango s r Hstock) as Hr.
  destruct (crear_prestamo_estado ahora id_usuario isbn s usuario r)
    as (res & pila' & -> & Hex & Hel); try done.
  do 2 eexists. split; [reflexivity|].
  unfold entradas, obtener_prestamo_mas_reciente.
  cbn [usuarios cola_reservas historial_prestamos].
  rewrite lookup_insert_eq. split_and!; try done.
  - change (Libro.stock
              (libro_en
                 (mutar_libro (fun b => (Libro.decrementar_stock b).2) r s) r)
            = Libro.stock (libro_en s r) - 1).
    rewrite libro_en_mutar by done. unfold Libro.decrementar_stock.
    by destruct (Z.ltb_spec 0 (Libro.stock (libro_en s r))) as [_|?]; [|lia].
  - intros r' Hr'.
    by apply (libro_en_mutar_otro (fun b => (Libro.decrementar_stock b).2)).
  - unfold Pila.tope, Pila.esta_vacia, Pila.tamanio. rewrite Hel.
    rewrite length_app. simpl.
    destruct (Z.eqb_spec (Z.of_nat (length (entradas s id_usuario) + 1)) 0);
      [lia|]. by rewrite last_snoc.
  - intros k Hk. by rewrite lookup_insert_ne.
Qed.

(** X18: [validar_prestamo_posible] never raises and predicts
    [crear_prestamo]: the loan succeeds exactly when the validation says
    it is possible and the ISBN is not blank, and a loan the validation
    rejects changes nothing. *)
Theorem crear_prestamo_validado (ahora id_usuario isbn : string) (s : t) :
  exists v,
    validar_prestamo_posible id_usuario isbn s = inr v /\
    Prestamo.exito (crear_prestamo ahora id_usuario isbn s).1
    = Posible.valido v && negb (Cadena.en_blanco isbn) /\
    (Posible.valido v = false ->
     (crear_prestamo ahora id_usuario isbn s).2 = s).
Proof.
  unfold validar_prestamo_posible, crear_prestamo.
  destruct (usuarios s !! id_usuario) as [u|] eqn:Hu; [|by eexists].
  cbv zeta.
  destruct (Validacion.puede_prestar
              (GestorUsuarios.validar_puede_prestar id_usuario (usuarios s)));
    cbn [negb]; [|by eexists].
  destruct (buscar_por_isbn_total isbn (gestor_inventario s)) as [o ->].
  simpl. destruct o as [r|]; [|by eexists].
  destruct (Libro.esta_disponible (libro_en s r)); cbn [negb]; [|by eexists].
  eexists. split; [reflexivity|]. cbn [Posible.valido]. split; [|done].
  unfold Pila.apilar. destruct (Cadena.en_blanco isbn); [done|].
  by destruct (Pila.esta_llena _).
Qed.

(** *** What the primitive mutations keep *)

Lemma conserva_refl (s : t) : conserva s s.
Proof. by repeat split. Qed.

Lemma conserva_trans (s1 s2 s3 : t) :
  conserva s1 s2 -> conserva s2 s3 -> conserva s1 s3.
Proof.
  intros (Hu1 & Hg1 & Ho1 & Hl1 & Hi1 & He1) (Hu2 & Hg2 & Ho2 & Hl2 & Hi2 & He2).
  split_and!.
  - intros k. by rewrite Hu2.
  - by rewrite Hg2.
  - by rewrite Ho2.
  - by rewrite Hl2.
  - intros r. by rewrite Hi2.
  - intros k. etrans; [apply He1|apply He2].
Qed.

Lemma conserva_mutar_libro (f : Libro.t -> Libro.t) (r : nat) (s : t) :
  (forall b, Libro.isbn (f b) = Libro.isbn b) ->
  conserva s (mutar_libro f r s).
Proof.
  intros Hf. split_and!; try done.
  - simpl. apply length_alter.
  - intros r'. unfold GestorInventario.isbn_de. simpl. by apply isbn_en_alter.
Qed.

Lemma conserva_mutar_usuario (f : Usuario.t -> Usuario.t) (id : string)
    (s : t) :
  conserva s (mutar_usuario f id s).
Proof.
  split_and!; try done. intros k. simpl. apply lookup_alter_is_Some.
Qed.

Lemma conserva_con_cola (q : Cola.t) (s : t) : conserva s (con_cola q s).
Proof. by repeat split. Qed.

Lemma limites_mutar_libro (f : Libro.t -> Libro.t) (r : nat) (s : t) :
  (forall b, 0 <= Libro.stock b -> 0 <= Libro.stock (f b)) ->
  limites s -> limites (mutar_libro f r s).
Proof.
  intros Hf [Hus Hlib]. split; [done|]. simpl.
  apply Forall_lookup. intros i b. rewrite list_lookup_alter.
  rewrite Forall_lookup in Hlib. case_decide as Hi.
  - subst i. destruct (_ !! r) as [b0|] eqn:Hb0; simpl; [|done].
    intros [= <-]. by eapply Hf, Hlib.
  - apply Hlib.
Qed.

Lemma limites_mutar_usuario (f : Usuario.t -> Usuario.t) (id : string)
    (s : t) :
  (forall u, 0 <= Usuario.libros_prestados u <= Usuario.max_prestamos u ->
             0 <= Usuario.libros_prestados (f u) <= Usuario.max_prestamos (f u)) ->
  limites s -> limites (mutar_usuario f id s).
Proof.
  intros Hf [Hus Hlib]. split; [|done]. simpl.
  intros k u [[-> (u0 & Hu0 & ->)]|[_ Hk]]%lookup_alter_Some.
  - by eapply Hf, Hus.
  - by eapply Hus.
Qed.

Lemma limites_incrementar_prestamos (u : Usuario.t) :
  0 <= Usuario.libros_prestados u <= Usuario.max_prestamos u ->
  0 <= Usuario.libros_prestados (Usuario.incrementar_prestamos u).2
    <= Usuario.max_prestamos (Usuario.incrementar_prestamos u).2.
Proof.
  unfold Usuario.incrementar_prestamos, Usuario.puede_prestar.
  destruct (Usuario.activo u); simpl; [|done].
  destruct (Z.ltb_spec (Usuario.libros_prestados u) (Usuario.max_prestamos u));
    simpl; lia.
Qed.

Lemma limites_decrementar_prestamos (u : Usuario.t) :
  0 <= Usuario.libros_prestados u <= Usuario.max_prestamos u ->
  0 <= Usuario.libros_prestados (Usuario.decrementar_prestamos u).2
    <= Usuario.max_prestamos (Usuario.decrementar_prestamos u).2.
Proof.
  unfold Usuario.decrementar_prestamos.
  destruct (Z.ltb_spec 0 (Usuario.libros_prestados u)); simpl; lia.
Qed.

Lemma limites_decrementar_stock (b : Libro.t) :
  0 <= Libro.stock b -> 0 <= Libro.stock (Libro.decrementar_stock b).2.
Proof.
  unfold Libro.decrementar_stock.
  destruct (Z.ltb_spec 0 (Libro.stock b)); simpl; lia.
Qed.

Lemma stock_no_baja_trans (s1 s2 s3 : t) :
  stock_no_baja s1 s2 -> stock_no_baja s2 s3 -> stock_no_baja s1 s3.
Proof. intros H1 H2 r. etrans; [apply H1|apply H2]. Qed.

Lemma stock_no_baja_incrementar (r : nat) (s : t) :
  stock_no_baja s (mutar_libro Libro.incrementar_stock r s).
Proof.
  intros r'. unfold libro_en. simpl. rewrite list_lookup_total_alter.
  case_decide as H; [|done]. destruct H as [-> _]. simpl. lia.
Qed.

(** The step that records a loan in the history of a user, as
    [crear_prestamo] and [procesar_prestamo_automatico] write it: only
    the history of that user changes, and it only grows. *)
Lemma registrar_conserva (ahora isbn : string) (fecha : option string)
    (id : string) (s : t) :
  let s3 :=
    match historial_prestamos s !! id with
    | Some _ => s
    | None => con_historial (<[id := Pila.nueva None]> (historial_prestamos s)) s
    end in
  let pila := default (Pila.nueva None) (historial_prestamos s3 !! id) in
  conserva s s3 /\
  conserva s
    (con_historial
       (<[id := (Pila.apilar ahora isbn fecha pila).2]> (historial_prestamos s3))
       s3).
Proof.
  assert (forall p : Pila.t,
            Pila.elementos p
              `prefix_of` Pila.elementos (Pila.apilar ahora isbn fecha p).2)
    as Hap.
  { intros p. unfold Pila.apilar. destruct (Cadena.en_blanco isbn); [done|].
    destruct (Pila.esta_llena p); [done|]. simpl. by apply prefix_app_r. }
  destruct (historial_prestamos s !! id) as [pila|] eqn:Hh; simpl.
  - rewrite Hh. simpl. split; [apply conserva_refl|].
    split_and!; try done. intros k. unfold entradas. simpl.
    destruct (decide (id = k)) as [<-|Hne].
    + rewrite lookup_insert_eq, Hh. apply Hap.
    + by rewrite lookup_insert_ne.
  - rewrite lookup_insert_eq. simpl. split.
    + split_and!; try done. intros k. unfold entradas. simpl.
      destruct (decide (id = k)) as [<-|Hne].
      * by rewrite lookup_insert_eq, Hh.
      * by rewrite lookup_insert_ne.
    + split_and!; try done. intros k. unfold entradas. simpl.
      destruct (decide (id = k)) as [<-|Hne].
      * rewrite lookup_insert_eq, Hh. apply prefix_nil.
      * by rewrite !lookup_insert_ne.
Qed.

(** *** What the operations keep *)

Lemma procesar_prestamo_automatico_marco (ahora id isbn : string) (s : t) :
  conserva s (procesar_prestamo_automatico ahora id isbn s).2 /\
  (limites s -> limites (procesar_prestamo_automatico ahora id isbn s).2) /\
  stock_no_baja s (procesar_prestamo_automatico ahora id isbn s).2.
Proof.
  unfold procesar_prestamo_automatico.
  destruct (usuarios s !! id) as [u|];
    destruct (GestorInventario.buscar_por_isbn isbn (gestor_inventario s))
      as [e|[r|]]; simpl;
    try (split_and!; [apply conserva_refl|done|by intros ?]).
  destruct (Usuario.puede_prestar u); cbn [negb].
  - set (s1 := mutar_usuario _ id s).
    assert (conserva s s1) as Hc1 by apply conserva_mutar_usuario.
    assert (limites s -> limites s1) as Hl1.
    { apply limites_mutar_usuario, limites_incrementar_prestamos. }
    pose proof (registrar_conserva ahora isbn (Some ahora) id s1) as Hreg.
    cbv zeta in Hreg. revert Hreg.
    change (historial_prestamos s1) with (historial_prestamos s).
    destruct (historial_prestamos s !! id) as [p|] eqn:Hh.
    + simpl. rewrite Hh. simpl.
      destruct (Pila.apilar ahora isbn (Some ahora) p) as [[e|b] p'];
        simpl; intros [Hc3 Hc4].
      * split_and!; [done|done|by intros ?].
      * split_and!; [by eapply conserva_trans|done|by intros ?].
    + simpl. rewrite lookup_insert_eq. simpl.
      destruct (Pila.apilar ahora isbn (Some ahora) (Pila.nueva None))
        as [[e|b] p']; simpl; intros [Hc3 Hc4].
      * split_and!; [by eapply conserva_trans|done|by intros ?].
      * split_and!; [by eapply conserva_trans|done|by intros ?].
  - split_and!.
    + by apply conserva_mutar_libro.
    + apply limites_mutar_libro. simpl. lia.
    + apply stock_no_baja_incrementar.
Qed.

Lemma busqueda_binaria_total {B : Type} (isbn_de : B -> string) (l : list B)
    (isbn : string) :
  exists pos, BusquedaBinaria.busqueda_binaria isbn_de l isbn 0 None = inr pos.
Proof.
  unfold BusquedaBinaria.busqueda_binaria. simpl.
  destruct (bucle_acierto isbn_de
              (Z.to_nat (Z.of_nat (length l) - 1 - 0 + 1)) l
              (Cadena.strip isbn) 0 (Z.of_nat (length l) - 1))
    as (pos & -> & _); [lia..|]. by eexists.
Qed.

(** The reservation check never raises when it is given the loan
    manager. *)
Lemma verificar_y_asignar_reserva_marco (ahora isbn : string) (s : t) :
  exists v s',
    verificar_y_asignar_reserva ahora isbn true s = (inr v, s') /\
    conserva s s' /\ (limites s -> limites s') /\ stock_no_baja s s'.
Proof.
  unfold verificar_y_asignar_reserva.
  destruct (busqueda_binaria_total
              (GestorInventario.isbn_de (gestor_inventario s))
              (GestorInventario.inventario_ordenado (gestor_inventario s)) isbn)
    as [pos ->].
  destruct (pos =? -1).
  { do 2 eexists. split; [reflexivity|].
    split_and!; [apply conserva_refl|done|by intros ?]. }
  destruct (Cola.obtener_siguiente_usuario isbn (cola_reservas s)).
  2:{ do 2 eexists. split; [reflexivity|].
      split_and!; [apply conserva_refl|done|by intros ?]. }
  destruct (Cola.desencolar (cola_reservas s)) as [[reserva|] cola].
  - pose proof (procesar_prestamo_automatico_marco ahora
                  (Cola.id_usuario reserva) isbn (con_cola cola s))
      as (Hc & Hl & Hs).
    destruct (procesar_prestamo_automatico ahora (Cola.id_usuario reserva)
                isbn (con_cola cola s)) as [b s2].
    do 2 eexists. split; [reflexivity|]. split_and!.
    + eapply conserva_trans; [apply (conserva_con_cola cola)|exact Hc].
    + exact Hl.
    + exact Hs.
  - do 2 eexists. split; [reflexivity|].
    split_and!; [apply conserva_con_cola|done|by intros ?].
Qed.

(** The two outcomes of [devolver_libro]: a failure that changes
    nothing, or the two mutations followed by the reservation check. *)
Lemma devolver_libro_casos (ahora ahora_prestamo id isbn : string) (s : t) :
  (Devolucion.exito (devolver_libro ahora ahora_prestamo id isbn s).1 = false /\
   (devolver_libro ahora ahora_prestamo id isbn s).2 = s /\
   ~ (is_Some (usuarios s !! id) /\
      (exists r, GestorInventario.buscar_por_isbn isbn (gestor_inventario s)
                 = inr (Some r)) /\
      isbn ∈ Pila.isbn <$> entradas s id)) \/
  (exists r v,
     is_Some (usuarios s !! id) /\
     GestorInventario.buscar_por_isbn isbn (gestor_inventario s)
     = inr (Some r) /\
     isbn ∈ Pila.isbn <$> entradas s id /\
     Devolucion.exito (devolver_libro ahora ahora_prestamo id isbn s).1 = true /\
     Devolucion.reserva_asignada (devolver_libro ahora ahora_prestamo id isbn s).1
     = Some (Verificacion.tiene_reservas v) /\
     verificar_y_asignar_reserva ahora_prestamo isbn true
       (mutar_usuario (fun u => (Usuario.decrementar_prestamos u).2) id
          (mutar_libro Libro.incrementar_stock r s))
     = (inr v, (devolver_libro ahora ahora_prestamo id isbn s).2)).
Proof.
  unfold devolver_libro, entradas.
  destruct (usuarios s !! id) as [u|] eqn:Hu.
  2:{ left. split_and!; [done..|]. by intros [[? [=]] _]. }
  destruct (buscar_por_isbn_total isbn (gestor_inventario s)) as [[r|] ->].
  2:{ left. split_and!; [done..|]. by intros (_ & [? [=]] & _). }
  destruct (historial_prestamos s !! id) as [p|] eqn:Hh.
  2:{ left. split_and!; [done..|]. by intros (_ & _ & ?%elem_of_nil). }
  destruct (Pila.esta_vacia p) eqn:Hvacia.
  { left. split_and!; [done..|]. intros (_ & _ & Hin).
    apply historial_no_vacio in Hin. congruence. }
  cbv zeta. case_bool_decide as Hin; cbn [negb].
  2:{ left. split_and!; [done..|]. by intros (_ & _ & ?). }
  right.
  destruct (verificar_y_asignar_reserva_marco ahora_prestamo isbn
              (mutar_usuario (fun u => (Usuario.decrementar_prestamos u).2) id
                 (mutar_libro Libro.incrementar_stock r s)))
    as (v & s' & Hv & _).
  rewrite Hv. exists r, v. by split_and!.
Qed.

Lemma crear_prestamo_marco (ahora id isbn : string) (s : t) :
  conserva s (crear_prestamo ahora id isbn s).2 /\
  (limites s -> limites (crear_prestamo ahora id isbn s).2).
Proof.
  unfold crear_prestamo.
  destruct (usuarios s !! id) as [u|]; [|by split; [apply conserva_refl|]].
  cbv zeta.
  destruct (Validacion.puede_prestar
              (GestorUsuarios.validar_puede_prestar id (usuarios s)));
    cbn [negb]; [|by split; [apply conserva_refl|]].
  destruct (GestorInventario.buscar_por_isbn isbn (gestor_inventario s))
    as [e|[r|]]; try (by split; [apply conserva_refl|]).
  destruct (Libro.esta_disponible (libro_en s r)); cbn [negb];
    [|by split; [apply conserva_refl|]].
  set (s1 := mutar_libro _ r s).
  set (s2 := mutar_usuario _ id s1).
  assert (conserva s s2) as Hc2.
  { eapply conserva_trans; [|apply conserva_mutar_usuario].
    apply conserva_mutar_libro, isbn_decrementar_stock. }
  assert (limites s -> limites s2) as Hl2.
  { intros Hl. apply limites_mutar_usuario, limites_mutar_libro; [| |done].
    - apply limites_incrementar_prestamos.
    - apply limites_decrementar_stock. }
  pose proof (registrar_conserva ahora isbn (Some ahora) id s2) as Hreg.
  cbv zeta in Hreg. revert Hreg.
  change (historial_prestamos s2) with (historial_prestamos s).
  destruct (historial_prestamos s !! id) as [p|] eqn:Hh.
  - simpl. rewrite Hh. simpl.
    destruct (Pila.apilar ahora isbn (Some ahora) p) as [[e|b] p'];
      simpl; intros [Hc3 Hc4]; (split; [by eapply conserva_trans|done]).
  - simpl. rewrite lookup_insert_eq. simpl.
    destruct (Pila.apilar ahora isbn (Some ahora) (Pila.nueva None))
      as [[e|b] p']; simpl; intros [Hc3 Hc4];
      (split; [by eapply conserva_trans|done]).
Qed.

Lemma devolver_libro_marco (ahora ahora_prestamo id isbn : string) (s : t) :
  conserva s (devolver_libro ahora ahora_prestamo id isbn s).2 /\
  (limites s -> limites (devolver_libro ahora ahora_prestamo id isbn s).2) /\
  stock_no_baja s (devolver_libro ahora ahora_prestamo id isbn s).2.
Proof.
  destruct (devolver_libro_casos ahora ahora_prestamo id isbn s)
    as [(_ & -> & _)|(r & v & _ & _ & _ & _ & _ & Hv)].
  { split_and!; [apply conserva_refl|done|by intros ?]. }
  set (s2 := mutar_usuario _ id _) in Hv.
  destruct (verificar_y_asignar_reserva_marco ahora_prestamo isbn s2)
    as (v' & s' & Hv' & Hc & Hl & Hs).
  rewrite Hv in Hv'. injection Hv' as _ ->.
  split_and!.
  - eapply conserva_trans; [|exact Hc].
    eapply conserva_trans; [|apply conserva_mutar_usuario].
    by apply conserva_mutar_libro.
  - intros Hlim. apply Hl, limites_mutar_usuario, limites_mutar_libro; [| |done].
    + apply limites_decrementar_prestamos.
    + simpl. lia.
  - eapply stock_no_baja_trans; [|exact Hs].
    apply (stock_no_baja_incrementar r s).
Qed.

Lemma buscar_por_isbn_conserva (s s' : t) (isbn : string) :
  conserva s s' ->
  GestorInventario.buscar_por_isbn isbn (gestor_inventario s')
  = GestorInventario.buscar_por_isbn isbn (gestor_inventario s).
Proof.
  intros (_ & _ & Ho & _ & Hi & _).
  unfold GestorInventario.buscar_por_isbn,
    BusquedaBinaria.buscar_libro_por_isbn.
  rewrite Ho.
  by rewrite (busqueda_binaria_ext
                (GestorInventario.isbn_de (gestor_inventario s'))
                (GestorInventario.isbn_de (gestor_inventario s))).
Qed.

(** X19: a return succeeds exactly when the user is registered, the
    book is found by its ISBN and the user's history holds an entry of
    exactly that ISBN string; a return that fails changes nothing. *)
Theorem devolver_libro_exito (ahora ahora_prestamo id_usuario isbn : string)
    (s : t) :
  (Devolucion.exito (devolver_libro ahora ahora_prestamo id_usuario isbn s).1
   = true
   <-> is_Some (usuarios s !! id_usuario) /\
       (exists r, GestorInventario.buscar_por_isbn isbn (gestor_inventario s)
                  = inr (Some r)) /\
       isbn ∈ Pila.isbn <$> entradas s id_usuario) /\
  (Devolucion.exito (devolver_libro ahora ahora_prestamo id_usuario isbn s).1
   = false ->
   (devolver_libro ahora ahora_prestamo id_usuario isbn s).2 = s).
Proof.
  destruct (devolver_libro_casos ahora ahora_prestamo id_usuario isbn s)
    as [(Hex & Hs & Hno)|(r & v & Hu & Hbus & Hin & Hex & _)].
  - split; [|done]. rewrite Hex. split; [done|]. intros H. by destruct Hno.
  - split; [|by rewrite Hex]. split; [|done]. intros _. split_and!; eauto.
Qed.

(** X20: [crear_prestamo] and [devolver_libro] never register or drop a
    user, never change the two inventory lists or the ISBN of a book,
    and never remove an entry from a loan history: every history only
    grows. *)
Theorem prestamos_conservan (ahora id_usuario isbn : string)
    (ahora_d ahora_p id_d isbn_d : string) (s : t) :
  conserva s (crear_prestamo ahora id_usuario isbn s).2 /\
  conserva s (devolver_libro ahora_d ahora_p id_d isbn_d s).2.
Proof.
  split.
  - apply crear_prestamo_marco.
  - apply devolver_libro_marco.
Qed.

(** X21: the bounds of the constructors are invariants of the loan
    operations: after [crear_prestamo] and after [devolver_libro] every
    loan count is still between 0 and the user's maximum, and no stock
    is negative. *)
Theorem limites_preservados (ahora id_usuario isbn : string)
    (ahora_d ahora_p id_d isbn_d : string) (s : t) :
  limites s ->
  limites (crear_prestamo ahora id_usuario isbn s).2 /\
  limites (devolver_libro ahora_d ahora_p id_d isbn_d s).2.
Proof.
  intros Hlim. split.
  - by apply crear_prestamo_marco.
  - by apply devolver_libro_marco.
Qed.

(** X22: a return does not consume the loan it returns.  The history
    keeps the entry, so after one successful return the same return
    succeeds again, and the two together have added at least 2 to the
    stock of the book. *)
Theorem devolver_libro_repetible (ahora1 ahora2 ahora3 ahora4 : string)
    (id_usuario isbn : string) (s : t) (r : nat) :
  GestorInventario.referencias_validas (gestor_inventario s) ->
  GestorInventario.buscar_por_isbn isbn (gestor_inventario s) = inr (Some r) ->
  Devolucion.exito (devolver_libro ahora1 ahora2 id_usuario isbn s).1 = true ->
  Devolucion.exito
    (devolver_libro ahora3 ahora4 id_usuario isbn
       (devolver_libro ahora1 ahora2 id_usuario isbn s).2).1 = true /\
  Libro.stock (libro_en s r) + 2
  <= Libro.stock
       (libro_en
          (devolver_libro ahora3 ahora4 id_usuario isbn
             (devolver_libro ahora1 ahora2 id_usuario isbn s).2).2 r).
Proof.
  intros Hval Hbus Hex1.
  destruct (buscar_por_isbn_Some s isbn r Hval Hbus) as (Hr & _).
  pose proof (devolver_libro_marco ahora1 ahora2 id_usuario isbn s)
    as (Hc1 & _ & _).
  destruct (devolver_libro_casos ahora1 ahora2 id_usuario isbn s)
    as [(Hf & _)|(r1 & v1 & Hu1 & Hbus1 & Hin1 & _ & _ & Hv1)]; [congruence|].
  rewrite Hbus in Hbus1. injection Hbus1 as <-.
  set (s1 := (devolver_libro ahora1 ahora2 id_usuario isbn s).2) in *.
  assert (Libro.stock (libro_en s r) + 1 <= Libro.stock (libro_en s1 r))
    as Hst1.
  { destruct (verificar_y_asignar_reserva_marco ahora2 isbn
                (mutar_usuario (fun u => (Usuario.decrementar_prestamos u).2)
                   id_usuario (mutar_libro Libro.incrementar_stock r s)))
      as (v' & s' & Hv' & _ & _ & Hs).
    rewrite Hv1 in Hv'. injection Hv' as _ <-.
    specialize (Hs r). unfold libro_en in Hs at 1. simpl in Hs.
    rewrite list_lookup_total_alter_eq in Hs by done. simpl in Hs.
    unfold libro_en at 1. lia. }
  assert (GestorInventario.buscar_por_isbn isbn (gestor_inventario s1)
          = inr (Some r)) as Hbus2.
  { by rewrite (buscar_por_isbn_conserva s s1). }
  assert (length (GestorInventario.libros (gestor_inventario s1))
          = length (GestorInventario.libros (gestor_inventario s))) as Hlen
    by apply Hc1.
  pose proof (devolver_libro_marco ahora3 ahora4 id_usuario isbn s1)
    as (_ & _ & Hs2).
  destruct (devolver_libro_casos ahora3 ahora4 id_usuario isbn s1)
    as [(_ & _ & Hno)|(r2 & v2 & _ & Hbus2' & _ & Hex2 & _ & Hv2)].
  { destruct Hno. split_and!.
    - by apply Hc1.
    - by exists r.
    - destruct Hc1 as (_ & _ & _ & _ & _ & He).
      destruct (He id_usuario) as [k ->]. rewrite fmap_app.
      apply elem_of_app. by left. }
  split; [done|].
  rewrite Hbus2 in Hbus2'. injection Hbus2' as <-.
  destruct (verificar_y_asignar_reserva_marco ahora4 isbn
              (mutar_usuario (fun u => (Usuario.decrementar_prestamos u).2)
                 id_usuario (mutar_libro Libro.incrementar_stock r s1)))
    as (v' & s' & Hv' & _ & _ & Hs).
  rewrite Hv2 in Hv'. injection Hv' as _ <-.
  specialize (Hs r). unfold libro_en in Hs at 1. simpl in Hs.
  rewrite list_lookup_total_alter_eq in Hs by lia. simpl in Hs.
  unfold libro_en in Hst1 at 2. lia.
Qed.

(** Without a reservation of the book the check changes nothing. *)
Lemma verificar_sin_reservas (ahora isbn : string) (s : t) :
  Cola.obtener_siguiente_usuario isbn (cola_reservas s) = None ->
  exists v,
    verificar_y_asignar_reserva ahora isbn true s = (inr v, s) /\
    Verificacion.tiene_reservas v = false.
Proof.
  intros Hsig. unfold verificar_y_asignar_reserva.
  destruct (busqueda_binaria_total
              (GestorInventario.isbn_de (gestor_inventario s))
              (GestorInventario.inventario_ordenado (gestor_inventario s)) isbn)
    as [pos ->].
  rewrite Hsig. destruct (pos =? -1); by eexists.
Qed.

Lemma incrementar_decrementar_stock (almacen : list Libro.t) (r : nat) :
  0 < Libro.stock (almacen !!! r) ->
  alter Libro.incrementar_stock r
    (alter (fun b => (Libro.decrementar_stock b).2) r almacen)
  = almacen.
Proof.
  intros Hstock. apply list_eq. intros i.
  destruct (decide (r = i)) as [<-|Hne]; [|by rewrite !list_lookup_alter_ne].
  rewrite !list_lookup_alter_eq. rewrite list_lookup_total_alt in Hstock.
  destruct (almacen !! r) as [b|]; [|done]. cbn [from_option id] in Hstock.
  change (Some (Libro.incrementar_stock (Libro.decrementar_stock b).2)
          = Some b).
  f_equal. unfold Libro.decrementar_stock.
  destruct (Z.ltb_spec 0 (Libro.stock b)); [|lia].
  destruct b. unfold Libro.incrementar_stock. simpl. f_equal. lia.
Qed.

Lemma decrementar_incrementar_prestamos (u : Usuario.t) :
  Usuario.puede_prestar u = true ->
  0 <= Usuario.libros_prestados u ->
  (Usuario.decrementar_prestamos
     (Usuario.con_prestados (Usuario.libros_prestados u + 1) u)).2 = u.
Proof.
  intros _ Hn. unfold Usuario.decrementar_prestamos. simpl.
  destruct (Z.ltb_spec 0 (Usuario.libros_prestados u + 1)); [|lia].
  destruct u. unfold Usuario.con_prestados. simpl. f_equal. lia.
Qed.

(** X23: a loan followed by its return, for a book nobody has reserved
    and an ISBN given stripped, restores the inventory, the users and
    the queue exactly; only the history differs, and it keeps the entry
    of the loan. *)
Theorem prestar_y_devolver (ahora1 ahora2 ahora3 : string)
    (id_usuario isbn : string) (s : t) (usuario : Usuario.t) (r : nat) :
  usuarios s !! id_usuario = Some usuario ->
  Usuario.puede_prestar usuario = true ->
  0 <= Usuario.libros_prestados usuario ->
  GestorInventario.buscar_por_isbn isbn (gestor_inventario s) = inr (Some r) ->
  0 < Libro.stock (libro_en s r) ->
  Cadena.en_blanco isbn = false ->
  Cadena.strip isbn = isbn ->
  (forall pila, historial_prestamos s !! id_usuario = Some pila ->
     Pila.esta_llena pila = false) ->
  Cola.contar_reservas_libro isbn (cola_reservas s) = 0 ->
  exists res s2,
    devolver_libro ahora2 ahora3 id_usuario isbn
      (crear_prestamo ahora1 id_usuario isbn s).2 = (res, s2) /\
    Devolucion.exito res = true /\
    Devolucion.reserva_asignada res = Some false /\
    gestor_inventario s2 = gestor_inventario s /\
    usuarios s2 = usuarios s /\
    cola_reservas s2 = cola_reservas s /\
    entradas s2 id_usuario
    = entradas s id_usuario
      ++ [{| Pila.isbn := isbn; Pila.fecha := ahora1 |}].
Proof.
  intros Hu Hpuede Hn Hbus Hstock Hisbn Hstrip Hllena Hcola.
  destruct (crear_prestamo_estado ahora1 id_usuario isbn s usuario r)
    as (res1 & pila' & -> & _ & Hel); try done.
  rewrite Hstrip in Hel. cbn [snd].
  set (s1 := {| gestor_inventario := _ |}).
  assert (GestorInventario.buscar_por_isbn isbn (gestor_inventario s1)
          = inr (Some r)) as Hbus1.
  { change (gestor_inventario s1)
      with (gestor_inventario
              (mutar_libro (fun b => (Libro.decrementar_stock b).2) r s)).
    rewrite buscar_por_isbn_mutar; [done|apply isbn_decrementar_stock]. }
  generalize (devolver_libro_casos ahora2 ahora3 id_usuario isbn s1).
  destruct (devolver_libro ahora2 ahora3 id_usuario isbn s1) as [res s2].
  cbn [fst snd].
  intros [(_ & _ & Hno)|(r' & v & _ & Hbus' & _ & Hex & Hasig & Hv)].
  { destruct Hno. split_and!.
    - unfold s1. simpl. rewrite lookup_insert_eq. eauto.
    - eauto.
    - unfold entradas, s1. simpl. rewrite lookup_insert_eq.
      unfold Pila.obtener_todos. rewrite Hel, fmap_app. apply elem_of_app. right. simpl.
      apply list_elem_of_singleton. done. }
  rewrite Hbus1 in Hbus'. injection Hbus' as <-.
  destruct (verificar_sin_reservas ahora3 isbn
              (mutar_usuario (fun u => (Usuario.decrementar_prestamos u).2)
                 id_usuario (mutar_libro Libro.incrementar_stock r s1)))
    as (v' & Hv' & Hno).
  { by apply sin_reservas_siguiente. }
  rewrite Hv in Hv'. injection Hv' as -> ->.
  do 2 eexists. split; [reflexivity|]. split; [done|].
  split; [by rewrite Hasig, Hno|]. split_and!.
  - simpl. rewrite incrementar_decrementar_stock by done.
    by destruct (gestor_inventario s).
  - simpl. rewrite alter_insert_eq.
    rewrite decrementar_incrementar_prestamos by done.
    by apply insert_id.
  - done.
  - unfold entradas. simpl. by rewrite lookup_insert_eq.
Qed.

(** X24: when the book returned is reserved and the reservation at the
    head of the queue belongs to a user who may not borrow (inactive or
    at the limit), the return still succeeds and reports the book as
    assigned, the reservation is consumed, nobody gets a loan, and the
    stock of the book ends 2 above its value before the return. *)
Theorem devolver_libro_reserva_no_elegible (ahora ahora_prestamo : string)
    (u1 u2 isbn fecha : string) (s : t) (usuario1 : Usuario.t) (r : nat)
    (resto : list Cola.registro) :
  u1 <> u2 ->
  GestorInventario.referencias_validas (gestor_inventario s) ->
  GestorInventario.buscar_por_isbn isbn (gestor_inventario s) = inr (Some r) ->
  is_Some (usuarios s !! u2) ->
  isbn ∈ Pila.isbn <$> entradas s u2 ->
  Cola.elementos (cola_reservas s)
  = {| Cola.id_usuario := u1; Cola.isbn := isbn; Cola.fecha := fecha |}
      :: resto ->
  usuarios s !! u1 = Some usuario1 ->
  Usuario.puede_prestar usuario1 = false ->
  exists res s',
    devolver_libro ahora ahora_prestamo u2 isbn s = (res, s') /\
    Devolucion.exito res = true /\
    Devolucion.reserva_asignada res = Some true /\
    Libro.stock (libro_en s' r) = Libro.stock (libro_en s r) + 2 /\
    Cola.elementos (cola_reservas s') = resto /\
    usuarios s' !! u1 = Some usuario1 /\
    historial_prestamos s' = historial_prestamos s.
Proof.
  intros Hne Hval Hbus Hu2 Hprest Hcola Hu1 Hpuede.
  destruct (buscar_por_isbn_Some s isbn r Hval Hbus) as (Hr & pos & Hpos & Hpne).
  generalize (devolver_libro_casos ahora ahora_prestamo u2 isbn s).
  destruct (devolver_libro ahora ahora_prestamo u2 isbn s) as [res s'].
  cbn [fst snd].
  intros [(_ & _ & Hno)|(r' & v & _ & Hbus' & _ & Hex & Hasig & Hv)].
  { destruct Hno. split_and!; eauto. }
  rewrite Hbus in Hbus'. injection Hbus' as <-.
  revert Hv. unfold verificar_y_asignar_reserva.
  change (gestor_inventario (mutar_usuario ?f ?i ?s0))
    with (gestor_inventario s0).
  rewrite busqueda_mutar_libro, Hpos, Hpne.
  change (cola_reservas (mutar_usuario ?f ?i (mutar_libro ?h ?j s)))
    with (cola_reservas s).
  unfold Cola.obtener_siguiente_usuario, Cola.desencolar, Cola.esta_vacia,
    Cola.tamanio.
  rewrite Hcola. cbn [List.find Cola.isbn length head tail].
  rewrite String.eqb_refl.
  destruct (Z.eqb_spec (Z.of_nat (S (length resto))) 0) as [?|_]; [lia|].
  cbn iota. cbn [Cola.id_usuario].
  unfold procesar_prestamo_automatico.
  change (usuarios (con_cola ?q (mutar_usuario ?f ?i ?s0)))
    with (alter f i (usuarios s0)).
  rewrite lookup_alter_ne by done.
  change (usuarios (mutar_libro ?f ?i ?s0)) with (usuarios s0).
  rewrite Hu1.
  change (gestor_inventario (con_cola ?q (mutar_usuario ?f ?i ?s0)))
    with (gestor_inventario s0).
  rewrite buscar_por_isbn_mutar_libro, Hbus, Hpuede. cbn [negb].
  intros [= <- <-].
  do 2 eexists. split; [reflexivity|]. split; [done|]. split; [done|].
  split_and!.
  - unfold libro_en. simpl. rewrite list_alter_alter_eq.
    rewrite list_lookup_total_alter_eq by done. simpl. lia.
  - done.
  - simpl. by rewrite lookup_alter_ne.
  - done.
Qed.

(** The history of a user after [crear_prestamo]: as before, or with
    the entry of the loan on top. *)
Lemma crear_prestamo_entradas (ahora id isbn k : string) (s : t) :
  entradas (crear_prestamo ahora id isbn s).2 k = entradas s k \/
  entradas (crear_prestamo ahora id isbn s).2 k
  = entradas s k ++ [{| Pila.isbn := Cadena.strip isbn; Pila.fecha := ahora |}].
Proof.
  unfold crear_prestamo.
  destruct (usuarios s !! id) as [u|]; [|by left].
  cbv zeta.
  destruct (Validacion.puede_prestar
              (GestorUsuarios.validar_puede_prestar id (usuarios s)));
    cbn [negb]; [|by left].
  destruct (GestorInventario.buscar_por_isbn isbn (gestor_inventario s))
    as [e|[r|]]; try (by left).
  destruct (Libro.esta_disponible (libro_en s r)); cbn [negb]; [|by left].
  set (s1 := mutar_libro _ r s).
  set (s2 := mutar_usuario _ id s1).
  change (historial_prestamos s2) with (historial_prestamos s).
  unfold entradas, Pila.apilar.
  destruct (historial_prestamos s !! id) as [p|] eqn:Hh.
  - simpl. rewrite Hh. simpl.
    destruct (Cadena.en_blanco isbn); simpl; [by left|].
    destruct (Pila.esta_llena p); simpl.
    + left. destruct (decide (id = k)) as [<-|Hne].
      * by rewrite lookup_insert_eq, Hh.
      * by rewrite lookup_insert_ne.
    + destruct (decide (id = k)) as [<-|Hne].
      * right. by rewrite lookup_insert_eq, Hh.
      * left. by rewrite lookup_insert_ne.
  - simpl. rewrite lookup_insert_eq. simpl.
    destruct (Cadena.en_blanco isbn); simpl.
    + left. destruct (decide (id = k)) as [<-|Hne].
      * by rewrite lookup_insert_eq, Hh.
      * by rewrite lookup_insert_ne.
    + destruct (decide (id = k)) as [<-|Hne].
      * right. by rewrite lookup_insert_eq, Hh.
      * left. by rewrite !lookup_insert_ne.
Qed.

(** X25: [crear_prestamo] accepts an ISBN with surrounding whitespace
    and records it stripped, but [devolver_libro] compares the ISBN as
    given: on a history whose entries are stripped, the return under
    the same padded ISBN fails and changes nothing. *)
Theorem devolver_libro_isbn_con_espacios (ahora1 ahora2 ahora3 : string)
    (id_usuario isbn : string) (s : t) :
  (forall e, e ∈ entradas s id_usuario ->
     Cadena.strip (Pila.isbn e) = Pila.isbn e) ->
  Cadena.strip isbn <> isbn ->
  Devolucion.exito
    (devolver_libro ahora2 ahora3 id_usuario isbn
       (crear_prestamo ahora1 id_usuario isbn s).2).1 = false /\
  (devolver_libro ahora2 ahora3 id_usuario isbn
     (crear_prestamo ahora1 id_usuario isbn s).2).2
  = (crear_prestamo ahora1 id_usuario isbn s).2.
Proof.
  intros Hent Hisbn.
  destruct (devolver_libro_casos ahora2 ahora3 id_usuario isbn
              (crear_prestamo ahora1 id_usuario isbn s).2)
    as [(Hex & Hs & _)|(r & v & _ & _ & Hin & _)]; [done|].
  exfalso. apply list_elem_of_fmap in Hin as (e & -> & He).
  destruct (crear_prestamo_entradas ahora1 id_usuario (Pila.isbn e)
              id_usuario s) as [Heq|Heq]; rewrite Heq in He.
  - by apply Hisbn, Hent.
  - apply elem_of_app in He as [He|He]; [by apply Hisbn, Hent|].
    apply list_elem_of_singleton in He. apply Hisbn.
    by rewrite He at 2.
Qed.

(** X27: a deactivated user cannot borrow: after [desactivar_usuario]
    every [crear_prestamo] of the user is refused as inactive and
    changes nothing, whatever the book; [activar_usuario] then gives
    back the users as they were, for a user who was active. *)
Theorem desactivar_usuario_bloquea (ahora id_usuario isbn : string) (s : t)
    (usuario : Usuario.t) :
  usuarios s !! id_usuario = Some usuario ->
  crear_prestamo ahora id_usuario isbn
    (con_usuarios
       (GestorUsuarios.desactivar_usuario id_usuario (usuarios s)).2 s)
  = (Prestamo.fallo "User account is inactive",
     con_usuarios
       (GestorUsuarios.desactivar_usuario id_usuario (usuarios s)).2 s) /\
  (Usuario.activo usuario = true ->
   (GestorUsuarios.activar_usuario id_usuario
      (GestorUsuarios.desactivar_usuario id_usuario (usuarios s)).2).2
   = usuarios s).
Proof.
  intros Hu. unfold GestorUsuarios.desactivar_usuario. rewrite Hu.
  cbn [snd]. split.
  - unfold crear_prestamo, GestorUsuarios.validar_puede_prestar.
    cbn [con_usuarios usuarios]. rewrite lookup_alter_eq, Hu. reflexivity.
  - intros Hact. unfold GestorUsuarios.activar_usuario.
    rewrite lookup_alter_eq, Hu. cbn [fmap option_fmap option_map snd].
    rewrite alter_alter_eq. apply alter_id. intros x Hx.
    rewrite Hu in Hx. injection Hx as <-.
    destruct usuario. simpl in Hact. by subst.
Qed.

End MasPrestamos.

(** ** The reservation manager *)

Section MasReservas.

(** The two outcomes of [crear_reserva]: a refusal that changes nothing,
    or the record appended to the queue. *)
Lemma crear_reserva_casos (ahora id isbn : string) (s : GestorReservas.t) :
  let cond :=
    is_Some (GestorReservas.usuarios s !! id) /\
    (exists r,
       GestorInventario.buscar_por_isbn isbn (GestorReservas.gestor_inventario s)
       = inr (Some r) /\
       Libro.stock (GestorReservas.libro_en s r) <= 0) /\
    Cola.tiene_reserva id isbn (GestorReservas.cola_reservas s) = false /\
    Cadena.en_blanco id = false /\ Cadena.en_blanco isbn = false /\
    Cola.esta_llena (GestorReservas.cola_reservas s) = false in
  (Reserva.exito (GestorReservas.crear_reserva ahora id isbn s).1 = false /\
   (GestorReservas.crear_reserva ahora id isbn s).2 = s /\ ~ cond) \/
  (cond /\
   Reserva.exito (GestorReservas.crear_reserva ahora id isbn s).1 = true /\
   (GestorReservas.crear_reserva ahora id isbn s).2
   = GestorReservas.con_cola
       {| Cola.elementos :=
            Cola.elementos (GestorReservas.cola_reservas s)
            ++ [registro_de ahora id isbn (Some ahora)];
          Cola.capacidad_max :=
            Cola.capacidad_max (GestorReservas.cola_reservas s) |} s).
Proof.
  intros cond. unfold cond, GestorReservas.crear_reserva.
  destruct (GestorReservas.usuarios s !! id) as [u|] eqn:Hu.
  2:{ left. split_and!; [done..|]. by intros [[? [=]] _]. }
  destruct (buscar_por_isbn_total isbn (GestorReservas.gestor_inventario s))
    as [[r|] ->].
  2:{ left. split_and!; [done..|]. by intros (_ & (? & [=] & _) & _). }
  cbv zeta.
  destruct (Z.ltb_spec 0 (Libro.stock (GestorReservas.libro_en s r)))
    as [Hst|Hst].
  { left. split_and!; [done..|]. intros (_ & (r' & [= <-] & ?) & _). lia. }
  destruct (Cola.tiene_reserva id isbn (GestorReservas.cola_reservas s))
    eqn:Htiene.
  { left. split_and!; [done..|]. by intros (_ & _ & ? & _). }
  unfold Cola.encolar.
  destruct (Cadena.en_blanco id) eqn:Hid.
  { left. split_and!; [done|by destruct s|]. by intros (_ & _ & _ & ? & _). }
  destruct (Cadena.en_blanco isbn) eqn:Hisbn.
  { left. split_and!; [done|by destruct s|].
    by intros (_ & _ & _ & _ & ? & _). }
  destruct (Cola.esta_llena (GestorReservas.cola_reservas s)) eqn:Hllena.
  { left. split_and!; [done|by destruct s|].
    by intros (_ & _ & _ & _ & _ & ?). }
  right. split_and!; eauto.
Qed.

(** [validar_puede_reservar] never raises and predicts [crear_reserva]
    up to the checks of [encolar]. *)
Lemma validar_puede_reservar_acuerdo (ahora id_usuario isbn : string)
    (s : GestorReservas.t) :
  exists v,
    GestorReservas.validar_puede_reservar id_usuario isbn s = inr v /\
    Reserva.exito (GestorReservas.crear_reserva ahora id_usuario isbn s).1
    = Reservable.puede_reservar v
      && negb (Cadena.en_blanco id_usuario)
      && negb (Cadena.en_blanco isbn)
      && negb (Cola.esta_llena (GestorReservas.cola_reservas s)).
Proof.
  unfold GestorReservas.validar_puede_reservar, GestorReservas.crear_reserva.
  destruct (GestorReservas.usuarios s !! id_usuario) as [u|];
    [|by eexists].
  destruct (buscar_por_isbn_total isbn (GestorReservas.gestor_inventario s))
    as [[r|] ->]; [|by eexists].
  simpl.
  destruct (0 <? Libro.stock (GestorReservas.libro_en s r)); [by eexists|].
  destruct (Cola.tiene_reserva id_usuario isbn (GestorReservas.cola_reservas s));
    [by eexists|].
  eexists. split; [reflexivity|]. unfold Cola.encolar. simpl.
  destruct (Cadena.en_blanco id_usuario); [done|].
  destruct (Cadena.en_blanco isbn); [done|].
  by destruct (Cola.esta_llena (GestorReservas.cola_reservas s)).
Qed.

(** X26: [crear_reserva] succeeds exactly when the user is registered,
    the book is found and has no copy in stock, the user holds no
    reservation under the identifiers as given, neither identifier is
    blank and the queue is not full; then it appends one record with
    the stripped identifiers at the end of the queue, and otherwise it
    changes nothing.  It never touches the inventory or the users, and
    [validar_puede_reservar], which never raises, predicts its answer
    up to the blank and capacity checks. *)
Theorem crear_reserva_exito (ahora id_usuario isbn : string)
    (s : GestorReservas.t) :
  (Reserva.exito (GestorReservas.crear_reserva ahora id_usuario isbn s).1 = true
   <-> is_Some (GestorReservas.usuarios s !! id_usuario) /\
       (exists r,
          GestorInventario.buscar_por_isbn isbn
            (GestorReservas.gestor_inventario s) = inr (Some r) /\
          Libro.stock (GestorReservas.libro_en s r) <= 0) /\
       Cola.tiene_reserva id_usuario isbn (GestorReservas.cola_reservas s)
       = false /\
       Cadena.en_blanco id_usuario = false /\
       Cadena.en_blanco isbn = false /\
       Cola.esta_llena (GestorReservas.cola_reservas s) = false) /\
  (Reserva.exito (GestorReservas.crear_reserva ahora id_usuario isbn s).1 = true ->
   Cola.elementos
     (GestorReservas.cola_reservas
        (GestorReservas.crear_reserva ahora id_usuario isbn s).2)
   = Cola.elementos (GestorReservas.cola_reservas s)
     ++ [registro_de ahora id_usuario isbn (Some ahora)]) /\
  (Reserva.exito (GestorReservas.crear_reserva ahora id_usuario isbn s).1 = false ->
   (GestorReservas.crear_reserva ahora id_usuario isbn s).2 = s) /\
  GestorReservas.gestor_inventario
    (GestorReservas.crear_reserva ahora id_usuario isbn s).2
  = GestorReservas.gestor_inventario s /\
  GestorReservas.usuarios (GestorReservas.crear_reserva ahora id_usuario isbn s).2
  = GestorReservas.usuarios s /\
  exists v,
    GestorReservas.validar_puede_reservar id_usuario isbn s = inr v /\
    Reserva.exito (GestorReservas.crear_reserva ahora id_usuario isbn s).1
    = Reservable.puede_reservar v
      && negb (Cadena.en_blanco id_usuario)
      && negb (Cadena.en_blanco isbn)
      && negb (Cola.esta_llena (GestorReservas.cola_reservas s)).
Proof.
  pose proof (validar_puede_reservar_acuerdo ahora id_usuario isbn s) as Hval.
  revert Hval.
  destruct (crear_reserva_casos ahora id_usuario isbn s)
    as [(Hex & Hs & Hno)|(Hcond & Hex & Hs)]; rewrite Hex, Hs; intros Hval.
  - by split_and!.
  - by split_and!.
Qed.

Lemma coincide_registro_de (ahora id isbn : string) (fecha : option string) :
  Cadena.strip id = id -> Cadena.strip isbn = isbn ->
  Cola.coincide id isbn (registro_de ahora id isbn fecha) = true.
Proof.
  intros Hid Hisbn. unfold Cola.coincide, registro_de. simpl.
  by rewrite Hid, Hisbn, !String.eqb_refl.
Qed.

Lemma quitar_primera_ultima (id isbn : string) (l : list Cola.registro)
    (reg : Cola.registro) :
  Forall (fun x => Cola.coincide id isbn x = false) l ->
  Cola.coincide id isbn reg = true ->
  Cola.quitar_primera id isbn (l ++ [reg]) = Some l.
Proof.
  intros Hl Hreg. induction Hl as [|a l Ha _ IH]; simpl.
  - by rewrite Hreg.
  - by rewrite Ha, IH.
Qed.

(** X28: a reservation made with stripped identifiers and then
    cancelled leaves the manager exactly as it was before the
    reservation. *)
Theorem crear_y_cancelar_reserva (ahora id_usuario isbn : string)
    (s : GestorReservas.t) :
  Cadena.strip id_usuario = id_usuario ->
  Cadena.strip isbn = isbn ->
  Reserva.exito (GestorReservas.crear_reserva ahora id_usuario isbn s).1 = true ->
  GestorReservas.cancelar_reserva id_usuario isbn
    (GestorReservas.crear_reserva ahora id_usuario isbn s).2
  = ({| Respuesta.exito := true;
        Respuesta.mensaje := "Reservation cancelled successfully" |}, s).
Proof.
  intros Hid Hisbn Hex.
  destruct (crear_reserva_casos ahora id_usuario isbn s)
    as [(Hf & _)|((_ & _ & Htiene & _) & _ & ->)]; [congruence|].
  apply tiene_reserva_false in Htiene.
  unfold GestorReservas.cancelar_reserva.
  cbn [GestorReservas.con_cola GestorReservas.cola_reservas].
  rewrite (tiene_reserva_true id_usuario isbn _
             (Cola.elementos (GestorReservas.cola_reservas s))
             (registro_de ahora id_usuario isbn (Some ahora)) []);
    [|done|by apply coincide_registro_de].
  cbn [negb]. unfold Cola.remover_reserva. cbn [Cola.elementos].
  rewrite quitar_primera_ultima;
    [|done|by apply coincide_registro_de].
  destruct s as [g u [l c]]. reflexivity.
Qed.

(** X29: with identifiers given stripped, the queue never comes to hold
    two reservations of one user for one book: [crear_reserva] keeps
    the queue free of duplicates, and so does [cancelar_reserva] for
    any user and book. *)
Theorem reservas_sin_duplicados (ahora id_usuario isbn id_c isbn_c : string)
    (s : GestorReservas.t) :
  Cadena.strip id_usuario = id_usuario ->
  Cadena.strip isbn = isbn ->
  sin_duplicados (GestorReservas.cola_reservas s) ->
  sin_duplicados
    (GestorReservas.cola_reservas
       (GestorReservas.crear_reserva ahora id_usuario isbn s).2) /\
  sin_duplicados
    (GestorReservas.cola_reservas
       (GestorReservas.cancelar_reserva id_c isbn_c s).2).
Proof.
  intros Hid Hisbn Hnd. unfold sin_duplicados in *. split.
  - destruct (crear_reserva_casos ahora id_usuario isbn s)
      as [(_ & -> & _)|((_ & _ & Htiene & _) & _ & ->)]; [done|].
    apply tiene_reserva_false in Htiene.
    cbn [GestorReservas.con_cola GestorReservas.cola_reservas Cola.elementos].
    rewrite fmap_app. apply NoDup_app. split_and!; [done| |].
    + intros x [a [-> Ha]]%list_elem_of_fmap Hx.
      apply list_elem_of_singleton in Hx. simpl in Hx.
      rewrite Hid, Hisbn in Hx. injection Hx as Hxi Hxs.
      rewrite Forall_forall in Htiene. specialize (Htiene a Ha).
      unfold Cola.coincide in Htiene.
      by rewrite Hxi, Hxs, !String.eqb_refl in Htiene.
    + apply NoDup_singleton.
  - unfold GestorReservas.cancelar_reserva.
    destruct (Cola.tiene_reserva id_c isbn_c (GestorReservas.cola_reservas s));
      cbn [negb]; [|done].
    unfold Cola.remover_reserva.
    pose proof (quitar_primera_spec id_c isbn_c
                  (Cola.elementos (GestorReservas.cola_reservas s))) as Hq.
    destruct (Cola.quitar_primera id_c isbn_c
                (Cola.elementos (GestorReservas.cola_reservas s)))
      as [l'|]; [|done].
    destruct Hq as (l1 & r & l2 & Hl & -> & _).
    cbn [GestorReservas.con_cola GestorReservas.cola_reservas Cola.elementos
         snd].
    eapply sublist_NoDup; [exact Hnd|]. rewrite Hl.
    apply fmap_sublist, sublist_app; [done|]. by apply sublist_cons.
Qed.

Lemma filter_vacio {B : Type} (p : B -> bool) (l : list B) :
  List.filter p l = [] -> List.filter (fun x => negb (p x)) l = l.
Proof.
  induction l as [|a l IH]; simpl; [done|].
  destruct (p a); simpl; [done|]. intros H. by rewrite IH.
Qed.

(** Removing the reservation of the user of the first record of a book
    removes that record. *)
Lemma quitar_primera_del_libro (isbn : string) (l : list Cola.registro)
    (r : Cola.registro) (rs : list Cola.registro) :
  List.filter (fun x => String.eqb (Cola.isbn x) isbn) l = r :: rs ->
  exists l',
    Cola.quitar_primera (Cola.id_usuario r) isbn l = Some l' /\
    List.filter (fun x => String.eqb (Cola.isbn x) isbn) l' = rs /\
    List.filter (fun x => negb (String.eqb (Cola.isbn x) isbn)) l'
    = List.filter (fun x => negb (String.eqb (Cola.isbn x) isbn)) l.
Proof.
  induction l as [|a l IH]; simpl; [done|]. unfold Cola.coincide.
  destruct (String.eqb (Cola.isbn a) isbn) eqn:Ha; simpl.
  - intros [= -> <-]. rewrite String.eqb_refl. simpl. by exists l.
  - intros Hl. rewrite andb_false_r.
    destruct (IH Hl) as (l' & -> & Hig & Hdif). simpl.
    exists (a :: l'). simpl. rewrite Ha. simpl. by rewrite Hig, Hdif.
Qed.

Lemma limpiar_bucle (isbn : string) (cap : option Z)
    (rs l : list Cola.registro) (n : Z) :
  List.filter (fun x => String.eqb (Cola.isbn x) isbn) l = rs ->
  fold_left (GestorReservas.limpiar_paso isbn) rs
    (n, {| Cola.elementos := l; Cola.capacidad_max := cap |})
  = (n + Z.of_nat (length rs),
     {| Cola.elementos :=
          List.filter (fun x => negb (String.eqb (Cola.isbn x) isbn)) l;
        Cola.capacidad_max := cap |}).
Proof.
  revert l n. induction rs as [|r rs IH]; intros l n Hl; simpl.
  - rewrite (filter_vacio _ l Hl). f_equal. lia.
  - destruct (quitar_primera_del_libro isbn l r rs Hl)
      as (l' & Hq & Hig & Hdif).
    unfold Cola.remover_reserva. simpl. rewrite Hq.
    rewrite (IH l' (n + 1) Hig), Hdif. f_equal. lia.
Qed.

(** X30: [limpiar_reservas_libro] removes every reservation of the book
    and no other, the remaining records keeping their order, and
    returns the number of reservations the book had. *)
Theorem limpiar_reservas_libro_total (isbn : string) (s : GestorReservas.t) :
  GestorReservas.limpiar_reservas_libro isbn s
  = (Cola.contar_reservas_libro isbn (GestorReservas.cola_reservas s),
     GestorReservas.con_cola
       {| Cola.elementos :=
            List.filter (fun x => negb (String.eqb (Cola.isbn x) isbn))
              (Cola.elementos (GestorReservas.cola_reservas s));
          Cola.capacidad_max :=
            Cola.capacidad_max (GestorReservas.cola_reservas s) |} s).
Proof.
  unfold GestorReservas.limpiar_reservas_libro, Cola.contar_reservas_libro,
    Cola.buscar_libro.
  destruct (GestorReservas.cola_reservas s) as [l cap] eqn:Hq. simpl.
  by rewrite (limpiar_bucle isbn cap _ l 0 eq_refl).
Qed.

End MasReservas.

(** ** Instances on the example system *)

Lemma crear_prestamo_efectos_testigo :
  exists res s',
    GestorPrestamos.crear_prestamo "2026-01-10 10:00:00" "U1" "ISBN-B"
      Ejemplo.sistema = (res, s') /\
    Prestamo.exito res = true /\
    Libro.stock (GestorPrestamos.libro_en s' 0)
    = Libro.stock (GestorPrestamos.libro_en Ejemplo.sistema 0) - 1 /\
    (forall r', r' <> 0%nat ->
       GestorPrestamos.libro_en s' r'
       = GestorPrestamos.libro_en Ejemplo.sistema r') /\
    GestorPrestamos.usuarios s'
    = <["U1" :=
          Usuario.con_prestados
            (Usuario.libros_prestados
               (Usuario.Usuario "U1" "Uno" "uno@biblioteca.co" true 0 3) + 1)
            (Usuario.Usuario "U1" "Uno" "uno@biblioteca.co" true 0 3)]>
        (GestorPrestamos.usuarios Ejemplo.sistema) /\
    entradas s' "U1"
    = entradas Ejemplo.sistema "U1"
      ++ [{| Pila.isbn := Cadena.strip "ISBN-B";
             Pila.fecha := "2026-01-10 10:00:00" |}] /\
    GestorPrestamos.obtener_prestamo_mas_reciente "U1" s'
    = Some {| Pila.isbn := Cadena.strip "ISBN-B";
              Pila.fecha := "2026-01-10 10:00:00" |} /\
    (forall k, k <> "U1" ->
       GestorPrestamos.historial_prestamos s' !! k
       = GestorPrestamos.historial_prestamos Ejemplo.sistema !! k) /\
    GestorPrestamos.cola_reservas s'
    = GestorPrestamos.cola_reservas Ejemplo.sistema.
Proof.
  apply (crear_prestamo_efectos "2026-01-10 10:00:00" "U1" "ISBN-B"
           Ejemplo.sistema
           (Usuario.Usuario "U1" "Uno" "uno@biblioteca.co" true 0 3) 0%nat).
  - vm_compute. reflexivity.
  - reflexivity.
  - vm_compute. reflexivity.
  - vm_compute. reflexivity.
  - reflexivity.
  - intros pila H. vm_compute in H. injection H as <-. reflexivity.
Defined.

Lemma limites_ejemplo : limites Ejemplo.sistema.
Proof.
  split.
  - unfold Ejemplo.sistema, Ejemplo.usuarios. simpl.
    repeat (apply map_Forall_insert_2; [simpl; lia|]).
    apply map_Forall_empty.
  - simpl. repeat (apply Forall_cons_2; [simpl; lia|]). apply Forall_nil_2.
Qed.

Lemma limites_preservados_testigo :
  limites
    (GestorPrestamos.crear_prestamo "2026-01-10 10:00:00" "U1" "ISBN-B"
       Ejemplo.sistema).2 /\
  limites
    (GestorPrestamos.devolver_libro "2026-01-10 10:00:00"
       "2026-01-10 10:00:01" "U2" "ISBN-A" Ejemplo.sistema).2.
Proof.
  apply (limites_preservados "2026-01-10 10:00:00" "U1" "ISBN-B"
           "2026-01-10 10:00:00" "2026-01-10 10:00:01" "U2" "ISBN-A").
  exact limites_ejemplo.
Defined.

Lemma devolver_libro_repetible_testigo :
  Devolucion.exito
    (GestorPrestamos.devolver_libro "2025-12-04 09:00:00"
       "2025-12-04 09:00:01" "U2" "ISBN-A"
       (GestorPrestamos.devolver_libro "2025-12-03 12:00:00"
          "2025-12-03 12:00:01" "U2" "ISBN-A"
          Ejemplo.sistema_sin_reservas).2).1 = true /\
  Libro.stock (GestorPrestamos.libro_en Ejemplo.sistema_sin_reservas 1) + 2
  <= Libro.stock
       (GestorPrestamos.libro_en
          (GestorPrestamos.devolver_libro "2025-12-04 09:00:00"
             "2025-12-04 09:00:01" "U2" "ISBN-A"
             (GestorPrestamos.devolver_libro "2025-12-03 12:00:00"
                "2025-12-03 12:00:01" "U2" "ISBN-A"
                Ejemplo.sistema_sin_reservas).2).2 1).
Proof.
  apply (devolver_libro_repetible "2025-12-03 12:00:00" "2025-12-03 12:00:01"
           "2025-12-04 09:00:00" "2025-12-04 09:00:01" "U2" "ISBN-A"
           Ejemplo.sistema_sin_reservas 1%nat).
  - exact referencias_validas_ejemplo.
  - vm_compute. reflexivity.
  - vm_compute. reflexivity.
Defined.

Lemma prestar_y_devolver_testigo :
  exists res s2,
    GestorPrestamos.devolver_libro "2026-01-20 10:00:00" "2026-01-20 10:00:01"
      "U9" "ISBN-B"
      (GestorPrestamos.crear_prestamo "2026-01-10 10:00:00" "U9" "ISBN-B"
         Ejemplo.sistema).2 = (res, s2) /\
    Devolucion.exito res = true /\
    Devolucion.reserva_asignada res = Some false /\
    GestorPrestamos.gestor_inventario s2
    = GestorPrestamos.gestor_inventario Ejemplo.sistema /\
    GestorPrestamos.usuarios s2 = GestorPrestamos.usuarios Ejemplo.sistema /\
    GestorPrestamos.cola_reservas s2
    = GestorPrestamos.cola_reservas Ejemplo.sistema /\
    entradas s2 "U9"
    = entradas Ejemplo.sistema "U9"
      ++ [{| Pila.isbn := "ISBN-B"; Pila.fecha := "2026-01-10 10:00:00" |}].
Proof.
  apply (prestar_y_devolver "2026-01-10 10:00:00" "2026-01-20 10:00:00"
           "2026-01-20 10:00:01" "U9" "ISBN-B" Ejemplo.sistema
           (Usuario.Usuario "U9" "Nueve" "nueve@biblioteca.co" true 0 3)
           0%nat).
  - vm_compute. reflexivity.
  - reflexivity.
  - simpl. lia.
  - vm_compute. reflexivity.
  - vm_compute. reflexivity.
  - reflexivity.
  - reflexivity.
  - intros pila H. vm_compute in H. discriminate H.
  - reflexivity.
Defined.

Lemma devolver_libro_reserva_no_elegible_testigo :
  exists res s',
    GestorPrestamos.devolver_libro "2025-12-03 12:00:00"
      "2025-12-03 12:00:01" "U2" "ISBN-A" Ejemplo.sistema_al_limite
    = (res, s') /\
    Devolucion.exito res = true /\
    Devolucion.reserva_asignada res = Some true /\
    Libro.stock (GestorPrestamos.libro_en s' 1)
    = Libro.stock (GestorPrestamos.libro_en Ejemplo.sistema_al_limite 1) + 2 /\
    Cola.elementos (GestorPrestamos.cola_reservas s') = [] /\
    GestorPrestamos.usuarios s' !! "U1"
    = Some (Usuario.Usuario "U1" "Uno" "uno@biblioteca.co" true 3 3) /\
    GestorPrestamos.historial_prestamos s'
    = GestorPrestamos.historial_prestamos Ejemplo.sistema_al_limite.
Proof.
  apply (devolver_libro_reserva_no_elegible "2025-12-03 12:00:00"
           "2025-12-03 12:00:01" "U1" "U2" "ISBN-A" "2025-12-02 08:00:00"
           Ejemplo.sistema_al_limite
           (Usuario.Usuario "U1" "Uno" "uno@biblioteca.co" true 3 3) 1%nat []).
  - discriminate.
  - exact referencias_validas_ejemplo.
  - vm_compute. reflexivity.
  - eexists. vm_compute. reflexivity.
  - apply list_elem_of_In. vm_compute. auto.
  - reflexivity.
  - vm_compute. reflexivity.
  - reflexivity.
Defined.

Lemma devolver_libro_isbn_con_espacios_testigo :
  Devolucion.exito
    (GestorPrestamos.devolver_libro "2026-01-20 10:00:00" "2026-01-20 10:00:01"
       "U1" " ISBN-B "
       (GestorPrestamos.crear_prestamo "2026-01-10 10:00:00" "U1" " ISBN-B "
          Ejemplo.sistema).2).1 = false /\
  (GestorPrestamos.devolver_libro "2026-01-20 10:00:00" "2026-01-20 10:00:01"
     "U1" " ISBN-B "
     (GestorPrestamos.crear_prestamo "2026-01-10 10:00:00" "U1" " ISBN-B "
        Ejemplo.sistema).2).2
  = (GestorPrestamos.crear_prestamo "2026-01-10 10:00:00" "U1" " ISBN-B "
       Ejemplo.sistema).2.
Proof.
  apply (devolver_libro_isbn_con_espacios "2026-01-10 10:00:00"
           "2026-01-20 10:00:00" "2026-01-20 10:00:01" "U1" " ISBN-B "
           Ejemplo.sistema).
  - intros e He. vm_compute in He.
    apply list_elem_of_singleton in He. by subst e.
  - intros H. vm_compute in H. discriminate H.
Defined.

(** The loan with the padded ISBN is granted all the same. *)
Example crear_prestamo_con_espacios :
  Prestamo.exito
    (GestorPrestamos.crear_prestamo "2026-01-10 10:00:00" "U1" " ISBN-B "
       Ejemplo.sistema).1 = true.
Proof. vm_compute. reflexivity. Qed.

Lemma desactivar_usuario_bloquea_testigo :
  GestorPrestamos.crear_prestamo "2026-01-10 10:00:00" "U9" "ISBN-B"
    (GestorPrestamos.con_usuarios
       (GestorUsuarios.desactivar_usuario "U9"
          (GestorPrestamos.usuarios Ejemplo.sistema)).2 Ejemplo.sistema)
  = (Prestamo.fallo "User account is inactive",
     GestorPrestamos.con_usuarios
       (GestorUsuarios.desactivar_usuario "U9"
          (GestorPrestamos.usuarios Ejemplo.sistema)).2 Ejemplo.sistema) /\
  (Usuario.activo (Usuario.Usuario "U9" "Nueve" "nueve@biblioteca.co" true 0 3)
   = true ->
   (GestorUsuarios.activar_usuario "U9"
      (GestorUsuarios.desactivar_usuario "U9"
         (GestorPrestamos.usuarios Ejemplo.sistema)).2).2
   = GestorPrestamos.usuarios Ejemplo.sistema).
Proof.
  apply (desactivar_usuario_bloquea "2026-01-10 10:00:00" "U9" "ISBN-B"
           Ejemplo.sistema
           (Usuario.Usuario "U9" "Nueve" "nueve@biblioteca.co" true 0 3)).
  vm_compute. reflexivity.
Defined.

Lemma crear_y_cancelar_reserva_testigo :
  GestorReservas.cancelar_reserva "U2" "ISBN-A"
    (GestorReservas.crear_reserva "2025-12-02 09:00:00" "U2" "ISBN-A"
       Ejemplo.reservas).2
  = ({| Respuesta.exito := true;
        Respuesta.mensaje := "Reservation cancelled successfully" |},
     Ejemplo.reservas).
Proof.
  apply (crear_y_cancelar_reserva "2025-12-02 09:00:00" "U2" "ISBN-A"
           Ejemplo.reservas).
  - reflexivity.
  - reflexivity.
  - vm_compute. reflexivity.
Defined.

Lemma reservas_sin_duplicados_testigo :
  sin_duplicados
    (GestorReservas.cola_reservas
       (GestorReservas.crear_reserva "2025-12-02 09:00:00" "U2" "ISBN-A"
          Ejemplo.reservas).2) /\
  sin_duplicados
    (GestorReservas.cola_reservas
       (GestorReservas.cancelar_reserva "U1" "ISBN-A" Ejemplo.reservas).2).
Proof.
  apply (reservas_sin_duplicados "2025-12-02 09:00:00" "U2" "ISBN-A"
           "U1" "ISBN-A" Ejemplo.reservas).
  - reflexivity.
  - reflexivity.
  - unfold sin_duplicados. simpl. apply NoDup_singleton.
Defined.

(** With a padded ISBN the duplicate check does not see the reservation
    U1 already holds: the second one is accepted, and the queue holds
    the same user and book twice. *)
Example crear_reserva_duplicada_con_espacios :
  Reserva.exito
    (GestorReservas.crear_reserva "2025-12-02 09:00:00" "U1" " ISBN-A"
       Ejemplo.reservas).1 = true /\
  Cola.elementos
    (GestorReservas.cola_reservas
       (GestorReservas.crear_reserva "2025-12-02 09:00:00" "U1" " ISBN-A"
          Ejemplo.reservas).2)
  = [ Cola.Registro "U1" "ISBN-A" "2025-12-02 08:00:00";
      Cola.Registro "U1" "ISBN-A" "2025-12-02 09:00:00" ].
Proof. split; vm_compute; reflexivity. Qed.
